(** * libblkid low-level probing: a shallow embedding of [libs/blkid/src/probe.c]

    The session object [struct blkid_struct_probe], its two-tier buffer
    cache, the tag store with the value emitters, the filter bitmap and the
    dispatch loop [blkid_do_probe] are transcribed function by function.

    Conventions of the embedding:
    - C integers are [Z]; [size_t] and [unsigned long] are 64 bits wide
      (LP64) and their wrap-around is written out where the code relies on
      it; signed overflow, which C leaves undefined, is not modelled;
    - a byte is a [Z] in [0, 256); a [(pointer, length)] pair is a list of
      bytes; a C string is the list of its bytes before the terminating NUL;
    - a pointer that may be [NULL] is an [option];
    - an access through a null pointer or outside an array is undefined
      behaviour and is the outcome [Fault]. *)

From Stdlib Require Import ZArith Lia ZifyBool Bool Ascii String.
From stdpp Require Import base option list strings.

Local Open Scope Z_scope.

(** ** Constants of the headers

    [blkidP.h] and [blkid.h] are not among the sources; the constants they
    define are parameters of the development. *)

Class blkid_consts := {
  BLKID_SB_BUFSIZ : Z;
  BLKID_PROBVAL_BUFSIZ : Z;
  BLKID_PROBVAL_NVALS : Z;
  BLKID_PROBREQ_LABEL : Z;
  BLKID_PROBREQ_LABELRAW : Z;
  BLKID_PROBREQ_UUID : Z;
  BLKID_PROBREQ_UUIDRAW : Z;
  BLKID_PROBREQ_TYPE : Z;
  BLKID_PROBREQ_USAGE : Z;
  BLKID_PROBREQ_VERSION : Z;
  BLKID_USAGE_FILESYSTEM : Z;
  BLKID_USAGE_RAID : Z;
  BLKID_USAGE_CRYPTO : Z;
  BLKID_USAGE_OTHER : Z;
  BLKID_FLTR_NOTIN : Z;
  BLKID_FLTR_ONLYIN : Z;
  BLKID_ENC_UTF16LE : Z;
  BLKID_ENC_UTF16BE : Z
}.

(** ** The C library and the kernel

    Calls that leave the file are oracles.  A device is seen through [lseek]
    and [read] only, and the code seeks before every read, so [read] takes
    the file position the preceding seek established. *)

Inductive va_arg : Type :=
  | va_str (s : option (list Z))
  | va_int (n : Z).

Class blkid_sys := {
  (** [lseek fd pos]: [true] when [lseek(fd, pos, SEEK_SET) >= 0]. *)
  lseek : Z -> Z -> bool;
  (** [blkid_llseek fd pos]: the same for the 64-bit seek of llseek.c. *)
  blkid_llseek : Z -> Z -> bool;
  (** [read fd pos count]: [None] for a negative return, else the bytes
      delivered (the model keeps at most [count] of them). *)
  read : Z -> Z -> Z -> option (list Z);
  (** [malloc n]: [None] for [NULL], else the indeterminate contents of the
      fresh block. *)
  malloc : Z -> option (list Z);
  (** [blkdev_get_size fd]: the size stored through the out parameter, if
      the call stores one. *)
  blkdev_get_size : Z -> option Z;
  (** [vsnprintf fmt ap]: [None] for a negative return, else the complete
      formatted text, before truncation to the destination. *)
  vsnprintf : string -> list va_arg -> option (list Z);
  (** [vsnprintf_failed fmt ap], for a call that fails: the value it
      returns, [Z.neg p], and the bytes it has stored from the start of the
      destination before it fails. *)
  vsnprintf_failed : string -> list va_arg -> positive * list Z
}.

(** ** Outcomes *)

Inductive outcome (A : Type) : Type :=
  | Ok (a : A)
  | Fault.
Arguments Ok {A} a.
Arguments Fault {A}.

Global Instance outcome_ret : MRet outcome := fun _ a => Ok a.
Global Instance outcome_bind : MBind outcome := fun _ _ k m =>
  match m with
  | Ok a => k a
  | Fault => Fault
  end.

Global Instance outcome_fmap : FMap outcome := fun _ _ f m =>
  match m with
  | Ok a => Ok (f a)
  | Fault => Fault
  end.

Global Arguments outcome_bind _ _ _ !_ /.
Global Arguments outcome_fmap _ _ _ !_ /.

(** ** The session object *)

(** [struct blkid_prval]: a borrowed name, an inline value and its length. *)
Record blkid_prval := mk_prval {
  v_name : option string;
  v_data : list Z;
  v_len : Z
}.

Record blkid_struct_probe := mk_probe {
  pr_fd : Z;
  pr_off : Z;
  pr_size : Z;
  pr_sbbuf : option (list Z);
  pr_sbbuf_len : Z;
  pr_buf : option (list Z);
  pr_buf_off : Z;
  pr_buf_len : Z;
  pr_buf_max : Z;
  pr_probreq : Z;
  pr_fltr : option (list Z);
  pr_idx : Z;
  pr_vals : list blkid_prval;
  pr_nvals : Z
}.

(** Assignments to one field. *)
Definition set_fd (x : Z) (pr : blkid_struct_probe) :=
  mk_probe x (pr_off pr) (pr_size pr) (pr_sbbuf pr) (pr_sbbuf_len pr)
    (pr_buf pr) (pr_buf_off pr) (pr_buf_len pr) (pr_buf_max pr)
    (pr_probreq pr) (pr_fltr pr) (pr_idx pr) (pr_vals pr) (pr_nvals pr).
Definition set_off (x : Z) (pr : blkid_struct_probe) :=
  mk_probe (pr_fd pr) x (pr_size pr) (pr_sbbuf pr) (pr_sbbuf_len pr)
    (pr_buf pr) (pr_buf_off pr) (pr_buf_len pr) (pr_buf_max pr)
    (pr_probreq pr) (pr_fltr pr) (pr_idx pr) (pr_vals pr) (pr_nvals pr).
Definition set_size (x : Z) (pr : blkid_struct_probe) :=
  mk_probe (pr_fd pr) (pr_off pr) x (pr_sbbuf pr) (pr_sbbuf_len pr)
    (pr_buf pr) (pr_buf_off pr) (pr_buf_len pr) (pr_buf_max pr)
    (pr_probreq pr) (pr_fltr pr) (pr_idx pr) (pr_vals pr) (pr_nvals pr).
Definition set_sbbuf (x : option (list Z)) (pr : blkid_struct_probe) :=
  mk_probe (pr_fd pr) (pr_off pr) (pr_size pr) x (pr_sbbuf_len pr) (pr_buf pr)
    (pr_buf_off pr) (pr_buf_len pr) (pr_buf_max pr) (pr_probreq pr)
    (pr_fltr pr) (pr_idx pr) (pr_vals pr) (pr_nvals pr).
Definition set_sbbuf_len (x : Z) (pr : blkid_struct_probe) :=
  mk_probe (pr_fd pr) (pr_off pr) (pr_size pr) (pr_sbbuf pr) x (pr_buf pr)
    (pr_buf_off pr) (pr_buf_len pr) (pr_buf_max pr) (pr_probreq pr)
    (pr_fltr pr) (pr_idx pr) (pr_vals pr) (pr_nvals pr).
Definition set_buf (x : option (list Z)) (pr : blkid_struct_probe) :=
  mk_probe (pr_fd pr) (pr_off pr) (pr_size pr) (pr_sbbuf pr) (pr_sbbuf_len pr)
    x (pr_buf_off pr) (pr_buf_len pr) (pr_buf_max pr) (pr_probreq pr)
    (pr_fltr pr) (pr_idx pr) (pr_vals pr) (pr_nvals pr).
Definition set_buf_off (x : Z) (pr : blkid_struct_probe) :=
  mk_probe (pr_fd pr) (pr_off pr) (pr_size pr) (pr_sbbuf pr) (pr_sbbuf_len pr)
    (pr_buf pr) x (pr_buf_len pr) (pr_buf_max pr) (pr_probreq pr) (pr_fltr pr)
    (pr_idx pr) (pr_vals pr) (pr_nvals pr).
Definition set_buf_len (x : Z) (pr : blkid_struct_probe) :=
  mk_probe (pr_fd pr) (pr_off pr) (pr_size pr) (pr_sbbuf pr) (pr_sbbuf_len pr)
    (pr_buf pr) (pr_buf_off pr) x (pr_buf_max pr) (pr_probreq pr) (pr_fltr pr)
    (pr_idx pr) (pr_vals pr) (pr_nvals pr).
Definition set_buf_max (x : Z) (pr : blkid_struct_probe) :=
  mk_probe (pr_fd pr) (pr_off pr) (pr_size pr) (pr_sbbuf pr) (pr_sbbuf_len pr)
    (pr_buf pr) (pr_buf_off pr) (pr_buf_len pr) x (pr_probreq pr) (pr_fltr pr)
    (pr_idx pr) (pr_vals pr) (pr_nvals pr).
Definition set_probreq (x : Z) (pr : blkid_struct_probe) :=
  mk_probe (pr_fd pr) (pr_off pr) (pr_size pr) (pr_sbbuf pr) (pr_sbbuf_len pr)
    (pr_buf pr) (pr_buf_off pr) (pr_buf_len pr) (pr_buf_max pr) x (pr_fltr pr)
    (pr_idx pr) (pr_vals pr) (pr_nvals pr).
Definition set_fltr (x : option (list Z)) (pr : blkid_struct_probe) :=
  mk_probe (pr_fd pr) (pr_off pr) (pr_size pr) (pr_sbbuf pr) (pr_sbbuf_len pr)
    (pr_buf pr) (pr_buf_off pr) (pr_buf_len pr) (pr_buf_max pr)
    (pr_probreq pr) x (pr_idx pr) (pr_vals pr) (pr_nvals pr).
Definition set_idx (x : Z) (pr : blkid_struct_probe) :=
  mk_probe (pr_fd pr) (pr_off pr) (pr_size pr) (pr_sbbuf pr) (pr_sbbuf_len pr)
    (pr_buf pr) (pr_buf_off pr) (pr_buf_len pr) (pr_buf_max pr)
    (pr_probreq pr) (pr_fltr pr) x (pr_vals pr) (pr_nvals pr).
Definition set_vals (x : list blkid_prval) (pr : blkid_struct_probe) :=
  mk_probe (pr_fd pr) (pr_off pr) (pr_size pr) (pr_sbbuf pr) (pr_sbbuf_len pr)
    (pr_buf pr) (pr_buf_off pr) (pr_buf_len pr) (pr_buf_max pr)
    (pr_probreq pr) (pr_fltr pr) (pr_idx pr) x (pr_nvals pr).
Definition set_nvals (x : Z) (pr : blkid_struct_probe) :=
  mk_probe (pr_fd pr) (pr_off pr) (pr_size pr) (pr_sbbuf pr) (pr_sbbuf_len pr)
    (pr_buf pr) (pr_buf_off pr) (pr_buf_len pr) (pr_buf_max pr)
    (pr_probreq pr) (pr_fltr pr) (pr_idx pr) (pr_vals pr) x.

(** [struct blkid_idmag]: a magic string (its [len] is the length of the
    list) expected [sboff] bytes into kilobyte [kboff]. *)
Record blkid_idmag := mk_idmag {
  magic : list Z;
  kboff : Z;
  sboff : Z
}.

(** [struct blkid_idinfo].  [magics] is the array before its terminating
    entry (the one whose [magic] is [NULL]), or [None] for a null pointer.
    A probing function receives the session and the magic that matched and
    returns its verdict with the session as it leaves it. *)
Record blkid_idinfo := mk_idinfo {
  id_name : string;
  id_usage : Z;
  id_magics : option (list blkid_idmag);
  id_probefunc :
    option (blkid_struct_probe -> option blkid_idmag ->
            outcome (Z * blkid_struct_probe))
}.

(** ** Memory helpers *)

(** The bytes of a string literal. *)
Fixpoint bytes_of (s : string) : list Z :=
  match s with
  | EmptyString => []
  | String a s' => Z.of_N (N_of_ascii a) :: bytes_of s'
  end.

(** [memcpy(dst, src, length src)] at the start of [dst]. *)
Definition memcpy (dst src : list Z) : list Z :=
  src ++ drop (length src) dst.

(** The [len] bytes at [p + off]. *)
Definition slice (off len : Z) (p : list Z) : list Z :=
  take (Z.to_nat len) (drop (Z.to_nat off) p).

(** [a[i] = b], a [Fault] outside the array. *)
Definition store_byte (i b : Z) (a : list Z) : outcome (list Z) :=
  if (0 <=? i) && (i <? Z.of_nat (length a))
  then Ok (<[Z.to_nat i := b]> a)
  else Fault.

Definition bit_set (x flag : Z) : bool := negb (Z.land x flag =? 0).

(** [x = new] for a variable [x] that holds [old]. *)
Definition overwrite {A : Type} (old new : A) : A := new.

Section Probe.
Context {consts : blkid_consts} {sys : blkid_sys}.

(** A block of [n] bytes from [malloc], and [realloc(old, n)] for a block
    that grows: the old contents, then indeterminate bytes. *)
Definition alloc (n : Z) : option (list Z) :=
  (fun junk => take (Z.to_nat n) (junk ++ replicate (Z.to_nat n) 0))
    <$> malloc n.

Definition realloc (old : option (list Z)) (n : Z) : option (list Z) :=
  (fun junk =>
     take (Z.to_nat n) (default [] old ++ junk ++ replicate (Z.to_nat n) 0))
    <$> malloc n.

(** [read(fd, dst, count)] at file position [pos]: the return value and the
    destination afterwards. *)
Definition read_into (fd pos count : Z) (dst : list Z) : Z * list Z :=
  match read fd pos count with
  | None => (-1, dst)
  | Some bs =>
      let got := take (Z.to_nat count) bs in
      (Z.of_nat (length got), memcpy dst got)
  end.

(** ** blkid_probe_reset_vals, blkid_reset_probe *)

Definition zero_prval : blkid_prval :=
  mk_prval None (replicate (Z.to_nat BLKID_PROBVAL_BUFSIZ) 0) 0.

Definition blkid_probe_reset_vals (pr : blkid_struct_probe) :=
  set_nvals 0
    (set_vals (replicate (Z.to_nat BLKID_PROBVAL_NVALS) zero_prval) pr).

Definition blkid_reset_probe (pr : blkid_struct_probe) :=
  let pr := set_buf ((fun b => replicate (length b) 0) <$> pr_buf pr) pr in
  let pr := set_buf_off 0 pr in
  let pr := set_buf_len 0 pr in
  let pr :=
    set_sbbuf ((fun b => replicate (length b) 0) <$> pr_sbbuf pr) pr in
  let pr := set_sbbuf_len 0 pr in
  blkid_probe_reset_vals pr.

(** ** blkid_probe_get_buffer *)

(** The superblock tier: allocate on first use, fill while [sbbuf_len] is
    zero, then serve the window if the filled part covers it. *)
Definition sb_ensure (pr : blkid_struct_probe) : option blkid_struct_probe :=
  match pr_sbbuf pr with
  | Some _ => Some pr
  | None => (fun b => set_sbbuf (Some b) pr) <$> alloc BLKID_SB_BUFSIZ
  end.

Definition sb_fill (pr : blkid_struct_probe) : option blkid_struct_probe :=
  if pr_sbbuf_len pr =? 0 then
    if lseek (pr_fd pr) (pr_off pr) then
      let '(ret_read, b) :=
        read_into (pr_fd pr) (pr_off pr) BLKID_SB_BUFSIZ
                  (default [] (pr_sbbuf pr)) in
      let ret_read := if ret_read <? 0 then 0 else ret_read in
      Some (set_sbbuf_len ret_read (set_sbbuf (Some b) pr))
    else None
  else Some pr.

(** The general tier: grow the buffer when it is too small, which also
    forgets the cached window. *)
Definition buf_ensure (pr : blkid_struct_probe) (len : Z)
  : option (bool * blkid_struct_probe) :=
  if len >? pr_buf_max pr then
    (fun nb =>
       (true,
        set_buf_len 0 (set_buf_off 0 (set_buf_max len (set_buf (Some nb) pr)))))
      <$> realloc (pr_buf pr) len
  else Some (false, pr).

Definition blkid_probe_get_buffer (pr : blkid_struct_probe) (off len : Z)
  : option (list Z) * blkid_struct_probe :=
  if off + len <=? BLKID_SB_BUFSIZ then
    match sb_ensure pr with
    | None => (None, pr)
    | Some pr1 =>
        match sb_fill pr1 with
        | None => (None, pr1)
        | Some pr2 =>
            if off + len >? pr_sbbuf_len pr2 then (None, pr2)
            else (Some (slice off len (default [] (pr_sbbuf pr2))), pr2)
        end
    end
  else
    match buf_ensure pr len with
    | None => (None, pr)
    | Some (newbuf, pr1) =>
        if newbuf || (off <? pr_buf_off pr1)
           || (off + len >? pr_buf_off pr1 + pr_buf_len pr1)
        then
          if blkid_llseek (pr_fd pr1) (pr_off pr1 + off) then
            match pr_buf pr1 with
            | None => (None, pr1)
            | Some b =>
                let '(ret_read, b') :=
                  read_into (pr_fd pr1) (pr_off pr1 + off) len b in
                let pr2 := set_buf (Some b') pr1 in
                if negb (ret_read =? len) then (None, pr2)
                else
                  let pr3 := set_buf_len len (set_buf_off off pr2) in
                  (Some (slice (if off =? 0 then 0 else off - pr_buf_off pr3)
                               len b'), pr3)
            end
          else (None, pr1)
        else
          (Some (slice (if off =? 0 then 0 else off - pr_buf_off pr1) len
                       (default [] (pr_buf pr1))), pr1)
    end.

(** ** The tag store *)

Definition blkid_probe_numof_values (pr : option blkid_struct_probe) : Z :=
  match pr with
  | None => -1
  | Some pr => pr_nvals pr
  end.

(** [*v] for a pointer into [pr->vals]: [None] is [NULL], [Some i] is
    [&pr->vals[i]]. *)
Definition deref (pr : blkid_struct_probe) (v : option Z)
  : outcome blkid_prval :=
  match v with
  | None => Fault
  | Some i =>
      if 0 <=? i then
        match pr_vals pr !! Z.to_nat i with
        | Some x => Ok x
        | None => Fault
        end
      else Fault
  end.

(** [*v = x] for a pointer that [deref] accepts. *)
Definition assign (pr : blkid_struct_probe) (v : option Z) (x : blkid_prval)
  : blkid_struct_probe :=
  match v with
  | None => pr
  | Some i => set_vals (<[Z.to_nat i := x]> (pr_vals pr)) pr
  end.

Definition blkid_probe_assign_value (pr : blkid_struct_probe)
    (name : option string) : option Z * blkid_struct_probe :=
  match name with
  | None => (None, pr)
  | Some _ =>
      if pr_nvals pr >=? BLKID_PROBVAL_NVALS then (None, pr)
      else
        let i := pr_nvals pr in
        let vals :=
          alter (fun x => mk_prval name (v_data x) (v_len x)) (Z.to_nat i)
                (pr_vals pr) in
        (Some i, set_nvals (i + 1) (set_vals vals pr))
  end.

Definition blkid_probe_set_value (pr : blkid_struct_probe)
    (name : option string) (data : list Z)
  : outcome (Z * blkid_struct_probe) :=
  let data := take (Z.to_nat BLKID_PROBVAL_BUFSIZ) data in
  let len := Z.of_nat (length data) in
  match blkid_probe_assign_value pr name with
  | (None, pr) => Ok (-1, pr)
  | (v, pr) =>
      x ← deref pr v;
      Ok (0, assign pr v (mk_prval (v_name x) (memcpy (v_data x) data) len))
  end.

(** [size_t] arithmetic. *)
Definition size_t (n : Z) : Z := n mod 2 ^ 64.

(** What [snprintf(dst, size, ...)] leaves in [dst] when the complete text
    is [text]: at most [size - 1] bytes of it and a NUL. *)
Definition snprintf_into (dst : list Z) (size : Z) (text : list Z) : list Z :=
  if size <=? 0 then dst
  else memcpy dst (take (Z.to_nat (size - 1)) text ++ [0]).

(** [vsnprintf(dst, size, fmt, ap)]: the value returned and [dst]
    afterwards.  A call that fails may have written to [dst]. *)
Definition vsnprintf_into (dst : list Z) (size : Z) (fmt : string)
    (ap : list va_arg) : Z * list Z :=
  match vsnprintf fmt ap with
  | Some text => (Z.of_nat (length text), snprintf_into dst size text)
  | None =>
      let '(p, stored) := vsnprintf_failed fmt ap in
      (Z.neg p, memcpy dst (take (Z.to_nat size) stored))
  end.

Definition blkid_probe_vsprintf_value (pr : blkid_struct_probe)
    (name : option string) (fmt : string) (ap : list va_arg)
  : outcome (Z * blkid_struct_probe) :=
  match blkid_probe_assign_value pr name with
  | (None, pr) => Ok (-1, pr)
  | (v, pr) =>
      x ← deref pr v;
      let '(ret, d) :=
        vsnprintf_into (v_data x) BLKID_PROBVAL_BUFSIZ fmt ap in
      let pr := assign pr v (mk_prval (v_name x) d (v_len x)) in
      let len := size_t ret in
      if len <=? 0 then Ok (-1, set_nvals (pr_nvals pr - 1) pr)
      else Ok (0, assign pr v (mk_prval (v_name x) d (size_t (len + 1))))
  end.

(** C strings: [strnlen], [strlen] and the bytes a [char *] with its
    terminator denotes. *)
Fixpoint strnlen (s : list Z) (n : nat) {struct n} : Z :=
  match n with
  | O => 0
  | S n' =>
      match s with
      | c :: s' => if c =? 0 then 0 else 1 + strnlen s' n'
      | [] => 0
      end
  end.

Definition strlen (s : list Z) : Z := strnlen s (length s).

Definition with_nul (s : list Z) : list Z :=
  take (Z.to_nat (strlen s)) s ++ [0].

Definition blkid_probe_set_version (pr : blkid_struct_probe)
    (version : list Z) : outcome (Z * blkid_struct_probe) :=
  if bit_set (pr_probreq pr) BLKID_PROBREQ_VERSION
  then blkid_probe_set_value pr (Some "VERSION"%string) (with_nul version)
  else Ok (0, pr).

Definition blkid_probe_sprintf_version (pr : blkid_struct_probe)
    (fmt : string) (ap : list va_arg) : outcome (Z * blkid_struct_probe) :=
  if bit_set (pr_probreq pr) BLKID_PROBREQ_VERSION
  then blkid_probe_vsprintf_value pr (Some "VERSION"%string) fmt ap
  else Ok (0, pr).

Definition blkid_probe_set_usage (pr : blkid_struct_probe) (usage : Z)
  : outcome (Z * blkid_struct_probe) :=
  let u :=
    if bit_set usage BLKID_USAGE_FILESYSTEM then "filesystem"
    else if bit_set usage BLKID_USAGE_RAID then "raid"
    else if bit_set usage BLKID_USAGE_CRYPTO then "crypto"
    else if bit_set usage BLKID_USAGE_OTHER then "other"
    else "unknown" in
  blkid_probe_set_value pr (Some "USAGE"%string) (with_nul (bytes_of u)).

(** ** blkid_probe_set_label *)

(** [isspace] in the C locale. *)
Definition isspace (c : Z) : bool :=
  (c =? 32) || ((9 <=? c) && (c <=? 13)).

(** [while (i--) if (!isspace(data[i])) break;] started with [i = n]: the
    value of [i] when the loop is left. *)
Fixpoint strip_loop (data : list Z) (n : nat) : Z :=
  match n with
  | O => -1
  | S i =>
      if isspace (default 0 (data !! i)) then strip_loop data i
      else Z.of_nat i
  end.

Definition blkid_probe_set_label (pr : blkid_struct_probe) (label : list Z)
  : outcome (Z * blkid_struct_probe) :=
  let label := take (Z.to_nat BLKID_PROBVAL_BUFSIZ) label in
  let len := Z.of_nat (length label) in
  '(rc, pr) ←
    (if bit_set (pr_probreq pr) BLKID_PROBREQ_LABELRAW
     then blkid_probe_set_value pr (Some "LABEL_RAW"%string) label
     else Ok (0, pr));
  if rc <? 0 then Ok (-1, pr)
  else if negb (bit_set (pr_probreq pr) BLKID_PROBREQ_LABEL) then Ok (0, pr)
  else
    match blkid_probe_assign_value pr (Some "LABEL"%string) with
    | (None, pr) => Ok (-1, pr)
    | (v, pr) =>
        x ← deref pr v;
        d ← store_byte len 0 (memcpy (v_data x) label);
        let i := strip_loop d (Z.to_nat (strnlen d (Z.to_nat len))) in
        let i := i + 1 in
        d ← store_byte i 0 d;
        Ok (0, assign pr v (mk_prval (v_name x) d (i + 1)))
    end.

(** ** encode_to_utf8, blkid_probe_set_utf8label *)

(** The bytes the loop of [encode_to_utf8] stores from [dest[j]] on, closed
    by the NUL written on leaving; [len] is the size of [dest]. *)
Fixpoint encode_loop (enc len : Z) (src : list Z) (j : Z) : list Z :=
  match src with
  | b0 :: b1 :: rest =>
      let c :=
        if enc =? BLKID_ENC_UTF16LE
        then Z.lor (Z.shiftl b1 8) b0 mod 2 ^ 16
        else Z.lor (Z.shiftl b0 8) b1 mod 2 ^ 16 in
      if c =? 0 then [0]
      else if c <? 128 then
        if j + 1 >=? len then [0]
        else c mod 2 ^ 8 :: encode_loop enc len rest (j + 1)
      else if c <? 2048 then
        if j + 2 >=? len then [0]
        else Z.lor 192 (Z.shiftr c 6) mod 2 ^ 8
             :: Z.lor 128 (Z.land c 63) mod 2 ^ 8
             :: encode_loop enc len rest (j + 2)
      else
        if j + 3 >=? len then [0]
        else Z.lor 224 (Z.shiftr c 12) mod 2 ^ 8
             :: Z.lor 128 (Z.land (Z.shiftr c 6) 63) mod 2 ^ 8
             :: Z.lor 128 (Z.land c 63) mod 2 ^ 8
             :: encode_loop enc len rest (j + 3)
  | _ => [0]
  end.

(** [encode_to_utf8(enc, dest, len, src, count)]: the value returned and
    [dest] afterwards. *)
Definition encode_to_utf8 (enc : Z) (dest : list Z) (len : Z) (src : list Z)
  : Z * list Z :=
  let out := encode_loop enc len src 0 in
  (Z.of_nat (length out) - 1, memcpy dest out).

Definition blkid_probe_set_utf8label (pr : blkid_struct_probe)
    (label : list Z) (enc : Z) : outcome (Z * blkid_struct_probe) :=
  '(rc, pr) ←
    (if bit_set (pr_probreq pr) BLKID_PROBREQ_LABELRAW
     then blkid_probe_set_value pr (Some "LABEL_RAW"%string) label
     else Ok (0, pr));
  if rc <? 0 then Ok (-1, pr)
  else if negb (bit_set (pr_probreq pr) BLKID_PROBREQ_LABEL) then Ok (0, pr)
  else
    match blkid_probe_assign_value pr (Some "LABEL"%string) with
    | (None, pr) => Ok (-1, pr)
    | (v, pr) =>
        x ← deref pr v;
        let '(n, d) :=
          encode_to_utf8 enc (v_data x) BLKID_PROBVAL_BUFSIZ label in
        Ok (0, assign pr v (mk_prval (v_name x) d n))
    end.

(** ** UUIDs *)

Fixpoint uuid_is_empty (buf : list Z) : bool :=
  match buf with
  | [] => true
  | b :: buf' => if b =? 0 then uuid_is_empty buf' else false
  end.

(** [strncpy(dst, src, n)]. *)
Definition strncpy (dst src : list Z) (n : Z) : list Z :=
  memcpy dst
    (take (Z.to_nat n)
       (take (Z.to_nat (strlen src)) src ++ replicate (Z.to_nat n) 0)).

(** The paranoid lower-casing of [blkid_probe_sprintf_uuid]. *)
Definition lower_AF (c : Z) : Z :=
  if (65 <=? c) && (c <=? 70) then c - 65 + 97 else c.

Definition lower_loop (x : blkid_prval) : outcome blkid_prval :=
  if v_len x <=? Z.of_nat (length (v_data x)) then
    Ok (mk_prval (v_name x)
          (map lower_AF (take (Z.to_nat (v_len x)) (v_data x))
           ++ drop (Z.to_nat (v_len x)) (v_data x))
          (v_len x))
  else Fault.

(** The variable arguments are the list [ap]; taking a string with
    [va_arg] from a list that does not start with one is undefined. *)
Definition blkid_probe_sprintf_uuid (pr : blkid_struct_probe)
    (uuid : list Z) (fmt : string) (ap : list va_arg)
  : outcome (Z * blkid_struct_probe) :=
  let uuid := take (Z.to_nat BLKID_PROBVAL_BUFSIZ) uuid in
  if uuid_is_empty uuid then Ok (0, pr)
  else
    '(rc, pr) ←
      (if bit_set (pr_probreq pr) BLKID_PROBREQ_UUIDRAW
       then blkid_probe_set_value pr (Some "UUID_RAW"%string) uuid
       else Ok (0, pr));
    if rc <? 0 then Ok (-1, pr)
    else if negb (bit_set (pr_probreq pr) BLKID_PROBREQ_UUID) then Ok (0, pr)
    else
      '(rc, pr) ←
        (if String.eqb fmt "%s" then
           match ap with
           | va_str str :: _ =>
               let '(v, pr) :=
                 match str with
                 | Some (c :: _) =>
                     if c =? 0 then (None, pr)
                     else blkid_probe_assign_value pr (Some "UUID"%string)
                 | _ => (None, pr)
                 end in
               match v with
               | None => Ok (-1, pr)
               | Some _ =>
                   x ← deref pr v;
                   let d :=
                     strncpy (v_data x) (default [] str)
                             BLKID_PROBVAL_BUFSIZ in
                   d ← store_byte (BLKID_PROBVAL_BUFSIZ - 1) 0 d;
                   Ok (0, assign pr v (mk_prval (v_name x) d (strlen d)))
               end
           | _ => Fault
           end
         else blkid_probe_vsprintf_value pr (Some "UUID"%string) fmt ap);
      if rc =? 0 then
        let v := Some (pr_nvals pr) in
        x ← deref pr v;
        x ← lower_loop x;
        Ok (rc, assign pr v x)
      else Ok (rc, pr).

(** Two lower-case hexadecimal digits, as [%02x] prints an unsigned char. *)
Definition hex_digit (n : Z) : Z := if n <? 10 then 48 + n else 87 + n.
Definition hex2 (b : Z) : list Z := [hex_digit (b / 16); hex_digit (b mod 16)].

(** The text of the [%02x...] format of [blkid_probe_set_uuid_as], hyphens
    after bytes 4, 6, 8 and 10. *)
Definition uuid_text (uuid : list Z) : list Z :=
  let h lo n := concat (map hex2 (take n (drop lo uuid))) in
  h 0%nat 4%nat ++ [45] ++ h 4%nat 2%nat ++ [45] ++ h 6%nat 2%nat ++ [45]
    ++ h 8%nat 2%nat ++ [45] ++ h 10%nat 6%nat.

(** The [#else] branch is the one transcribed; with [HAVE_LIBUUID] the text
    comes from [uuid_unparse] and the length is the constant 37. *)
Definition blkid_probe_set_uuid_as (pr : blkid_struct_probe)
    (uuid : list Z) (name : option string)
  : outcome (Z * blkid_struct_probe) :=
  if uuid_is_empty (take 16 uuid) then Ok (0, pr)
  else
    r ←
      match name with
      | None =>
          '(rc, pr) ←
            (if bit_set (pr_probreq pr) BLKID_PROBREQ_UUIDRAW
             then blkid_probe_set_value pr (Some "UUID_RAW"%string)
                    (take 16 uuid)
             else Ok (0, pr));
          if rc <? 0 then Ok (inl (-1, pr))
          else if negb (bit_set (pr_probreq pr) BLKID_PROBREQ_UUID)
          then Ok (inl (0, pr))
          else Ok (inr (blkid_probe_assign_value pr (Some "UUID"%string)))
      | Some _ => Ok (inr (blkid_probe_assign_value pr name))
      end;
    match r with
    | inl ret => Ok ret
    | inr (v, pr) =>
        x ← deref pr v;
        let text := uuid_text uuid in
        let d := snprintf_into (v_data x) BLKID_PROBVAL_BUFSIZ text in
        Ok (0, assign pr v
                 (mk_prval (v_name x) d (Z.of_nat (length text) + 1)))
    end.

Definition blkid_probe_set_uuid (pr : blkid_struct_probe) (uuid : list Z)
  : outcome (Z * blkid_struct_probe) :=
  blkid_probe_set_uuid_as pr uuid None.

(** ** Reading the tag store *)

Definition blkid_probe_get_value (pr : option blkid_struct_probe) (num : Z)
  : option (option string * list Z * Z) :=
  match pr with
  | None => None
  | Some pr =>
      if (num <? 0) || (num >=? pr_nvals pr) then None
      else (fun v => (v_name v, v_data v, v_len v))
             <$> pr_vals pr !! Z.to_nat num
  end.

Definition blkid_probe_lookup_value (pr : option blkid_struct_probe)
    (name : option string) : option (list Z * Z) :=
  match pr, name with
  | Some pr, Some name =>
      if pr_nvals pr =? 0 then None
      else
        (fun v => (v_data v, v_len v))
          <$> head (filter (fun v => v_name v = Some name)
                      (take (Z.to_nat (pr_nvals pr)) (pr_vals pr)))
  | _, _ => None
  end.

Definition blkid_probe_has_value (pr : option blkid_struct_probe)
    (name : option string) : Z :=
  match blkid_probe_lookup_value pr name with
  | Some _ => 1
  | None => 0
  end.

(** ** The registry and the filter bitmap *)

Section Registry.
(** The array [idinfos] of prober descriptors; the probers themselves live
    under [probers/] and are not among the sources. *)
Variable idinfos : list blkid_idinfo.

Definition blkid_bmp_wordsize : Z := 8 * 8.
Definition blkid_bmp_idx_bit (item : Z) : Z :=
  Z.shiftl 1 (item mod blkid_bmp_wordsize).
Definition blkid_bmp_idx_byte (item : Z) : Z := item / blkid_bmp_wordsize.
Definition blkid_bmp_size (max_items : Z) : Z :=
  (max_items + blkid_bmp_wordsize) / blkid_bmp_wordsize.

Definition BLKID_FLTR_ITEMS : Z := Z.of_nat (length idinfos).
Definition BLKID_FLTR_SIZE : Z := blkid_bmp_size BLKID_FLTR_ITEMS.

(** [bmp[byte(item)] |= bit(item)] and [bmp[byte(item)] & bit(item)] through
    a pointer that may be null. *)
Definition blkid_bmp_set_item (bmp : option (list Z)) (item : Z)
  : outcome (option (list Z)) :=
  match bmp with
  | None => Fault
  | Some b =>
      match b !! Z.to_nat (blkid_bmp_idx_byte item) with
      | None => Fault
      | Some w =>
          Ok (Some (<[Z.to_nat (blkid_bmp_idx_byte item) :=
                        Z.lor w (blkid_bmp_idx_bit item)]> b))
      end
  end.

Definition blkid_bmp_get_item (b : list Z) (item : Z) : outcome Z :=
  match b !! Z.to_nat (blkid_bmp_idx_byte item) with
  | None => Fault
  | Some w => Ok (Z.land w (blkid_bmp_idx_bit item))
  end.

Definition blkid_known_fstype (fstype : option string) : Z :=
  match fstype with
  | None => 0
  | Some t =>
      if existsb (fun id => String.eqb (id_name id) t) idinfos then 1 else 0
  end.

(** [calloc(1, sizeof(struct blkid_struct_probe))]. *)
Definition blkid_new_probe : option blkid_struct_probe :=
  (fun _ =>
     mk_probe 0 0 0 None 0 None 0 0 0 0 None 0
       (replicate (Z.to_nat BLKID_PROBVAL_NVALS) zero_prval) 0)
    <$> malloc 1.

(** [blkid_probe_set_device] up to the read that tests the device. *)
Definition set_device_fields (pr : blkid_struct_probe) (fd off size : Z)
  : blkid_struct_probe :=
  let pr := blkid_reset_probe pr in
  let pr := set_off off (set_fd fd pr) in
  if size =? 0 then
    match blkdev_get_size fd with
    | Some s => set_size s pr
    | None => pr
    end
  else set_size size pr.

Definition blkid_probe_set_device (pr : option blkid_struct_probe)
    (fd off size : Z) : Z * option blkid_struct_probe :=
  match pr with
  | None => (-1, None)
  | Some pr =>
      match blkid_probe_get_buffer (set_device_fields pr fd off size) 0 512
      with
      | (None, pr) => (-1, Some pr)
      | (Some _, pr) => (0, Some (set_idx 0 pr))
      end
  end.

Definition blkid_probe_set_request (pr : option blkid_struct_probe)
    (flags : Z) : Z * option blkid_struct_probe :=
  match pr with
  | None => (-1, None)
  | Some pr => (0, Some (set_probreq flags pr))
  end.

Definition blkid_probe_reset_filter (pr : option blkid_struct_probe)
  : Z * option blkid_struct_probe :=
  match pr with
  | None => (-1, None)
  | Some pr =>
      let pr :=
        match pr_fltr pr with
        | Some _ =>
            set_fltr (Some (replicate (Z.to_nat BLKID_FLTR_SIZE) 0)) pr
        | None => pr
        end in
      (0, Some (set_idx 0 pr))
  end.

(** [if (!pr->fltr) pr->fltr = calloc(...); else blkid_probe_reset_filter(pr);]
    the result of [calloc] is not checked. *)
Definition fltr_prepare (pr : blkid_struct_probe) : blkid_struct_probe :=
  match pr_fltr pr with
  | None =>
      set_fltr
        ((fun _ => replicate (Z.to_nat BLKID_FLTR_SIZE) 0)
           <$> malloc (BLKID_FLTR_SIZE * 8)) pr
  | Some _ => default pr (blkid_probe_reset_filter (Some pr)).2
  end.

Fixpoint filter_types_loop (flag : Z) (names : list string)
    (ids : list blkid_idinfo) (i : Z) (fltr : option (list Z))
  : outcome (option (list Z)) :=
  match ids with
  | [] => Ok fltr
  | id :: ids' =>
      let has := existsb (String.eqb (id_name id)) names in
      fltr ←
        (if bit_set flag BLKID_FLTR_ONLYIN then
           if negb has then blkid_bmp_set_item fltr i else Ok fltr
         else if bit_set flag BLKID_FLTR_NOTIN then
           if has then blkid_bmp_set_item fltr i else Ok fltr
         else Ok fltr);
      filter_types_loop flag names ids' (i + 1) fltr
  end.

Definition blkid_probe_filter_types (pr : option blkid_struct_probe)
    (flag : Z) (names : option (list string))
  : outcome (Z * option blkid_struct_probe) :=
  match pr, names with
  | Some pr, Some names =>
      let pr := fltr_prepare pr in
      fltr ← filter_types_loop flag names idinfos 0 (pr_fltr pr);
      Ok (0, Some (set_idx 0 (set_fltr fltr pr)))
  | _, _ => Ok (-1, pr)
  end.

Fixpoint filter_usage_loop (flag usage : Z)
    (ids : list blkid_idinfo) (i : Z) (fltr : option (list Z))
  : outcome (option (list Z)) :=
  match ids with
  | [] => Ok fltr
  | id :: ids' =>
      fltr ←
        (if bit_set (id_usage id) usage then
           if bit_set flag BLKID_FLTR_NOTIN
           then blkid_bmp_set_item fltr i else Ok fltr
         else if bit_set flag BLKID_FLTR_ONLYIN
           then blkid_bmp_set_item fltr i else Ok fltr);
      filter_usage_loop flag usage ids' (i + 1) fltr
  end.

Definition blkid_probe_filter_usage (pr : option blkid_struct_probe)
    (flag usage : Z) : outcome (Z * option blkid_struct_probe) :=
  match pr with
  | Some pr' =>
      if usage =? 0 then Ok (-1, pr)
      else
        let pr := fltr_prepare pr' in
        fltr ← filter_usage_loop flag usage idinfos 0 (pr_fltr pr);
        Ok (0, Some (set_idx 0 (set_fltr fltr pr)))
  | None => Ok (-1, pr)
  end.

(** [~w] on an [unsigned long]. *)
Definition ulong_not (w : Z) : Z := Z.lnot w mod 2 ^ blkid_bmp_wordsize.

Definition blkid_probe_invert_filter (pr : option blkid_struct_probe)
  : Z * option blkid_struct_probe :=
  match pr with
  | None => (-1, None)
  | Some pr' =>
      match pr_fltr pr' with
      | None => (-1, pr)
      | Some f =>
          let f' :=
            map ulong_not (take (Z.to_nat BLKID_FLTR_SIZE) f)
            ++ drop (Z.to_nat BLKID_FLTR_SIZE) f in
          (0, Some (set_idx 0 (set_fltr (Some f') pr')))
      end
  end.

(** ** blkid_do_probe *)

(** The [while (mag && mag->magic)] loop over the magics of one descriptor:
    the magic found, or [None] when the terminating entry is reached.  A
    comparison that runs past the 1024-byte window is a [Fault]. *)
Fixpoint magic_loop (pr : blkid_struct_probe) (mags : list blkid_idmag)
  : outcome (option blkid_idmag * blkid_struct_probe) :=
  match mags with
  | [] => Ok (None, pr)
  | mag :: rest =>
      let idx := kboff mag + Z.shiftr (sboff mag) 10 in
      let '(buf, pr) := blkid_probe_get_buffer pr (Z.shiftl idx 10) 1024 in
      match buf with
      | None => magic_loop pr rest
      | Some b =>
          let s := Z.land (sboff mag) 1023 in
          if s + Z.of_nat (length (magic mag)) <=? 1024 then
            if decide (magic mag = slice s (Z.of_nat (length (magic mag))) b)
            then Ok (Some mag, pr)
            else magic_loop pr rest
          else Fault
      end
  end.

(** One turn of the [for] loop at index [i]: [inl] when the body ends in
    [continue], [inr] when it ends in [return 0]. *)
Definition probe_body (id : blkid_idinfo) (i : Z) (pr : blkid_struct_probe)
  : outcome (blkid_struct_probe + blkid_struct_probe) :=
  let pr := set_idx i pr in
  skip ←
    match pr_fltr pr with
    | Some f => w ← blkid_bmp_get_item f i; Ok (negb (w =? 0))
    | None => Ok false
    end;
  if skip : bool then Ok (inl pr)
  else
    '(found, mag, pr) ←
      match id_magics id with
      | None => Ok (true, None, pr)
      | Some mags =>
          '(m, pr) ← magic_loop pr mags;
          Ok (match m with Some _ => true | None => false end, m, pr)
      end;
    if negb found then Ok (inl pr)
    else
      '(rc, pr) ←
        match id_probefunc id with
        | Some probefunc => probefunc pr mag
        | None => Ok (0, pr)
        end;
      if negb (rc =? 0) then Ok (inl pr)
      else
        pr ←
          (if bit_set (pr_probreq pr) BLKID_PROBREQ_TYPE
           then snd <$> blkid_probe_set_value pr (Some "TYPE"%string)
                          (with_nul (bytes_of (id_name id)))
           else Ok pr);
        pr ←
          (if bit_set (pr_probreq pr) BLKID_PROBREQ_USAGE
           then snd <$> blkid_probe_set_usage pr (id_usage id)
           else Ok pr);
        Ok (inr pr).

(** The [for] loop from index [i] on; [ids] is [idinfos + i]. *)
Fixpoint probe_loop (ids : list blkid_idinfo) (i : Z)
    (pr : blkid_struct_probe) : outcome (Z * blkid_struct_probe) :=
  match ids with
  | [] => Ok (1, pr)
  | id :: ids' =>
      r ← probe_body id i pr;
      match r with
      | inl pr => probe_loop ids' (i + 1) pr
      | inr pr => Ok (0, pr)
      end
  end.

Definition blkid_do_probe (pr : option blkid_struct_probe)
  : outcome (Z * option blkid_struct_probe) :=
  match pr with
  | None => Ok (-1, None)
  | Some pr =>
      let i := 0 in
      let pr := blkid_probe_reset_vals pr in
      let i := if negb (pr_idx pr =? 0) then pr_idx pr + 1 else i in
      (* for (i = 0; ...) *)
      let i := overwrite i 0 in
      '(rc, pr) ← probe_loop (drop (Z.to_nat i) idinfos) i pr;
      Ok (rc, Some pr)
  end.

End Registry.
End Probe.

(** ** Notions the statements use *)

Section Notions.
Context {consts : blkid_consts} {sys : blkid_sys}.

(** The tag store is the array the struct declares: [BLKID_PROBVAL_NVALS]
    entries of [BLKID_PROBVAL_BUFSIZ] bytes, [nvals] of them in use. *)
Definition vals_ok (pr : blkid_struct_probe) : Prop :=
  0 <= pr_nvals pr <= BLKID_PROBVAL_NVALS
  /\ length (pr_vals pr) = Z.to_nat BLKID_PROBVAL_NVALS
  /\ Forall (fun v => length (v_data v) = Z.to_nat BLKID_PROBVAL_BUFSIZ)
            (pr_vals pr).

(** What the two buffers of a session satisfy from [calloc] on: a missing
    buffer has no valid bytes and no capacity, the superblock buffer holds
    the bytes counted as valid, and the general buffer holds the window it
    caches. *)
Definition sb_ok (pr : blkid_struct_probe) : Prop :=
  (pr_sbbuf pr = None -> pr_sbbuf_len pr = 0)
  /\ 0 <= pr_sbbuf_len pr <= Z.of_nat (length (default [] (pr_sbbuf pr))).

Definition buf_ok (pr : blkid_struct_probe) : Prop :=
  (pr_buf pr = None -> pr_buf_max pr <= 0)
  /\ 0 <= pr_buf_off pr
  /\ 0 <= pr_buf_len pr <= Z.of_nat (length (default [] (pr_buf pr))).

Definition buffers_ok (pr : blkid_struct_probe) : Prop :=
  sb_ok pr /\ buf_ok pr.

(** The number of bytes behind the superblock buffer once a request has
    tried to fill it: what is already there, or else what the read of up to
    [BLKID_SB_BUFSIZ] bytes at the origin delivers, nothing if the buffer
    cannot be allocated, the seek fails or the read fails. *)
Definition sb_filled (pr : blkid_struct_probe) : Z :=
  if pr_sbbuf_len pr =? 0 then
    match pr_sbbuf pr, malloc BLKID_SB_BUFSIZ with
    | None, None => 0
    | _, _ =>
        if lseek (pr_fd pr) (pr_off pr) then
          match read (pr_fd pr) (pr_off pr) BLKID_SB_BUFSIZ with
          | Some bs =>
              Z.of_nat (length (take (Z.to_nat BLKID_SB_BUFSIZ) bs))
          | None => 0
          end
        else 0
    end
  else pr_sbbuf_len pr.



(** The bytes of a label before its first NUL. *)
Fixpoint before_nul (l : list Z) : list Z :=
  match l with
  | [] => []
  | c :: l' => if c =? 0 then [] else c :: before_nul l'
  end.

(** A byte string without its trailing white space. *)
Fixpoint rstrip (l : list Z) : list Z :=
  match l with
  | [] => []
  | c :: l' =>
      match rstrip l' with
      | [] => if isspace c then [] else [c]
      | r => c :: r
      end
  end.

(** The value of tag [num], cut to its length. *)
Definition tag_of (pr : blkid_struct_probe) (num : Z)
  : option (option string * list Z) :=
  (fun '(n, d, l) => (n, take (Z.to_nat l) d))
    <$> blkid_probe_get_value (Some pr) num.

(** The tags of a session, in order. *)
Definition tags_of (pr : blkid_struct_probe)
  : list (option string * list Z) :=
  map (fun v => (v_name v, take (Z.to_nat (v_len v)) (v_data v)))
      (take (Z.to_nat (pr_nvals pr)) (pr_vals pr)).

(** A byte is one of the upper-case hexadecimal letters. *)
Definition is_upper_hex (c : Z) : bool := (65 <=? c) && (c <=? 70).

(** A probing function keeps to the contract of the plug-ins: when it
    rejects, it leaves as many tags as it found. *)
Definition rejects_cleanly
    (f : blkid_struct_probe -> option blkid_idmag ->
         outcome (Z * blkid_struct_probe)) : Prop :=
  forall pr mag rc pr',
    f pr mag = Ok (rc, pr') -> rc <> 0 -> pr_nvals pr' = pr_nvals pr.

Definition registry_rejects_cleanly (idinfos : list blkid_idinfo) : Prop :=
  Forall (fun id => forall f, id_probefunc id = Some f -> rejects_cleanly f)
         idinfos.

(** [pr'] is [pr] with at most [n] tags appended: the store is still the
    array the struct declares, the tags that were in use are as they were,
    and nothing outside the store has changed. *)
Definition appended (n : Z) (pr pr' : blkid_struct_probe) : Prop :=
  vals_ok pr'
  /\ pr_nvals pr <= pr_nvals pr' <= pr_nvals pr + n
  /\ (forall i : nat, (i < Z.to_nat (pr_nvals pr))%nat ->
        pr_vals pr' !! i = pr_vals pr !! i)
  /\ set_nvals (pr_nvals pr) (set_vals (pr_vals pr) pr') = pr.

(** Item [item] is set in the filter bitmap [f], which disables the prober
    of that index. *)
Definition disabled (f : list Z) (item : Z) : Prop :=
  exists w, blkid_bmp_get_item f item = Ok w /\ w <> 0.

(** The probing functions of a registry leave the filter alone. *)
Definition registry_keeps_filter (idinfos : list blkid_idinfo) : Prop :=
  Forall (fun id =>
            forall f pr mag rc pr',
              id_probefunc id = Some f -> f pr mag = Ok (rc, pr') ->
              pr_fltr pr' = pr_fltr pr)
         idinfos.

(** The probing functions of a registry leave the cursor alone. *)
Definition registry_keeps_cursor (idinfos : list blkid_idinfo) : Prop :=
  Forall (fun id =>
            forall f pr mag rc pr',
              id_probefunc id = Some f -> f pr mag = Ok (rc, pr') ->
              pr_idx pr' = pr_idx pr)
         idinfos.

(** The device is a file that holds [img] and does not change: a read at
    [pos] delivers what the file has from there on, up to [count] bytes. *)
Definition stable_device (img : list Z) : Prop :=
  forall fd pos count,
    0 <= pos -> read fd pos count = Some (slice pos count img).

(** The bytes the two buffers count as valid are those of the device. *)
Definition cache_coherent (img : list Z) (pr : blkid_struct_probe) : Prop :=
  take (Z.to_nat (pr_sbbuf_len pr)) (default [] (pr_sbbuf pr))
  = slice (pr_off pr) (pr_sbbuf_len pr) img
  /\ take (Z.to_nat (pr_buf_len pr)) (default [] (pr_buf pr))
     = slice (pr_off pr + pr_buf_off pr) (pr_buf_len pr) img.

(** The 16-bit code units of a byte string, in the byte order [enc]
    names. *)
Fixpoint code_units (enc : Z) (src : list Z) : list Z :=
  match src with
  | b0 :: b1 :: rest =>
      (if enc =? BLKID_ENC_UTF16LE
       then Z.lor (Z.shiftl b1 8) b0 mod 2 ^ 16
       else Z.lor (Z.shiftl b0 8) b1 mod 2 ^ 16)
      :: code_units enc rest
  | _ => []
  end.

(** UTF-8 read back: the code points of sequences of one, two and three
    bytes. *)
Fixpoint utf8_decode (l : list Z) : list Z :=
  match l with
  | [] => []
  | b0 :: l1 =>
      if b0 <? 128 then b0 :: utf8_decode l1
      else if b0 <? 224 then
        match l1 with
        | b1 :: l2 =>
            Z.lor (Z.shiftl (Z.land b0 31) 6) (Z.land b1 63)
            :: utf8_decode l2
        | [] => []
        end
      else
        match l1 with
        | b1 :: b2 :: l3 =>
            Z.lor (Z.shiftl (Z.land b0 15) 12)
                  (Z.lor (Z.shiftl (Z.land b1 63) 6) (Z.land b2 63))
            :: utf8_decode l3
        | _ => []
        end
  end.

(** *** Statements of the specification the code does not meet *)

(** Binding succeeds as soon as the read at the origin delivers a byte. *)
Definition bind_needs_one_byte (pr : blkid_struct_probe) (fd off size : Z)
  : Prop :=
  forall bs,
    lseek fd off = true ->
    read fd off BLKID_SB_BUFSIZ = Some bs -> (1 <= length bs)%nat ->
    (blkid_probe_set_device (Some pr) fd off size).1 = 0.

(** With a caller-supplied name and the UUID flag off, no tag is added. *)
Definition named_uuid_is_gated (pr : blkid_struct_probe) (uuid : list Z)
    (name : string) : Prop :=
  length uuid = 16%nat -> uuid_is_empty uuid = false ->
  bit_set (pr_probreq pr) BLKID_PROBREQ_UUID = false ->
  exists rc pr',
    blkid_probe_set_uuid_as pr uuid (Some name) = Ok (rc, pr')
    /\ pr_nvals pr' = pr_nvals pr.


(** After a call that returns 1 or -1 the tag store is empty. *)
Definition no_tags_unless_matched (idinfos : list blkid_idinfo)
    (pr : option blkid_struct_probe) : Prop :=
  forall rc pr',
    blkid_do_probe idinfos pr = Ok (rc, pr') ->
    rc = 1 \/ rc = -1 -> blkid_probe_numof_values pr' = 0.

End Notions.

(** ** Concrete constants and devices *)

(** Modelled from the spec: [blkidP.h] and [blkid.h] are missing; the spec
    gives [SB_BUFSIZ = 65536], [MAX_VALUE_BYTES = 256] and [MAX_TAGS >= 16],
    of which the least is taken.  It names the request flags, the usage
    classes, the filter modes and the encodings without their values:
    distinct bits stand for the flags, distinct numbers for the encodings. *)
Definition spec_consts : blkid_consts := {|
  BLKID_SB_BUFSIZ := 65536;
  BLKID_PROBVAL_BUFSIZ := 256;
  BLKID_PROBVAL_NVALS := 16;
  BLKID_PROBREQ_LABEL := 2;
  BLKID_PROBREQ_LABELRAW := 4;
  BLKID_PROBREQ_UUID := 8;
  BLKID_PROBREQ_UUIDRAW := 16;
  BLKID_PROBREQ_TYPE := 32;
  BLKID_PROBREQ_USAGE := 128;
  BLKID_PROBREQ_VERSION := 256;
  BLKID_USAGE_FILESYSTEM := 2;
  BLKID_USAGE_RAID := 4;
  BLKID_USAGE_CRYPTO := 8;
  BLKID_USAGE_OTHER := 16;
  BLKID_FLTR_NOTIN := 1;
  BLKID_FLTR_ONLYIN := 2;
  BLKID_ENC_UTF16BE := 0;
  BLKID_ENC_UTF16LE := 1
|}.

(** A regular file holding [img]: every seek to a non-negative position
    succeeds, a read delivers what the file has from the position on,
    allocation succeeds, and no formatter is needed. *)
Definition image_sys (img : list Z) : blkid_sys := {|
  lseek _ pos := 0 <=? pos;
  blkid_llseek _ pos := 0 <=? pos;
  read _ pos count := Some (take (Z.to_nat count) (drop (Z.to_nat pos) img));
  malloc _ := Some [];
  blkdev_get_size _ := Some (Z.of_nat (length img));
  vsnprintf _ _ := None;
  vsnprintf_failed _ _ := (1%positive, [])
|}.

(** The same file behind a descriptor that cannot seek. *)
Definition unseekable_sys (img : list Z) : blkid_sys := {|
  lseek _ _ := false;
  blkid_llseek _ _ := false;
  read _ pos count := Some (take (Z.to_nat count) (drop (Z.to_nat pos) img));
  malloc _ := Some [];
  blkdev_get_size _ := Some (Z.of_nat (length img));
  vsnprintf _ _ := None;
  vsnprintf_failed _ _ := (1%positive, [])
|}.

(** The session [calloc] yields, for the constants of the spec. *)
Definition fresh_probe : blkid_struct_probe :=
  mk_probe 0 0 0 None 0 None 0 0 0 0 None 0
    (replicate 16 (@zero_prval spec_consts)) 0.

(** The store of [fresh_probe] with every slot taken. *)
Definition full_probe : blkid_struct_probe := set_nvals 16 fresh_probe.

(** A UUID that is not empty. *)
Definition uuid_1_16 : list Z := map Z.of_nat (seq 1 16).

(** *** A CD image that also carries a FAT boot sector

    [MSWIN4.1] three bytes into the image and [CD001] one byte into
    kilobyte 32; three descriptors in registry order, each with the magic
    its format has and a probing function that accepts what the magic
    found. *)
Definition put (pos : Z) (bs img : list Z) : list Z :=
  take (Z.to_nat pos) img ++ bs ++ drop (Z.to_nat pos + length bs) img.

Definition cd_image : list Z :=
  put 3 (bytes_of "MSWIN4.1") (put 32769 (bytes_of "CD001")
    (replicate (Z.to_nat 34816) 0)).

Definition accept : blkid_struct_probe -> option blkid_idmag ->
                    outcome (Z * blkid_struct_probe) :=
  fun pr _ => Ok (0, pr).

Definition cd_registry : list blkid_idinfo :=
  [ mk_idinfo "crypto_LUKS" 8
      (Some [mk_idmag (bytes_of "LUKS" ++ [186; 190]) 0 0]) (Some accept);
    mk_idinfo "vfat" 2
      (Some [mk_idmag (bytes_of "MSWIN4.1") 0 3]) (Some accept);
    mk_idinfo "iso9660" 2
      (Some [mk_idmag (bytes_of "CD001") 32 1]) (Some accept) ].

(** The session bound to descriptor 3 at origin 0, TYPE requested. *)
Definition cd_session : option blkid_struct_probe :=
  (@blkid_probe_set_request (Some fresh_probe) 32).2.

Definition cd_bound : option blkid_struct_probe :=
  (@blkid_probe_set_device spec_consts (image_sys cd_image) cd_session 3 0 0).2.

Definition cd_probe (pr : option blkid_struct_probe)
  : outcome (Z * option blkid_struct_probe) :=
  @blkid_do_probe spec_consts (image_sys cd_image) cd_registry pr.

(** What a caller sees of a call: the return value, the cursor, the tags. *)
Definition seen (r : outcome (Z * option blkid_struct_probe))
  : option (Z * Z * list (option string * list Z)) :=
  match r with
  | Ok (rc, Some pr) => Some (rc, pr_idx pr, tags_of pr)
  | _ => None
  end.

(** [n] calls in a row, each on the session the call before left. *)
Fixpoint cd_probe_times (n : nat) (pr : option blkid_struct_probe)
  : outcome (Z * option blkid_struct_probe) :=
  match n with
  | O => Ok (0, pr)
  | S n' => r ← cd_probe_times n' pr; cd_probe r.2
  end.

(** *** A prober that emits a tag and then rejects *)
Definition leaky : blkid_struct_probe -> option blkid_idmag ->
                   outcome (Z * blkid_struct_probe) :=
  fun pr _ =>
    r ← @blkid_probe_set_value spec_consts pr (Some "SEC_TYPE"%string)
          (bytes_of "msdos" ++ [0]);
    Ok (1, r.2).

Definition leaky_registry : list blkid_idinfo :=
  [ mk_idinfo "vfat" 2 None (Some leaky) ].

(** Sessions can be compared. *)
Global Instance blkid_prval_eq_dec : EqDecision blkid_prval.
Proof. solve_decision. Defined.
Global Instance blkid_struct_probe_eq_dec : EqDecision blkid_struct_probe.
Proof. solve_decision. Defined.

(** A call returned [rc] and left the session [pr]. *)
Definition returned (r : outcome (Z * option blkid_struct_probe)) (rc : Z)
    (pr : option blkid_struct_probe) : bool :=
  match r with
  | Ok (rc', pr') => bool_decide (rc' = rc) && bool_decide (pr' = pr)
  | Fault => false
  end.

(** The session the first call on the CD image leaves. *)
Definition cd_matched : option blkid_struct_probe :=
  match cd_probe cd_bound with
  | Ok (_, pr) => pr
  | Fault => None
  end.

(** *** A device too short for the test read of binding *)
Definition short_sys : blkid_sys := image_sys (replicate 256 65).

(** *** A prober that rejects and emits nothing *)
Definition reject : blkid_struct_probe -> option blkid_idmag ->
                    outcome (Z * blkid_struct_probe) :=
  fun pr _ => Ok (1, pr).

Definition swap_registry : list blkid_idinfo :=
  [ mk_idinfo "swap" 16 None (Some reject) ].

(** *** Labels and UUIDs handed to the emitters *)
Definition root_label : list Z := bytes_of "ROOT   " ++ [0].
Definition long_label : list Z := replicate 257 65.
Definition label_session : blkid_struct_probe := set_probreq 6 fresh_probe.
Definition uuid_session : blkid_struct_probe := set_probreq 8 fresh_probe.
Definition upper_uuid : list Z := bytes_of "ABCDEF-01".
Definition spec_uuid : list Z :=
  [1; 35; 69; 103; 137; 171; 205; 239; 254; 220; 186; 152; 118; 84; 50; 16].

(** *** A session that holds tags *)
Definition tagged_probe : blkid_struct_probe :=
  match @blkid_probe_set_value spec_consts fresh_probe (Some "TYPE"%string)
          (bytes_of "ext4" ++ [0]) with
  | Ok (_, pr) => pr
  | Fault => fresh_probe
  end.

(** *** A C library that formats [%s], without a device and without
    memory

    Any other conversion fails with -1 after a NUL has been stored at the
    start of the destination. *)
Definition text_sys : blkid_sys := {|
  lseek _ _ := false;
  blkid_llseek _ _ := false;
  read _ _ _ := None;
  malloc _ := None;
  blkdev_get_size _ := None;
  vsnprintf _ ap :=
    match ap with
    | va_str (Some s) :: _ => Some (before_nul s)
    | _ => None
    end;
  vsnprintf_failed _ _ := (1%positive, [0])
|}.


(** The session that asks for TYPE and USAGE. *)
Definition type_usage_session : blkid_struct_probe :=
  set_probreq 160 fresh_probe.

(** *** Filters over the registry of the CD image *)

(** Only [vfat] is enabled, and then nothing is. *)
Definition only_vfat : list Z := [5].
Definition nothing_enabled : list Z := [7].
Definition filtered_session (f : list Z) : blkid_struct_probe :=
  set_fltr (Some f) type_usage_session.

(** The registry of the CD image with other probers in the places
    [only_vfat] disables. *)
Definition cd_registry' : list blkid_idinfo :=
  [ mk_idinfo "swap" 16 None (Some reject);
    mk_idinfo "vfat" 2
      (Some [mk_idmag (bytes_of "MSWIN4.1") 0 3]) (Some accept);
    mk_idinfo "swap" 16 None (Some reject) ].

(** *** A label in UTF-16LE *)
Definition utf16_label : list Z := [65; 0; 233; 0; 172; 32; 0; 0; 66; 0].

(** *** A device of 70656 bytes, each the low byte of its position *)
Definition ramp_image : list Z :=
  concat (replicate 276 (map Z.of_nat (seq 0 256))).

(** The session after a request for [[65536, 66560)] on that device. *)
Definition ramp_session : blkid_struct_probe :=
  (@blkid_probe_get_buffer spec_consts (image_sys ramp_image)
     fresh_probe 65536 1024).2.

(** * Properties *)

Arguments blkid_probe_assign_value : simpl never.
Arguments blkid_probe_set_value : simpl never.
Arguments blkid_probe_vsprintf_value : simpl never.
Arguments blkid_probe_get_buffer : simpl never.
Arguments blkid_probe_set_usage : simpl never.
Arguments deref : simpl never.
Arguments assign : simpl never.
Arguments probe_body : simpl never.

Section Properties.
Context {consts : blkid_consts} {sys : blkid_sys}.

(** ** A session without a filter *)

Lemma new_probe_has_no_filter (pr : blkid_struct_probe) :
  blkid_new_probe = Some pr -> pr_fltr pr = None /\ pr_idx pr = 0.
Proof.
  unfold blkid_new_probe. destruct (malloc 1); simpl; [|done].
  by intros [= <-].
Qed.

Lemma set_request_keeps_filter (pr : blkid_struct_probe) (flags : Z) :
  (blkid_probe_set_request (Some pr) flags).2
  = Some (set_probreq flags pr).
Proof. reflexivity. Qed.

Lemma reset_filter_without_filter (idinfos : list blkid_idinfo)
    (pr : blkid_struct_probe) :
  pr_fltr pr = None ->
  blkid_probe_reset_filter idinfos (Some pr) = (0, Some (set_idx 0 pr)).
Proof. intros H. unfold blkid_probe_reset_filter. by rewrite H. Qed.

(** C10: on a session whose filter was never allocated,
    [blkid_probe_invert_filter] returns -1 and the session is the one it was
    given: no bitmap appears, and the cursor keeps its value. *)
Theorem invert_filter_needs_a_filter (idinfos : list blkid_idinfo)
    (pr : blkid_struct_probe) :
  pr_fltr pr = None ->
  blkid_probe_invert_filter idinfos (Some pr) = (-1, Some pr).
Proof. intros H. unfold blkid_probe_invert_filter. by rewrite H. Qed.

(** ** Empty UUIDs *)

Lemma uuid_is_empty_zeros (uuid : list Z) :
  Forall (fun b => b = 0) uuid -> uuid_is_empty uuid = true.
Proof. induction 1 as [|b l -> _ IH]; simpl; done. Qed.

Lemma uuid_is_empty_Forall (uuid : list Z) :
  uuid_is_empty uuid = true -> Forall (fun b => b = 0) uuid.
Proof.
  induction uuid as [|b l IH]; simpl; [constructor|].
  destruct (Z.eqb_spec b 0); [|done]. intros; constructor; auto.
Qed.

(** C7: for a UUID whose bytes are all zero, [blkid_probe_set_uuid_as]
    (with or without a name), [blkid_probe_set_uuid] and
    [blkid_probe_sprintf_uuid] return 0 and leave the session, so the tag
    store, as it was, whatever the request mask holds. *)
Theorem zero_uuid_emits_nothing (pr : blkid_struct_probe) (uuid : list Z)
    (name : option string) (fmt : string) (ap : list va_arg) :
  Forall (fun b => b = 0) uuid ->
  blkid_probe_set_uuid_as pr uuid name = Ok (0, pr)
  /\ blkid_probe_set_uuid pr uuid = Ok (0, pr)
  /\ blkid_probe_sprintf_uuid pr uuid fmt ap = Ok (0, pr).
Proof.
  intros Hz.
  assert (H16 : uuid_is_empty (take 16 uuid) = true)
    by (apply uuid_is_empty_zeros, Forall_take, Hz).
  assert (Hn : uuid_is_empty
                 (take (Z.to_nat BLKID_PROBVAL_BUFSIZ) uuid) = true)
    by (apply uuid_is_empty_zeros, Forall_take, Hz).
  unfold blkid_probe_set_uuid, blkid_probe_set_uuid_as,
    blkid_probe_sprintf_uuid.
  rewrite H16, Hn. done.
Qed.

(** ** A full tag store *)

Lemma assign_value_full (pr : blkid_struct_probe) (name : option string) :
  BLKID_PROBVAL_NVALS <= pr_nvals pr ->
  blkid_probe_assign_value pr name = (None, pr).
Proof.
  intros H. unfold blkid_probe_assign_value. destruct name; [|done].
  destruct (Z.geb_spec (pr_nvals pr) BLKID_PROBVAL_NVALS); [done|lia].
Qed.

Lemma set_value_full (pr : blkid_struct_probe) (name : option string)
    (data : list Z) :
  BLKID_PROBVAL_NVALS <= pr_nvals pr ->
  blkid_probe_set_value pr name data = Ok (-1, pr).
Proof.
  intros H. unfold blkid_probe_set_value. by rewrite assign_value_full.
Qed.

Lemma vsprintf_value_full (pr : blkid_struct_probe) (name : option string)
    (fmt : string) (ap : list va_arg) :
  BLKID_PROBVAL_NVALS <= pr_nvals pr ->
  blkid_probe_vsprintf_value pr name fmt ap = Ok (-1, pr).
Proof.
  intros H. unfold blkid_probe_vsprintf_value. by rewrite assign_value_full.
Qed.

Lemma set_label_full (pr : blkid_struct_probe) (label : list Z) :
  BLKID_PROBVAL_NVALS <= pr_nvals pr ->
  bit_set (pr_probreq pr) BLKID_PROBREQ_LABELRAW
  || bit_set (pr_probreq pr) BLKID_PROBREQ_LABEL = true ->
  blkid_probe_set_label pr label = Ok (-1, pr).
Proof.
  intros H Hreq. unfold blkid_probe_set_label.
  destruct (bit_set _ BLKID_PROBREQ_LABELRAW) eqn:Hraw.
  - rewrite set_value_full by done. done.
  - simpl in *. rewrite Hreq. simpl. by rewrite assign_value_full.
Qed.

Lemma set_utf8label_full (pr : blkid_struct_probe) (label : list Z)
    (enc : Z) :
  BLKID_PROBVAL_NVALS <= pr_nvals pr ->
  bit_set (pr_probreq pr) BLKID_PROBREQ_LABELRAW
  || bit_set (pr_probreq pr) BLKID_PROBREQ_LABEL = true ->
  blkid_probe_set_utf8label pr label enc = Ok (-1, pr).
Proof.
  intros H Hreq. unfold blkid_probe_set_utf8label.
  destruct (bit_set _ BLKID_PROBREQ_LABELRAW) eqn:Hraw.
  - rewrite set_value_full by done. done.
  - simpl in *. rewrite Hreq. simpl. by rewrite assign_value_full.
Qed.

Lemma sprintf_uuid_full (pr : blkid_struct_probe) (uuid : list Z)
    (fmt : string) (s : option (list Z)) (ap : list va_arg) :
  BLKID_PROBVAL_NVALS <= pr_nvals pr ->
  uuid_is_empty (take (Z.to_nat BLKID_PROBVAL_BUFSIZ) uuid) = false ->
  bit_set (pr_probreq pr) BLKID_PROBREQ_UUIDRAW
  || bit_set (pr_probreq pr) BLKID_PROBREQ_UUID = true ->
  blkid_probe_sprintf_uuid pr uuid fmt (va_str s :: ap) = Ok (-1, pr).
Proof.
  intros H Hne Hreq. unfold blkid_probe_sprintf_uuid. rewrite Hne.
  destruct (bit_set _ BLKID_PROBREQ_UUIDRAW) eqn:Hraw.
  - rewrite set_value_full by done. done.
  - simpl in *. rewrite Hreq. simpl.
    destruct (String.eqb fmt "%s").
    + destruct s as [[|c l]|]; simpl; try done.
      destruct (c =? 0); simpl; [done|].
      by rewrite assign_value_full.
    + by rewrite vsprintf_value_full.
Qed.

(** With the default name and only the UUID flag on, the same missing
    check is reached. *)
Lemma set_uuid_full_store_faults (pr : blkid_struct_probe) (uuid : list Z) :
  BLKID_PROBVAL_NVALS <= pr_nvals pr ->
  uuid_is_empty (take 16 uuid) = false ->
  bit_set (pr_probreq pr) BLKID_PROBREQ_UUIDRAW = false ->
  bit_set (pr_probreq pr) BLKID_PROBREQ_UUID = true ->
  blkid_probe_set_uuid pr uuid = Fault.
Proof.
  intros H Hne Hraw Hu. unfold blkid_probe_set_uuid, blkid_probe_set_uuid_as.
  rewrite Hne, Hraw. simpl. rewrite Hu. simpl.
  by rewrite assign_value_full.
Qed.

(** C3: with the tag store full, [blkid_probe_set_uuid_as] called with a
    name and a UUID that is not empty does not return -1: the pointer
    [blkid_probe_assign_value] returns is null and the function writes
    through it.  The other emitters return -1 there, see the lemmas above. *)
Theorem set_uuid_as_full_store_faults (pr : blkid_struct_probe)
    (uuid : list Z) (name : string) :
  BLKID_PROBVAL_NVALS <= pr_nvals pr ->
  uuid_is_empty (take 16 uuid) = false ->
  blkid_probe_set_uuid_as pr uuid (Some name) = Fault.
Proof.
  intros H Hne. unfold blkid_probe_set_uuid_as. rewrite Hne. simpl.
  by rewrite assign_value_full.
Qed.

(** ** The buffer cache *)

Ltac split_get_buffer len :=
  unfold blkid_probe_get_buffer, sb_ensure, sb_fill, buf_ensure, read_into,
    alloc, realloc;
  destruct (malloc BLKID_SB_BUFSIZ) eqn:?, (malloc len) eqn:?;
  repeat (case_match; simplify_eq /=; try done).
Lemma get_buffer_frame (pr : blkid_struct_probe) (off len : Z) :
  let pr' := (blkid_probe_get_buffer pr off len).2 in
  pr_vals pr' = pr_vals pr /\ pr_nvals pr' = pr_nvals pr
  /\ pr_probreq pr' = pr_probreq pr /\ pr_fltr pr' = pr_fltr pr
  /\ pr_idx pr' = pr_idx pr /\ pr_fd pr' = pr_fd pr
  /\ pr_off pr' = pr_off pr /\ pr_size pr' = pr_size pr.
Proof. 
  cbv zeta. split_get_buffer len.
Qed.

Lemma memcpy_length (dst src : list Z) :
  length (memcpy dst src) = (length src `max` length dst)%nat.
Proof. unfold memcpy. rewrite length_app, length_drop. lia. Qed.

Lemma slice_length (off len : Z) (p : list Z) :
  0 <= off -> 0 <= len -> off + len <= Z.of_nat (length p) ->
  length (slice off len p) = Z.to_nat len.
Proof.
  intros. unfold slice. rewrite length_take, length_drop. lia.
Qed.



Lemma slice_app_l (off len : Z) (l k : list Z) :
  0 <= off -> 0 <= len -> off + len <= Z.of_nat (length l) ->
  slice off len (l ++ k) = slice off len l.
Proof.
  intros Hoff Hlen Hin. unfold slice.
  rewrite drop_app, take_app.
  rewrite length_drop.
  replace (Z.to_nat len - (length l - Z.to_nat off))%nat with 0%nat by lia.
  by rewrite take_0, app_nil_r.
Qed.

Lemma slice_take (off len : Z) (n : nat) (l : list Z) :
  0 <= off -> 0 <= len -> off + len <= Z.of_nat (length (take n l)) ->
  slice off len (take n l) = slice off len l.
Proof.
  intros Hoff Hlen Hin.
  rewrite <- (take_drop n l) at 2. symmetry. by apply slice_app_l.
Qed.

Ltac use_buffer_fields :=
  repeat match goal with
         | H : pr_sbbuf _ = _ |- _ => rewrite H in *
         | H : pr_buf _ = _ |- _ => rewrite H in *
         end;
  simpl in *; rewrite ?length_take, ?length_app, ?length_replicate in *.

Lemma sb_ok_get_buffer (pr : blkid_struct_probe) (off len : Z) :
  sb_ok pr -> sb_ok (blkid_probe_get_buffer pr off len).2.
Proof.
  unfold sb_ok. intros (Hn & Hl).
  split_get_buffer len; rewrite ?memcpy_length; repeat split; intros;
    simplify_eq /=; use_buffer_fields; try done; try lia; auto.
Qed.

Lemma buf_ok_get_buffer (pr : blkid_struct_probe) (off len : Z) :
  buf_ok pr -> 0 <= off -> 0 <= len ->
  buf_ok (blkid_probe_get_buffer pr off len).2.
Proof.
  unfold buf_ok. intros (Hb & Ho & Hw) Hoff Hlen.
  split_get_buffer len; rewrite ?memcpy_length; repeat split; intros;
    simplify_eq /=; use_buffer_fields; try done; try lia; auto.
Qed.

Lemma buffers_ok_get_buffer (pr : blkid_struct_probe) (off len : Z) :
  buffers_ok pr -> 0 <= off -> 0 <= len ->
  buffers_ok (blkid_probe_get_buffer pr off len).2.
Proof.
  intros [Hs Hb] Hoff Hlen. split.
  - by apply sb_ok_get_buffer.
  - by apply buf_ok_get_buffer.
Qed.

Lemma get_buffer_superblock_tier (pr : blkid_struct_probe) (off len : Z) :
  sb_ok pr -> 0 <= off -> 0 < len ->
  off + len <= BLKID_SB_BUFSIZ ->
  forall r pr', blkid_probe_get_buffer pr off len = (r, pr') ->
  (r = None <-> sb_filled pr < off + len)
  /\ pr_sbbuf_len pr' = sb_filled pr
  /\ (forall d, r = Some d ->
        d = slice off len (default [] (pr_sbbuf pr'))
        /\ length d = Z.to_nat len)
  /\ pr_buf pr' = pr_buf pr /\ pr_buf_off pr' = pr_buf_off pr
  /\ pr_buf_len pr' = pr_buf_len pr /\ pr_buf_max pr' = pr_buf_max pr.
Proof.
  intros Hok Hoff Hlen Hsb r pr' Hget.
  pose proof (sb_ok_get_buffer pr off len Hok) as Hok'.
  rewrite Hget in Hok'. simpl in Hok'.
  destruct Hok as (Hn & Hl). destruct Hok' as (Hn' & Hl').
  revert Hget Hn' Hl'. unfold sb_filled.
  destruct (Z.leb_spec (off + len) BLKID_SB_BUFSIZ) as [_|?]; [|lia].
  unfold blkid_probe_get_buffer, sb_ensure, sb_fill, read_into, alloc.
  destruct (Z.leb_spec (off + len) BLKID_SB_BUFSIZ) as [_|?]; [|lia].
  destruct (malloc BLKID_SB_BUFSIZ) eqn:?.
  all: repeat (case_match; simplify_eq /=; try done).
  all: intros; simplify_eq /=.
  all: repeat match goal with
              | H : pr_sbbuf _ = _ |- _ => rewrite H in *
              end; simpl in *.
  all: repeat split; intros; simplify_eq; try done; try lia.
  all: try (apply slice_length; lia).
Qed.


Lemma buffers_ok_reset_probe (pr : blkid_struct_probe) :
  buffers_ok pr -> buffers_ok (blkid_reset_probe pr).
Proof.
  unfold buffers_ok, sb_ok, buf_ok, blkid_reset_probe,
    blkid_probe_reset_vals. simpl.
  intros ((Hn & Hl) & Hb & Ho & Hw).
  destruct (pr_buf pr), (pr_sbbuf pr); simpl in *; repeat split;
    intros; try done; try lia; auto.
Qed.

Lemma buffers_ok_new_probe (pr : blkid_struct_probe) :
  blkid_new_probe = Some pr -> buffers_ok pr.
Proof.
  unfold blkid_new_probe. destruct (malloc 1); simpl; [|done].
  intros [= <-]. unfold buffers_ok, sb_ok, buf_ok. simpl.
  repeat split; intros; try done.
Qed.



(** ** Binding a device *)

Lemma sb_ok_unfilled (pr : blkid_struct_probe) :
  pr_sbbuf_len pr = 0 -> sb_ok pr.
Proof. unfold sb_ok. intros ->. split; [done|lia]. Qed.

Lemma set_device_fields_spec (pr : blkid_struct_probe) (fd off size : Z) :
  let pr0 := set_device_fields pr fd off size in
  pr_sbbuf_len pr0 = 0 /\ pr_fd pr0 = fd /\ pr_off pr0 = off
  /\ (pr_sbbuf pr0 = None <-> pr_sbbuf pr = None).
Proof.
  unfold set_device_fields, blkid_reset_probe, blkid_probe_reset_vals.
  destruct (size =? 0), (blkdev_get_size fd), (pr_sbbuf pr) eqn:Hs; simpl;
    rewrite ?Hs; done.
Qed.

Lemma buffers_ok_set_device (pr pr' : blkid_struct_probe)
    (fd off size : Z) :
  buffers_ok pr ->
  (blkid_probe_set_device (Some pr) fd off size).2 = Some pr' ->
  buffers_ok pr'.
Proof.
  intros Hok. unfold blkid_probe_set_device.
  assert (Hok0 : buffers_ok (set_device_fields pr fd off size)).
  { apply buffers_ok_reset_probe in Hok. revert Hok.
    unfold set_device_fields.
    generalize (blkid_reset_probe pr). intros p Hp.
    destruct (size =? 0); [destruct (blkdev_get_size fd)|]; exact Hp. }
  pose proof (buffers_ok_get_buffer _ 0 512 Hok0 ltac:(lia) ltac:(lia))
    as Hok1.
  destruct (blkid_probe_get_buffer _ 0 512) as [[d|] p]; simpl in *;
    by intros [= <-].
Qed.

(** C2, as the code has it: with [BLKID_SB_BUFSIZ] at least 512,
    [blkid_probe_set_device] returns 0 or -1, and 0 exactly when the
    superblock buffer exists or can be allocated, the seek to the origin
    succeeds and the read there delivers at least 512 bytes. *)
Theorem set_device_needs_512_bytes (pr : blkid_struct_probe)
    (fd off size : Z) :
  512 <= BLKID_SB_BUFSIZ ->
  let rc := (blkid_probe_set_device (Some pr) fd off size).1 in
  (rc = 0 \/ rc = -1)
  /\ (rc = 0 <->
      (pr_sbbuf pr <> None \/ malloc BLKID_SB_BUFSIZ <> None)
      /\ lseek fd off = true
      /\ exists bs, read fd off BLKID_SB_BUFSIZ = Some bs
           /\ 512 <= Z.of_nat (length bs)).
Proof.
  intros Hsb rc. subst rc. unfold blkid_probe_set_device.
  destruct (set_device_fields_spec pr fd off size)
    as (Hlen0 & Hfd & Hoff & Hnone).
  set (pr0 := set_device_fields pr fd off size) in *. clearbody pr0.
  destruct (blkid_probe_get_buffer pr0 0 512) as [r pr1] eqn:Hget.
  destruct (get_buffer_superblock_tier pr0 0 512 (sb_ok_unfilled pr0 Hlen0)
              ltac:(lia) ltac:(lia) ltac:(lia) r pr1 Hget) as (Hr & _).
  clear Hget.
  assert (Hrc : (match r with Some _ => (0, Some (set_idx 0 pr1))
                 | None => (-1, Some pr1) end).1 = 0
                <-> 512 <= sb_filled pr0).
  { destruct r as [d|]; simpl.
    - split; [intros _|done].
      destruct (Z.lt_ge_cases (sb_filled pr0) (0 + 512)) as [Hlt|?]; [|lia].
      by apply Hr in Hlt.
    - split; [done|]. intros Hge.
      assert (sb_filled pr0 < 0 + 512) by (by apply Hr). lia. }
  split; [destruct r; simpl; lia|].
  rewrite Hrc. clear Hrc Hr r pr1.
  unfold sb_filled. rewrite Hlen0, Hfd, Hoff. simpl.
  assert (Hcases : pr_sbbuf pr0 = None /\ pr_sbbuf pr = None
                   \/ (exists b, pr_sbbuf pr0 = Some b)
                      /\ pr_sbbuf pr <> None).
  { destruct (pr_sbbuf pr0) as [b|].
    - right. split; [by exists b|]. intros E. by apply Hnone in E.
    - left. split; [done|]. by apply Hnone. }
  destruct Hcases as [[-> H1]|[[b ->] H1]];
    destruct (malloc BLKID_SB_BUFSIZ) as [junk|], (lseek fd off),
      (read fd off BLKID_SB_BUFSIZ) as [bs|];
    rewrite ?length_take; simpl.
  all: split;
    [ intros Hge; try lia;
      (split; [first [by left | by right]|]; split; [done|];
       eexists; split; [done|lia])
    | intros (Ha & Hs & bs' & Hb & Hl); simplify_eq; try done; try lia;
      try (destruct Ha; done) ].
Qed.

(** ** The dispatch loop *)

Lemma magic_loop_frame (mags : list blkid_idmag) :
  forall (pr pr' : blkid_struct_probe) (m : option blkid_idmag),
    magic_loop pr mags = Ok (m, pr') ->
    pr_nvals pr' = pr_nvals pr /\ pr_probreq pr' = pr_probreq pr
    /\ pr_fltr pr' = pr_fltr pr /\ pr_idx pr' = pr_idx pr.
Proof.
  induction mags as [|mag rest IH]; intros pr pr' m; simpl.
  - by intros [= <- <-].
  - pose proof (get_buffer_frame pr
                  (Z.shiftl (kboff mag + Z.shiftr (sboff mag) 10) 10) 1024)
      as Hf. cbv zeta in Hf.
    destruct (blkid_probe_get_buffer pr _ 1024) as [buf pr1]. simpl in Hf.
    destruct Hf as (_ & Hn & Hq & Hfl & Hi & _).
    rewrite <- Hn, <- Hq, <- Hfl, <- Hi.
    destruct buf as [b|]; [|apply IH].
    repeat case_match; try done.
    + by intros [= <- <-].
    + apply IH.
Qed.

Lemma set_value_rc (pr pr' : blkid_struct_probe) (name : option string)
    (data : list Z) (rc : Z) :
  blkid_probe_set_value pr name data = Ok (rc, pr') -> rc = 0 \/ rc = -1.
Proof.
  unfold blkid_probe_set_value.
  destruct (blkid_probe_assign_value pr name) as [[i|] p]; simpl.
  - destruct (deref p (Some i)); simpl; [|done]. intros [= <- _]. by left.
  - intros [= <- _]. by right.
Qed.

Ltac split_emitters :=
  repeat (first
    [ match goal with
      | |- context [blkid_probe_set_value ?a ?b ?c] =>
          destruct (blkid_probe_set_value a b c) as [[? ?]|]
      | |- context [blkid_probe_set_usage ?a ?b] =>
          destruct (blkid_probe_set_usage a b) as [[? ?]|]
      end
    | case_match ]; simpl; try done).

(** A turn that ends in [continue] leaves as many tags as it found, when
    the prober it ran keeps to the contract. *)
Lemma probe_body_continue (id : blkid_idinfo) (i : Z)
    (pr pr' : blkid_struct_probe) :
  (forall f, id_probefunc id = Some f -> rejects_cleanly f) ->
  probe_body id i pr = Ok (inl pr') -> pr_nvals pr' = pr_nvals pr.
Proof.
  intros Hid. unfold probe_body.
  set (p0 := set_idx i pr).
  assert (Hp0 : pr_nvals p0 = pr_nvals pr) by done. clearbody p0.
  destruct (match pr_fltr p0 with Some _ => _ | None => _ end)
    as [[|]|]; simpl; try done.
  { by intros [= <-]. }
  destruct (id_magics id) as [mags|]; simpl.
  - destruct (magic_loop p0 mags) as [[m p1]|] eqn:Hm; simpl; [|done].
    apply magic_loop_frame in Hm as (Hn1 & _).
    destruct m as [mag|]; simpl; [|intros [= <-]; congruence].
    destruct (id_probefunc id) as [f|] eqn:Hf; simpl.
    + destruct (f p1 (Some mag)) as [[rc p2]|] eqn:Hcall; simpl; [|done].
      destruct (Z.eqb_spec rc 0) as [->|Hrc]; simpl.
      * split_emitters.
      * intros [= <-]. rewrite (Hid f eq_refl _ _ _ _ Hcall Hrc). congruence.
    + split_emitters.
  - destruct (id_probefunc id) as [f|] eqn:Hf; simpl.
    + destruct (f p0 None) as [[rc p2]|] eqn:Hcall; simpl; [|done].
      destruct (Z.eqb_spec rc 0) as [->|Hrc]; simpl.
      * split_emitters.
      * intros [= <-]. rewrite (Hid f eq_refl _ _ _ _ Hcall Hrc). congruence.
    + split_emitters.
Qed.

(** The loop returns 0 or 1, and 1 without a tag when it was entered
    without one and the probers that reject keep to their contract. *)
Lemma probe_loop_exhausted (ids : list blkid_idinfo) :
  registry_rejects_cleanly ids ->
  forall (i : Z) (pr pr' : blkid_struct_probe) (rc : Z),
    pr_nvals pr = 0 ->
    probe_loop ids i pr = Ok (rc, pr') ->
    (rc = 0 \/ rc = 1) /\ (rc = 1 -> pr_nvals pr' = 0).
Proof.
  induction 1 as [|id ids Hid _ IH]; intros i pr pr' rc Hn; simpl.
  - intros [= <- <-]. split; [by right|done].
  - destruct (probe_body id i pr) as [[p1|p1]|] eqn:Hb; simpl; [| |done].
    + apply IH. rewrite (probe_body_continue _ _ _ _ Hid Hb). done.
    + intros [= <- <-]. split; [by left|done].
Qed.

(** C9, as the code has it: [blkid_do_probe] returns -1 only for a null
    session, for which [blkid_probe_numof_values] is -1 too; on a session it
    returns 0 or 1, and after a return of 1 the tag store is empty provided
    every prober of the registry that rejects leaves as many tags as it
    found: the loop clears the store on entry only. *)
Theorem exhausted_probe_has_no_tags (idinfos : list blkid_idinfo) :
  registry_rejects_cleanly idinfos ->
  (blkid_do_probe idinfos None = Ok (-1, None)
   /\ blkid_probe_numof_values None = -1)
  /\ forall (pr : blkid_struct_probe) (rc : Z)
        (pr' : option blkid_struct_probe),
       blkid_do_probe idinfos (Some pr) = Ok (rc, pr') ->
       (rc = 0 \/ rc = 1)
       /\ (rc = 1 -> blkid_probe_numof_values pr' = 0).
Proof.
  intros Hreg. split; [done|]. intros pr rc pr'.
  unfold blkid_do_probe, overwrite. rewrite drop_0.
  destruct (probe_loop idinfos 0 (blkid_probe_reset_vals pr))
    as [[rc1 p1]|] eqn:Hloop; simpl; [|done].
  intros [= <- <-]. simpl.
  by apply (probe_loop_exhausted idinfos Hreg 0 (blkid_probe_reset_vals pr)).
Qed.

(** The cursor a call finds does not matter: the loop starts at index 0. *)
Lemma do_probe_ignores_cursor (idinfos : list blkid_idinfo)
    (pr : blkid_struct_probe) (k : Z) :
  idinfos <> [] ->
  blkid_do_probe idinfos (Some (set_idx k pr))
  = blkid_do_probe idinfos (Some pr).
Proof.
  intros Hne. unfold blkid_do_probe, overwrite. rewrite !drop_0.
  destruct idinfos as [|id ids]; [done|]. simpl. reflexivity.
Qed.

(** ** Taking a slot of the tag store *)

Lemma vals_ok_slot (pr : blkid_struct_probe) (i : Z) :
  vals_ok pr -> 0 <= i < BLKID_PROBVAL_NVALS ->
  exists x, pr_vals pr !! Z.to_nat i = Some x
            /\ length (v_data x) = Z.to_nat BLKID_PROBVAL_BUFSIZ.
Proof.
  intros (Hn & Hlen & Hdata) Hi.
  destruct (pr_vals pr !! Z.to_nat i) as [x|] eqn:Hx.
  - exists x. split; [done|].
    by apply (Forall_lookup_1 _ _ _ _ Hdata Hx).
  - apply lookup_ge_None in Hx. lia.
Qed.

(** With a slot free, [blkid_probe_assign_value] hands out slot [nvals],
    named, and counts it. *)
Lemma assign_value_free (pr : blkid_struct_probe) (name : string) :
  vals_ok pr -> pr_nvals pr < BLKID_PROBVAL_NVALS ->
  exists x pr1,
    pr_vals pr !! Z.to_nat (pr_nvals pr) = Some x
    /\ length (v_data x) = Z.to_nat BLKID_PROBVAL_BUFSIZ
    /\ blkid_probe_assign_value pr (Some name) = (Some (pr_nvals pr), pr1)
    /\ deref pr1 (Some (pr_nvals pr))
       = Ok (mk_prval (Some name) (v_data x) (v_len x))
    /\ pr_nvals pr1 = pr_nvals pr + 1
    /\ pr_probreq pr1 = pr_probreq pr
    /\ length (pr_vals pr1) = length (pr_vals pr)
    /\ (forall i, i <> Z.to_nat (pr_nvals pr) ->
          pr_vals pr1 !! i = pr_vals pr !! i).
Proof.
  intros Hok Hfree.
  destruct (vals_ok_slot pr (pr_nvals pr) Hok) as (x & Hx & Hdata).
  { destruct Hok as (? & _). lia. }
  exists x. eexists. split; [done|]. split; [done|].
  unfold blkid_probe_assign_value.
  destruct (Z.geb_spec (pr_nvals pr) BLKID_PROBVAL_NVALS); [lia|].
  split; [reflexivity|]. simpl.
  split.
  { unfold deref. simpl. destruct Hok as ([? ?] & _).
    destruct (Z.leb_spec 0 (pr_nvals pr)); [|lia].
    by rewrite list_lookup_alter_eq, Hx. }
  split; [done|]. split; [done|]. split; [by rewrite length_alter|].
  intros i Hi. by rewrite list_lookup_alter_ne.
Qed.

(** The tag a write through the slot just taken leaves. *)
Lemma tag_of_assign (pr1 : blkid_struct_probe) (n : Z) (y : blkid_prval) :
  0 <= n -> (Z.to_nat n < length (pr_vals pr1))%nat ->
  pr_nvals pr1 = n + 1 ->
  tag_of (assign pr1 (Some n) y) n
  = Some (v_name y, take (Z.to_nat (v_len y)) (v_data y)).
Proof.
  intros Hn Hlt Hnv. unfold tag_of, blkid_probe_get_value, assign. simpl.
  rewrite Hnv.
  destruct (Z.ltb_spec n 0); [lia|].
  destruct (Z.geb_spec n (n + 1)); [lia|]. simpl.
  by rewrite list_lookup_insert_eq.
Qed.


Lemma vals_ok_assign (pr pr1 : blkid_struct_probe) (y : blkid_prval) :
  vals_ok pr -> pr_nvals pr < BLKID_PROBVAL_NVALS ->
  pr_nvals pr1 = pr_nvals pr + 1 ->
  length (pr_vals pr1) = length (pr_vals pr) ->
  (forall i, i <> Z.to_nat (pr_nvals pr) ->
     pr_vals pr1 !! i = pr_vals pr !! i) ->
  length (v_data y) = Z.to_nat BLKID_PROBVAL_BUFSIZ ->
  vals_ok (assign pr1 (Some (pr_nvals pr)) y).
Proof.
  intros (Hn & Hlen & Hdata) Hfree Hnv Hl Hother Hy.
  unfold vals_ok, assign. simpl. rewrite length_insert.
  split; [lia|]. split; [congruence|].
  apply Forall_lookup_2. intros i v Hv.
  destruct (decide (i = Z.to_nat (pr_nvals pr))) as [->|Hne].
  - rewrite list_lookup_insert_eq in Hv by lia. congruence.
  - rewrite list_lookup_insert_ne in Hv by done.
    rewrite Hother in Hv by done.
    by apply (Forall_lookup_1 _ _ _ _ Hdata Hv).
Qed.

Lemma memcpy_take (dst src : list Z) :
  take (length src) (memcpy dst src) = src.
Proof. unfold memcpy. by rewrite take_app_length. Qed.

(** [blkid_probe_set_value] with a slot free: the tag is the data, cut to
    [BLKID_PROBVAL_BUFSIZ] bytes, and the rest of the store is kept. *)
Lemma set_value_free (pr : blkid_struct_probe) (name : string)
    (data : list Z) :
  vals_ok pr -> pr_nvals pr < BLKID_PROBVAL_NVALS ->
  exists pr',
    blkid_probe_set_value pr (Some name) data = Ok (0, pr')
    /\ vals_ok pr'
    /\ pr_nvals pr' = pr_nvals pr + 1
    /\ pr_probreq pr' = pr_probreq pr
    /\ tag_of pr' (pr_nvals pr)
       = Some (Some name, take (Z.to_nat BLKID_PROBVAL_BUFSIZ) data)
    /\ (forall i, i <> Z.to_nat (pr_nvals pr) ->
          pr_vals pr' !! i = pr_vals pr !! i).
Proof.
  intros Hok Hfree.
  destruct (assign_value_free pr name Hok Hfree)
    as (x & pr1 & Hx & Hdata & Ha & Hd & Hnv & Hq & Hl & Hother).
  unfold blkid_probe_set_value. rewrite Ha, Hd. simpl.
  eexists. split; [reflexivity|].
  assert (Hn0 : 0 <= pr_nvals pr) by (destruct Hok as ([? ?] & _); done).
  assert (Hlt : (Z.to_nat (pr_nvals pr) < length (pr_vals pr1))%nat).
  { rewrite Hl. destruct Hok as (_ & -> & _). lia. }
  split.
  { apply (vals_ok_assign pr pr1); try done. simpl.
    rewrite memcpy_length, length_take. lia. }
  split; [done|]. split; [done|]. split.
  - rewrite tag_of_assign by done. simpl.
    by rewrite Nat2Z.id, memcpy_take.
  - intros i Hi. simpl. rewrite list_lookup_insert_ne by done. by apply Hother.
Qed.

(** ** Named UUIDs *)

Lemma uuid_text_length (uuid : list Z) :
  length uuid = 16%nat -> length (uuid_text uuid) = 36%nat.
Proof.
  intros H. do 17 (destruct uuid as [|? uuid]; try done).
Qed.

Lemma uuid_is_empty_take_16 (uuid : list Z) :
  length uuid = 16%nat -> take 16 uuid = uuid.
Proof. intros H. apply take_ge. lia. Qed.

Lemma snprintf_into_take (dst text : list Z) (size : Z) :
  Z.of_nat (length text) < size ->
  take (S (length text)) (snprintf_into dst size text) = text ++ [0].
Proof.
  intros H. unfold snprintf_into.
  destruct (Z.leb_spec size 0); [lia|].
  rewrite (take_ge text) by lia.
  replace (S (length text)) with (length (text ++ [0]))
    by (rewrite length_app; simpl; lia).
  apply memcpy_take.
Qed.

Lemma snprintf_into_length (dst text : list Z) (size : Z) :
  size <= Z.of_nat (length dst) ->
  length (snprintf_into dst size text) = length dst.
Proof.
  intros H. unfold snprintf_into.
  destruct (Z.leb_spec size 0); [done|].
  rewrite memcpy_length, length_app, length_take. simpl. lia.
Qed.

(** C5, as the code has it: called with a name, a UUID of 16 bytes that is
    not empty and a free slot, [blkid_probe_set_uuid_as] returns 0 and
    appends one tag, under that name, holding the canonical text and its
    NUL; the request mask is not consulted, so this happens with the UUID
    flag off as with it on.  The rest of the store and the mask are kept. *)
Theorem set_uuid_as_named_is_not_gated (pr : blkid_struct_probe)
    (uuid : list Z) (name : string) :
  vals_ok pr -> pr_nvals pr < BLKID_PROBVAL_NVALS ->
  37 <= BLKID_PROBVAL_BUFSIZ ->
  length uuid = 16%nat -> uuid_is_empty uuid = false ->
  exists pr',
    blkid_probe_set_uuid_as pr uuid (Some name) = Ok (0, pr')
    /\ pr_nvals pr' = pr_nvals pr + 1
    /\ tag_of pr' (pr_nvals pr) = Some (Some name, uuid_text uuid ++ [0])
    /\ (forall i, i <> Z.to_nat (pr_nvals pr) ->
          pr_vals pr' !! i = pr_vals pr !! i)
    /\ pr_probreq pr' = pr_probreq pr.
Proof.
  intros Hok Hfree Hsize Hlen Hne.
  destruct (assign_value_free pr name Hok Hfree)
    as (x & pr1 & Hx & Hdata & Ha & Hd & Hnv & Hq & Hl & Hother).
  unfold blkid_probe_set_uuid_as.
  rewrite (uuid_is_empty_take_16 uuid Hlen), Hne. simpl.
  rewrite Ha, Hd. simpl.
  eexists. split; [reflexivity|].
  assert (Hn0 : 0 <= pr_nvals pr) by (destruct Hok as ([? ?] & _); done).
  assert (Hlt : (Z.to_nat (pr_nvals pr) < length (pr_vals pr1))%nat).
  { rewrite Hl. destruct Hok as (_ & -> & _). lia. }
  pose proof (uuid_text_length uuid Hlen) as Ht.
  split; [done|]. split; [|split; [|done]].
  - rewrite tag_of_assign by done. simpl. rewrite Ht.
    replace (Z.to_nat (Z.of_nat 36 + 1)) with (S (length (uuid_text uuid)))
      by lia.
    rewrite snprintf_into_take by lia. done.
  - intros i Hi. unfold assign. simpl.
    rewrite list_lookup_insert_ne by done. by apply Hother.
Qed.

(** ** Labels *)

Lemma rstrip_snoc (l : list Z) (c : Z) :
  rstrip (l ++ [c]) = if isspace c then rstrip l else l ++ [c].
Proof.
  induction l as [|a l IH]; simpl.
  - by destruct (isspace c).
  - rewrite IH. destruct (isspace c); [done|].
    by destruct l.
Qed.

(** [rstrip] drops white space, only white space, and all of it. *)
Lemma rstrip_spec (l : list Z) :
  exists ws, l = rstrip l ++ ws /\ Forall (fun c => isspace c = true) ws.
Proof.
  induction l as [|a l (ws & Hl & Hws)]; simpl.
  - by exists [].
  - destruct (rstrip l) as [|b r] eqn:Hr.
    + destruct (isspace a) eqn:Ha.
      * exists (a :: ws). simpl in *. split; [by f_equal|by constructor].
      * exists ws. simpl in *. split; [by f_equal|done].
    + exists ws. split; [|done]. simpl. by f_equal.
Qed.

Lemma rstrip_last (l r : list Z) (c : Z) :
  rstrip l = r ++ [c] -> isspace c = false.
Proof.
  revert r. induction l as [|a l IH] using rev_ind; intros r; simpl.
  - by destruct r.
  - rewrite rstrip_snoc. destruct (isspace a) eqn:Ha; [apply IH|].
    intros [_ ->]%app_inj_tail. done.
Qed.






Lemma store_byte_in (i b : Z) (a : list Z) :
  0 <= i < Z.of_nat (length a) ->
  store_byte i b a = Ok (<[Z.to_nat i := b]> a).
Proof.
  intros Hi. unfold store_byte.
  destruct (Z.leb_spec 0 i), (Z.ltb_spec i (Z.of_nat (length a)));
    simpl; try lia. done.
Qed.

Lemma assign_nvals (pr : blkid_struct_probe) (v : option Z)
    (x : blkid_prval) :
  pr_nvals (assign pr v x) = pr_nvals pr.
Proof. by destruct v. Qed.


(** ** Formatted UUIDs *)

Lemma deref_lookup (pr : blkid_struct_probe) (i : Z) (x : blkid_prval) :
  0 <= i -> pr_vals pr !! Z.to_nat i = Some x -> deref pr (Some i) = Ok x.
Proof.
  intros Hi Hx. unfold deref.
  destruct (Z.leb_spec 0 i); [|lia]. by rewrite Hx.
Qed.

Lemma strnlen_no_nul (s tail : list Z) (n : nat) :
  Forall (fun c => c <> 0) s -> (length s < n)%nat ->
  strnlen (s ++ 0 :: tail) n = Z.of_nat (length s).
Proof.
  intros Hs. revert n. induction Hs as [|c s Hc _ IH]; intros n Hn.
  - destruct n; [simpl in Hn; lia|done].
  - destruct n; [simpl in Hn; lia|]. simpl.
    destruct (Z.eqb_spec c 0); [done|].
    rewrite IH by (simpl in Hn; lia). lia.
Qed.

Lemma strlen_no_nul (s : list Z) :
  Forall (fun c => c <> 0) s -> strlen s = Z.of_nat (length s).
Proof.
  unfold strlen. induction 1 as [|c s Hc _ IH]; simpl; [done|].
  destruct (Z.eqb_spec c 0); [done|]. rewrite IH. lia.
Qed.

(** What the [%s] branch leaves in the value: the string, then zeros. *)
Lemma strncpy_no_nul (dst s : list Z) (n : Z) :
  Forall (fun c => c <> 0) s -> Z.of_nat (length s) < n ->
  length dst = Z.to_nat n ->
  strncpy dst s n = s ++ replicate (Z.to_nat n - length s) 0.
Proof.
  intros Hs Hn Hdst. unfold strncpy.
  rewrite (strlen_no_nul s Hs), Nat2Z.id, firstn_all.
  rewrite take_app_ge by lia. rewrite take_replicate.
  replace ((Z.to_nat n - length s) `min` Z.to_nat n)%nat
    with (Z.to_nat n - length s)%nat by lia.
  unfold memcpy. rewrite drop_ge; [by rewrite app_nil_r|].
  rewrite length_app, length_replicate. lia.
Qed.

(** C4 fails on the code: with a free slot followed by a slot untouched
    since the store was cleared, UUID requested and UUID_RAW not, the [%s]
    form of [blkid_probe_sprintf_uuid] returns 0 and the UUID tag holds the
    string exactly as given, upper-case letters included: the loop that
    lowers [A..F] runs over [vals[nvals]], the slot after the one written. *)
Theorem sprintf_uuid_keeps_upper_case (pr : blkid_struct_probe)
    (uuid str : list Z) (ap : list va_arg) :
  vals_ok pr -> pr_nvals pr + 1 < BLKID_PROBVAL_NVALS ->
  pr_vals pr !! Z.to_nat (pr_nvals pr + 1) = Some zero_prval ->
  uuid_is_empty (take (Z.to_nat BLKID_PROBVAL_BUFSIZ) uuid) = false ->
  bit_set (pr_probreq pr) BLKID_PROBREQ_UUIDRAW = false ->
  bit_set (pr_probreq pr) BLKID_PROBREQ_UUID = true ->
  str <> [] -> Forall (fun c => c <> 0) str ->
  Z.of_nat (length str) < BLKID_PROBVAL_BUFSIZ ->
  exists pr',
    blkid_probe_sprintf_uuid pr uuid "%s" (va_str (Some str) :: ap)
    = Ok (0, pr')
    /\ pr_nvals pr' = pr_nvals pr + 1
    /\ tag_of pr' (pr_nvals pr) = Some (Some "UUID"%string, str).
Proof.
  intros Hok Hfree Hnext Hne Hraw Hu Hstr Hnz Hshort.
  assert (Hn0 : 0 <= pr_nvals pr) by (destruct Hok as ([? ?] & _); done).
  unfold blkid_probe_sprintf_uuid. rewrite Hne, Hraw. simpl.
  rewrite Hu. simpl.
  destruct str as [|c str']; [done|].
  assert (Hc : c <> 0) by (by inversion Hnz).
  destruct (Z.eqb_spec c 0); [done|].
  set (str := c :: str') in *.
  destruct (assign_value_free pr "UUID" Hok ltac:(lia))
    as (x & pr1 & Hx & Hdata & -> & Hd & Hnv & Hq & Hl & Hother).
  rewrite Hd. simpl.
  rewrite (strncpy_no_nul _ str) by done.
  set (k := (Z.to_nat BLKID_PROBVAL_BUFSIZ - length str)%nat).
  assert (Hk : (0 < k)%nat) by (subst k; lia).
  rewrite store_byte_in by (rewrite length_app, length_replicate; lia).
  simpl.
  assert (Hd1 : <[Z.to_nat (BLKID_PROBVAL_BUFSIZ - 1) := 0]>
                  (str ++ replicate k 0)
                = str ++ 0 :: replicate (k - 1) 0).
  { rewrite insert_app_r_alt by lia. rewrite insert_replicate.
    destruct k; [lia|]. simpl. by rewrite Nat.sub_0_r. }
  change (c :: str' ++ replicate k 0) with (str ++ replicate k 0).
  rewrite Hd1.
  set (d := str ++ 0 :: replicate (k - 1) 0).
  assert (Hlen : strlen d = Z.of_nat (length str)).
  { unfold strlen. subst d. apply strnlen_no_nul; [done|].
    rewrite length_app. simpl. lia. }
  rewrite Hlen.
  set (y := {| v_name := Some "UUID"%string; v_data := d;
               v_len := Z.of_nat (length str) |}).
  rewrite ?assign_nvals, Hnv.
  assert (Hlt : (Z.to_nat (pr_nvals pr) < length (pr_vals pr1))%nat).
  { rewrite Hl. destruct Hok as (_ & -> & _). lia. }
  rewrite (deref_lookup _ _ zero_prval); [|lia|].
  2: { unfold assign. simpl. rewrite list_lookup_insert_ne by lia.
       rewrite Hother by lia. done. }
  simpl. unfold lower_loop. simpl.
  destruct (Z.leb_spec 0 (Z.of_nat (length
              (replicate (Z.to_nat BLKID_PROBVAL_BUFSIZ) 0)))); [|lia].
  simpl. eexists. split; [reflexivity|].
  split; [by rewrite !assign_nvals|].
  unfold tag_of, blkid_probe_get_value, assign. simpl. rewrite Hnv.
  destruct (Z.ltb_spec (pr_nvals pr) 0); [lia|].
  destruct (Z.geb_spec (pr_nvals pr) (pr_nvals pr + 1)); [lia|]. simpl.
  rewrite list_lookup_insert_ne by lia.
  rewrite list_lookup_insert_eq by lia. simpl.
  change (S (length str')) with (length str).
  subst d. by rewrite Nat2Z.id, take_app_length.
Qed.

(** ** More on the buffer cache *)

(** What the superblock tier answers without a system call. *)
Lemma sb_served (sys' : blkid_sys) (pr : blkid_struct_probe) (off len : Z)
    (b : list Z) :
  pr_sbbuf pr = Some b -> 0 < pr_sbbuf_len pr ->
  off + len <= BLKID_SB_BUFSIZ -> off + len <= pr_sbbuf_len pr ->
  @blkid_probe_get_buffer consts sys' pr off len
  = (Some (slice off len b), pr).
Proof.
  intros Hb Hfilled Htier Hcover.
  unfold blkid_probe_get_buffer, sb_ensure, sb_fill. rewrite Hb.
  destruct (Z.leb_spec (off + len) BLKID_SB_BUFSIZ); [|lia].
  destruct (Z.eqb_spec (pr_sbbuf_len pr) 0); [lia|].
  destruct (Z.gtb_spec (off + len) (pr_sbbuf_len pr)); [lia|].
  by rewrite Hb.
Qed.

(** What the general tier answers without a system call. *)
Lemma buf_served (sys' : blkid_sys) (pr : blkid_struct_probe) (off len : Z) :
  BLKID_SB_BUFSIZ < off + len -> len <= pr_buf_max pr ->
  pr_buf_off pr <= off -> off + len <= pr_buf_off pr + pr_buf_len pr ->
  @blkid_probe_get_buffer consts sys' pr off len
  = (Some (slice (if off =? 0 then 0 else off - pr_buf_off pr) len
                 (default [] (pr_buf pr))), pr).
Proof.
  intros Htier Hmax Hlo Hhi.
  unfold blkid_probe_get_buffer, buf_ensure.
  destruct (Z.leb_spec (off + len) BLKID_SB_BUFSIZ); [lia|].
  destruct (Z.gtb_spec len (pr_buf_max pr)); [lia|].
  destruct (Z.ltb_spec off (pr_buf_off pr)); [lia|].
  destruct (Z.gtb_spec (off + len) (pr_buf_off pr + pr_buf_len pr)); [lia|].
  done.
Qed.

Lemma sb_answer (pr pr' : blkid_struct_probe) (off len : Z) (d : list Z) :
  off + len <= BLKID_SB_BUFSIZ ->
  blkid_probe_get_buffer pr off len = (Some d, pr') ->
  exists b, pr_sbbuf pr' = Some b /\ off + len <= pr_sbbuf_len pr'
            /\ d = slice off len b.
Proof.
  intros Htier.
  unfold blkid_probe_get_buffer, sb_ensure, sb_fill, read_into, alloc.
  destruct (Z.leb_spec (off + len) BLKID_SB_BUFSIZ); [|lia].
  destruct (malloc BLKID_SB_BUFSIZ) eqn:?.
  all: repeat (case_match; simplify_eq /=; try done).
  all: intros; simplify_eq /=.
  all: repeat match goal with
              | H : pr_sbbuf _ = _ |- _ => rewrite H in *
              end; simpl.
  all: eexists; split; [reflexivity|]; split; [lia|done].
Qed.

Lemma buf_answer (pr pr' : blkid_struct_probe) (off len : Z) (d : list Z) :
  BLKID_SB_BUFSIZ < off + len ->
  blkid_probe_get_buffer pr off len = (Some d, pr') ->
  len <= pr_buf_max pr' /\ pr_buf_off pr' <= off
  /\ off + len <= pr_buf_off pr' + pr_buf_len pr'
  /\ d = slice (if off =? 0 then 0 else off - pr_buf_off pr') len
            (default [] (pr_buf pr')).
Proof.
  intros Htier.
  unfold blkid_probe_get_buffer, buf_ensure, read_into, realloc.
  destruct (Z.leb_spec (off + len) BLKID_SB_BUFSIZ); [lia|].
  destruct (malloc len) eqn:?.
  all: repeat (case_match; simplify_eq /=; try done).
  all: intros; simplify_eq /=.
  all: repeat split; try lia; try done.
Qed.

(** X1: a request served once is served again from the cache: the same bytes,
    the session as it was, and no system call, so with any device, or none,
    behind the descriptor. *)
Theorem get_buffer_again (sys' : blkid_sys) (pr pr' : blkid_struct_probe)
    (off len : Z) (d : list Z) :
  0 <= off -> 0 < len ->
  @blkid_probe_get_buffer consts sys pr off len = (Some d, pr') ->
  @blkid_probe_get_buffer consts sys' pr' off len = (Some d, pr').
Proof.
  intros Hoff Hlen Hget.
  destruct (Z.le_gt_cases (off + len) BLKID_SB_BUFSIZ) as [Htier|Htier].
  - destruct (@sb_answer pr pr' off len d Htier Hget) as (b & Hb & Hc & ->).
    apply sb_served; try done; lia.
  - destruct (buf_answer pr pr' off len d ltac:(lia) Hget)
      as (Hmax & Hlo & Hhi & ->).
    apply buf_served; try done; lia.
Qed.


(** X2: On a session whose superblock buffer holds nothing yet, which is how
    [blkid_reset_probe] and so [blkid_probe_set_device] leave it, a request
    of the superblock tier that is served seeks to the origin, reads there,
    and returns the bytes [off .. off + len) of what the read delivered. *)
Theorem get_buffer_first_fill (pr pr' : blkid_struct_probe) (off len : Z)
    (d : list Z) :
  pr_sbbuf_len pr = 0 -> 0 <= off -> 0 < len ->
  off + len <= BLKID_SB_BUFSIZ ->
  blkid_probe_get_buffer pr off len = (Some d, pr') ->
  exists bs,
    lseek (pr_fd pr) (pr_off pr) = true
    /\ read (pr_fd pr) (pr_off pr) BLKID_SB_BUFSIZ = Some bs
    /\ off + len <= Z.of_nat (length bs)
    /\ d = slice off len bs
    /\ pr_sbbuf_len pr' = Z.of_nat (length bs) `min` BLKID_SB_BUFSIZ.
Proof.
  intros Hempty Hoff Hlen Htier.
  unfold blkid_probe_get_buffer, sb_ensure, sb_fill, read_into, alloc.
  destruct (Z.leb_spec (off + len) BLKID_SB_BUFSIZ); [|lia].
  destruct (malloc BLKID_SB_BUFSIZ) eqn:?.
  all: repeat (case_match; simplify_eq /=; try done; try lia).
  all: intros; simplify_eq /=.
  all: eexists; split; [done|]; split; [done|].
  all: rewrite ?length_take in *.
  all: split; [lia|]; split; [|lia].
  all: unfold memcpy; rewrite slice_app_l by (rewrite ?length_take; lia).
  all: apply slice_take; rewrite ?length_take; lia.
Qed.

(** ** More on binding *)

(** X3: What [blkid_probe_set_device] leaves: the tag store is cleared and the
    descriptor and the origin are replaced whether the test read succeeds or
    not; the request mask and the filter are kept; a size that is not zero
    is stored as given; the cursor is reset only when 0 is returned, and
    then at least 512 bytes are in the superblock buffer. *)
Theorem set_device_effect (pr pr' : blkid_struct_probe) (fd off size rc : Z) :
  512 <= BLKID_SB_BUFSIZ ->
  blkid_probe_set_device (Some pr) fd off size = (rc, Some pr') ->
  pr_fd pr' = fd /\ pr_off pr' = off /\ pr_nvals pr' = 0
  /\ pr_probreq pr' = pr_probreq pr /\ pr_fltr pr' = pr_fltr pr
  /\ (size <> 0 -> pr_size pr' = size)
  /\ (size = 0 -> pr_size pr' = default (pr_size pr) (blkdev_get_size fd))
  /\ (rc = 0 -> pr_idx pr' = 0 /\ 512 <= pr_sbbuf_len pr')
  /\ (rc <> 0 -> rc = -1 /\ pr_idx pr' = pr_idx pr).
Proof.
  intros Hsb. unfold blkid_probe_set_device.
  set (pr0 := set_device_fields pr fd off size).
  assert (H0 : pr_fd pr0 = fd /\ pr_off pr0 = off /\ pr_nvals pr0 = 0
               /\ pr_probreq pr0 = pr_probreq pr /\ pr_fltr pr0 = pr_fltr pr
               /\ (size <> 0 -> pr_size pr0 = size)
               /\ (size = 0 ->
                   pr_size pr0 = default (pr_size pr) (blkdev_get_size fd))
               /\ pr_idx pr0 = pr_idx pr /\ pr_sbbuf_len pr0 = 0).
  { subst pr0. unfold set_device_fields.
    destruct (Z.eqb_spec size 0), (blkdev_get_size fd); simpl;
      repeat split; intros; try done. }
  clearbody pr0.
  destruct H0 as (Hfd & Ho & Hn & Hq & Hf & Hs1 & Hs2 & Hi & Hl).
  pose proof (get_buffer_frame pr0 0 512) as Hfr. cbv zeta in Hfr.
  destruct (blkid_probe_get_buffer pr0 0 512) as [r p1] eqn:Hget.
  simpl in Hfr. destruct Hfr as (_ & Hn1 & Hq1 & Hf1 & Hi1 & Hfd1 & Ho1 & Hs).
  destruct r as [d|]; intros [= <- <-]; simpl.
  - repeat split; try congruence; try (intros; rewrite Hs; auto); try done.
    destruct (sb_answer pr0 p1 0 512 d ltac:(lia) Hget) as (b & _ & Hc & _).
    lia.
  - repeat split; try congruence; try (intros; rewrite Hs; auto); try done.
Qed.


(** ** Reading tags back *)

Lemma insert_alter_same {A : Type} (f : A -> A) (l : list A) (i : nat)
    (y : A) :
  <[i := y]> (alter f i l) = <[i := y]> l.
Proof.
  apply list_eq. intros j.
  destruct (decide (i = j)) as [->|Hne].
  - destruct (l !! j) as [x|] eqn:Hx.
    + rewrite !list_lookup_insert_eq; [done| |].
      * by apply lookup_lt_Some in Hx.
      * rewrite length_alter. by apply lookup_lt_Some in Hx.
    + apply lookup_ge_None in Hx.
      rewrite !list_insert_ge; rewrite ?length_alter; try lia.
      rewrite list_lookup_alter_eq.
      apply lookup_ge_None in Hx. by rewrite Hx.
  - by rewrite !list_lookup_insert_ne, list_lookup_alter_ne.
Qed.

(** The session [blkid_probe_set_value] leaves when a slot is free. *)
Lemma set_value_exact (pr : blkid_struct_probe) (name : string)
    (data : list Z) :
  vals_ok pr -> pr_nvals pr < BLKID_PROBVAL_NVALS ->
  exists x,
    pr_vals pr !! Z.to_nat (pr_nvals pr) = Some x
    /\ length (v_data x) = Z.to_nat BLKID_PROBVAL_BUFSIZ
    /\ blkid_probe_set_value pr (Some name) data
       = Ok (0, set_nvals (pr_nvals pr + 1)
                  (set_vals
                     (<[Z.to_nat (pr_nvals pr) :=
                          mk_prval (Some name)
                            (memcpy (v_data x)
                               (take (Z.to_nat BLKID_PROBVAL_BUFSIZ) data))
                            (Z.of_nat
                               (length
                                  (take (Z.to_nat BLKID_PROBVAL_BUFSIZ)
                                     data)))]>
                        (pr_vals pr)) pr)).
Proof.
  intros Hok Hfree.
  destruct (vals_ok_slot pr (pr_nvals pr) Hok) as (x & Hx & Hdata).
  { destruct Hok as (? & _). lia. }
  exists x. split; [done|]. split; [done|].
  unfold blkid_probe_set_value, blkid_probe_assign_value.
  destruct (Z.geb_spec (pr_nvals pr) BLKID_PROBVAL_NVALS); [lia|].
  assert (Hn0 : 0 <= pr_nvals pr) by (destruct Hok as ([? ?] & _); done).
  rewrite (deref_lookup _ _ (mk_prval (Some name) (v_data x) (v_len x)));
    [|done|by simpl; rewrite list_lookup_alter_eq, Hx].
  simpl. unfold assign. simpl. by rewrite insert_alter_same.
Qed.



(** X4: [blkid_probe_get_value] answers exactly for the indices below
    [nvals]. *)
Theorem get_value_bounds (pr : blkid_struct_probe) (num : Z) :
  vals_ok pr ->
  blkid_probe_get_value None num = None
  /\ (blkid_probe_get_value (Some pr) num = None
      <-> num < 0 \/ pr_nvals pr <= num)
  /\ (0 <= num < pr_nvals pr ->
      exists v, pr_vals pr !! Z.to_nat num = Some v
                /\ blkid_probe_get_value (Some pr) num
                   = Some (v_name v, v_data v, v_len v)).
Proof.
  intros (Hn & Hlen & _). split; [done|].
  unfold blkid_probe_get_value.
  destruct (Z.ltb_spec num 0), (Z.geb_spec num (pr_nvals pr)); simpl.
  1-3: split; [split; [intros _; lia|done]|intros; lia].
  destruct (pr_vals pr !! Z.to_nat num) as [v|] eqn:Hv.
  - split; [split; [done|lia]|]. intros _. by exists v.
  - apply lookup_ge_None in Hv. lia.
Qed.

Lemma head_filter_first {A : Type} (P : A -> Prop) `{!forall x, Decision (P x)}
    (l : list A) (i : nat) (v : A) :
  l !! i = Some v -> P v ->
  (forall j w, (j < i)%nat -> l !! j = Some w -> ~ P w) ->
  head (filter P l) = Some v.
Proof.
  revert i. induction l as [|a l IH]; intros i Hi Hv Hbefore; [done|].
  destruct i as [|i]; simpl in Hi.
  - simplify_eq. by rewrite filter_cons_True.
  - rewrite filter_cons_False by (apply (Hbefore 0%nat a); [lia|done]).
    apply (IH i Hi Hv). intros j w Hj Hw.
    apply (Hbefore (S j) w); [lia|done].
Qed.

Lemma head_filter_none {A : Type} (P : A -> Prop) `{!forall x, Decision (P x)}
    (l : list A) :
  (forall j w, l !! j = Some w -> ~ P w) -> head (filter P l) = None.
Proof.
  induction l as [|a l IH]; intros Hnone; [done|].
  rewrite filter_cons_False by (by apply (Hnone 0%nat a)).
  apply IH. intros j w Hw. by apply (Hnone (S j) w).
Qed.

Lemma lookup_value_finds_first (pr : blkid_struct_probe) (name : string)
    (i : nat) (v : blkid_prval) :
  (i < Z.to_nat (pr_nvals pr))%nat ->
  pr_vals pr !! i = Some v -> v_name v = Some name ->
  (forall j w, (j < i)%nat -> pr_vals pr !! j = Some w ->
               v_name w <> Some name) ->
  blkid_probe_lookup_value (Some pr) (Some name) = Some (v_data v, v_len v).
Proof.
  unfold blkid_probe_lookup_value.
  intros Hi Hv Hname Hbefore.
  destruct (Z.eqb_spec (pr_nvals pr) 0); [lia|].
  rewrite (head_filter_first _ _ i v); [done| |done|].
  - by rewrite lookup_take_lt.
  - intros j w Hj Hw. rewrite lookup_take_lt in Hw by lia.
    by apply (Hbefore j w).
Qed.

(** X5: [blkid_probe_lookup_value] returns the first tag, in the order of the
    store, that carries the name, so a tag stored later under a name already
    in use is never found. *)
Theorem lookup_value_first (pr : blkid_struct_probe) (name : string)
    (i : nat) (v : blkid_prval) :
  (i < Z.to_nat (pr_nvals pr))%nat ->
  pr_vals pr !! i = Some v -> v_name v = Some name ->
  (forall j w, (j < i)%nat -> pr_vals pr !! j = Some w ->
               v_name w <> Some name) ->
  blkid_probe_lookup_value (Some pr) (Some name) = Some (v_data v, v_len v)
  /\ blkid_probe_has_value (Some pr) (Some name) = 1.
Proof.
  unfold blkid_probe_has_value, blkid_probe_lookup_value.
  intros Hi Hv Hname Hbefore.
  destruct (Z.eqb_spec (pr_nvals pr) 0); [lia|].
  rewrite (head_filter_first _ _ i v); [done| |done|].
  - by rewrite lookup_take_lt.
  - intros j w Hj Hw. rewrite lookup_take_lt in Hw by lia.
    by apply (Hbefore j w).
Qed.

Lemma lookup_value_none (pr : blkid_struct_probe) (name : string) :
  (forall (j : nat) (w : blkid_prval),
     (j < Z.to_nat (pr_nvals pr))%nat -> pr_vals pr !! j = Some w ->
     v_name w <> Some name) ->
  blkid_probe_lookup_value (Some pr) (Some name) = None.
Proof.
  unfold blkid_probe_lookup_value.
  intros Hnone. destruct (pr_nvals pr =? 0); [done|].
  rewrite head_filter_none; [done|].
  intros j w Hw.
  destruct (decide (j < Z.to_nat (pr_nvals pr))%nat) as [Hj|Hj].
  - rewrite lookup_take_lt in Hw by done. by apply (Hnone j w).
  - rewrite lookup_take_ge in Hw by lia. done.
Qed.

Lemma first_with_name (l : list blkid_prval) (name : string) :
  forall (i : nat) (v : blkid_prval),
    l !! i = Some v -> v_name v = Some name ->
    exists i' v', (i' <= i)%nat /\ l !! i' = Some v'
      /\ v_name v' = Some name
      /\ forall j w, (j < i')%nat -> l !! j = Some w ->
                     v_name w <> Some name.
Proof.
  intros i. induction i as [i IH] using lt_wf_ind. intros v Hv Hname.
  destruct (decide (Exists (fun w => v_name w = Some name) (take i l)))
    as [He|Hne].
  - apply Exists_exists in He as (w & Hw & Hn).
    apply elem_of_take in Hw as (j & Hj & Hlt).
    destruct (IH j Hlt w Hj Hn) as (i' & v' & ? & ? & ? & ?).
    exists i', v'. repeat split; try done. lia.
  - exists i, v. repeat split; try done.
    intros j w Hj Hw Hn. apply Hne. apply Exists_exists. exists w.
    split; [|done]. apply elem_of_take. by exists j.
Qed.

(** X6: [blkid_probe_has_value] answers 1 or 0, and 1 exactly when a tag in use
    carries the name; a null session or a null name gives 0. *)
Theorem has_value_iff (pr : blkid_struct_probe) (name : string) :
  (blkid_probe_has_value (Some pr) (Some name) = 1
   <-> exists (i : nat) (v : blkid_prval),
         (i < Z.to_nat (pr_nvals pr))%nat /\ pr_vals pr !! i = Some v
         /\ v_name v = Some name)
  /\ (blkid_probe_has_value (Some pr) (Some name) = 1
      \/ blkid_probe_has_value (Some pr) (Some name) = 0)
  /\ blkid_probe_has_value None (Some name) = 0
  /\ blkid_probe_has_value (Some pr) None = 0.
Proof.
  split; [|split; [|done]].
  - split.
    + unfold blkid_probe_has_value, blkid_probe_lookup_value.
      destruct (pr_nvals pr =? 0); [done|].
      destruct (head _) as [x|] eqn:Hh; [|done]. intros _.
      apply head_Some_elem_of, list_elem_of_filter in Hh as (Hn & Hx).
      apply elem_of_take in Hx as (i & Hi & Hlt). by exists i, x.
    + intros (i & v & Hi & Hv & Hn).
      destruct (first_with_name _ _ i v Hv Hn)
        as (i' & v' & Hle & Hv' & Hn' & Hb).
      unfold blkid_probe_has_value.
      by rewrite (lookup_value_finds_first pr name i' v'
                    ltac:(lia) Hv' Hn' Hb).
  - unfold blkid_probe_has_value.
    destruct (blkid_probe_lookup_value _ _); auto.
Qed.

(** X7: a value stored under a name not yet in use is found again under that
    name: its bytes, cut to [BLKID_PROBVAL_BUFSIZ], and their number. *)
Theorem set_value_then_lookup (pr : blkid_struct_probe) (name : string)
    (data : list Z) :
  vals_ok pr -> pr_nvals pr < BLKID_PROBVAL_NVALS ->
  (forall (j : nat) (w : blkid_prval),
     (j < Z.to_nat (pr_nvals pr))%nat -> pr_vals pr !! j = Some w ->
     v_name w <> Some name) ->
  exists pr' d,
    blkid_probe_set_value pr (Some name) data = Ok (0, pr')
    /\ blkid_probe_numof_values (Some pr') = pr_nvals pr + 1
    /\ blkid_probe_lookup_value (Some pr') (Some name)
       = Some (d, Z.of_nat (length (take (Z.to_nat BLKID_PROBVAL_BUFSIZ)
                                         data)))
    /\ take (length (take (Z.to_nat BLKID_PROBVAL_BUFSIZ) data)) d
       = take (Z.to_nat BLKID_PROBVAL_BUFSIZ) data
    /\ blkid_probe_has_value (Some pr') (Some name) = 1.
Proof.
  intros Hok Hfree Hnew.
  destruct (set_value_exact pr name data Hok Hfree) as (x & Hx & Hdata & Hset).
  assert (Hn0 : 0 <= pr_nvals pr) by (destruct Hok as ([? ?] & _); done).
  assert (Hlt : (Z.to_nat (pr_nvals pr) < length (pr_vals pr))%nat)
    by (by apply lookup_lt_Some in Hx).
  eexists. eexists. split; [exact Hset|]. split; [done|].
  match goal with
  | |- context [blkid_probe_lookup_value (Some ?p)] => set (pr' := p)
  end.
  match type of Hset with
  | context [<[_ := ?y]> _] => set (v := y) in *
  end.
  assert (Hlook : blkid_probe_lookup_value (Some pr') (Some name)
                  = Some (v_data v, v_len v)).
  { apply (lookup_value_finds_first pr' name (Z.to_nat (pr_nvals pr)) v).
    - subst pr'. simpl. lia.
    - subst pr'. simpl. by rewrite list_lookup_insert_eq.
    - done.
    - intros j w Hj Hw. subst pr'. simpl in Hw.
      rewrite list_lookup_insert_ne in Hw by lia. by apply (Hnew j w). }
  split; [exact Hlook|]. split.
  - subst v. simpl. apply memcpy_take.
  - unfold blkid_probe_has_value. by rewrite Hlook.
Qed.


(** ** What the emitters keep *)

Lemma appended_refl (pr : blkid_struct_probe) (n : Z) :
  vals_ok pr -> 0 <= n -> appended n pr pr.
Proof.
  intros Hok Hn. split; [done|]. split; [lia|]. split; [done|].
  by destruct pr.
Qed.

Lemma appended_weaken (pr pr' : blkid_struct_probe) (n m : Z) :
  appended n pr pr' -> n <= m -> appended m pr pr'.
Proof.
  intros (Hok & Hn & Hi & Heq) Hnm. split; [done|]. split; [lia|]. done.
Qed.

Lemma appended_trans (pr pr1 pr2 : blkid_struct_probe) (a b : Z) :
  appended a pr pr1 -> appended b pr1 pr2 -> appended (a + b) pr pr2.
Proof.
  intros (Hok1 & Hn1 & Hi1 & Heq1) (Hok2 & Hn2 & Hi2 & Heq2).
  split; [done|]. split; [lia|]. split.
  - intros i Hi. rewrite Hi2 by lia. by apply Hi1.
  - rewrite <- Heq1 at 3. rewrite <- Heq2. reflexivity.
Qed.

Lemma assign_value_exact (pr : blkid_struct_probe) (name : string) :
  pr_nvals pr < BLKID_PROBVAL_NVALS ->
  blkid_probe_assign_value pr (Some name)
  = (Some (pr_nvals pr),
     set_nvals (pr_nvals pr + 1)
       (set_vals
          (alter (fun x => mk_prval (Some name) (v_data x) (v_len x))
                 (Z.to_nat (pr_nvals pr)) (pr_vals pr)) pr)).
Proof.
  intros Hfree. unfold blkid_probe_assign_value.
  by destruct (Z.geb_spec (pr_nvals pr) BLKID_PROBVAL_NVALS); [lia|].
Qed.

(** Writing through the slot just taken appends one tag; giving the slot
    back afterwards appends none. *)
Lemma write_slot_appended (pr pr1 : blkid_struct_probe) (name : string)
    (v : option Z) (y : blkid_prval) :
  vals_ok pr -> pr_nvals pr < BLKID_PROBVAL_NVALS ->
  blkid_probe_assign_value pr (Some name) = (v, pr1) ->
  length (v_data y) = Z.to_nat BLKID_PROBVAL_BUFSIZ ->
  appended 1 pr (assign pr1 v y)
  /\ appended 0 pr (set_nvals (pr_nvals (assign pr1 v y) - 1)
                      (assign pr1 v y))
  /\ pr_nvals (assign pr1 v y) = pr_nvals pr + 1.
Proof.
  intros Hok Hfree Ha Hy. rewrite assign_value_exact in Ha by done.
  injection Ha as <- <-.
  destruct Hok as (Hn & Hlen & Hdata).
  assert (Hforall :
            Forall (fun v => length (v_data v)
                             = Z.to_nat BLKID_PROBVAL_BUFSIZ)
              (<[Z.to_nat (pr_nvals pr) := y]> (pr_vals pr))).
  { apply Forall_insert; done. }
  unfold assign. simpl. rewrite insert_alter_same.
  repeat split; simpl; rewrite ?length_insert; try done; try lia.
  - intros i Hi. by rewrite list_lookup_insert_ne by lia.
  - by destruct pr.
  - intros i Hi. by rewrite list_lookup_insert_ne by lia.
  - by destruct pr.
Qed.

Lemma deref_after_assign_value (pr pr1 : blkid_struct_probe) (name : string)
    (v : option Z) (x : blkid_prval) :
  vals_ok pr -> pr_nvals pr < BLKID_PROBVAL_NVALS ->
  blkid_probe_assign_value pr (Some name) = (v, pr1) ->
  deref pr1 v = Ok x ->
  length (v_data x) = Z.to_nat BLKID_PROBVAL_BUFSIZ
  /\ v_name x = Some name.
Proof.
  intros Hok Hfree Ha Hd.
  destruct (assign_value_free pr name Hok Hfree)
    as (x0 & p & _ & Hdata & Ha' & Hd' & _).
  rewrite Ha in Ha'. injection Ha' as -> ->. rewrite Hd in Hd'.
  by injection Hd' as ->.
Qed.

Lemma set_value_appended (pr pr' : blkid_struct_probe)
    (name : option string) (data : list Z) (rc : Z) :
  vals_ok pr ->
  blkid_probe_set_value pr name data = Ok (rc, pr') ->
  (rc = 0 /\ pr_nvals pr' = pr_nvals pr + 1 \/ rc = -1 /\ pr' = pr)
  /\ appended 1 pr pr'.
Proof.
  intros Hok. unfold blkid_probe_set_value.
  destruct name as [name|].
  2: { unfold blkid_probe_assign_value. intros [= <- <-].
       split; [by right|]. by apply appended_refl. }
  destruct (Z.lt_ge_cases (pr_nvals pr) BLKID_PROBVAL_NVALS) as [Hfree|Hfull].
  2: { rewrite assign_value_full by done. intros [= <- <-].
       split; [by right|]. by apply appended_refl. }
  destruct (blkid_probe_assign_value pr (Some name)) as [v pr1] eqn:Ha.
  assert (Hv : v = Some (pr_nvals pr)).
  { rewrite assign_value_exact in Ha by done. by injection Ha as <- _. }
  rewrite Hv at 1.
  destruct (deref pr1 v) as [x|] eqn:Hd; simpl; [|done].
  destruct (deref_after_assign_value pr pr1 name v x Hok Hfree Ha Hd)
    as (Hx & _).
  intros [= <- <-].
  edestruct (write_slot_appended pr pr1 name v) as (H1 & _ & Hn);
    [done|done|exact Ha| |].
  2: { split; [left; split; [done|exact Hn]|exact H1]. }
  simpl. rewrite memcpy_length, length_take. lia.
Qed.


Lemma assign_assign (pr : blkid_struct_probe) (v : option Z)
    (y y' : blkid_prval) :
  assign (assign pr v y) v y' = assign pr v y'.
Proof.
  destruct v as [i|]; [|done]. unfold assign. simpl.
  by rewrite list_insert_insert_eq.
Qed.

Lemma vsnprintf_into_length (dst : list Z) (size : Z) (fmt : string)
    (ap : list va_arg) :
  size <= Z.of_nat (length dst) ->
  length (vsnprintf_into dst size fmt ap).2 = length dst.
Proof.
  intros Hsize. unfold vsnprintf_into.
  destruct (vsnprintf fmt ap) as [text|]; simpl.
  - by apply snprintf_into_length.
  - destruct (vsnprintf_failed fmt ap) as [p stored]. simpl.
    rewrite memcpy_length, length_take. lia.
Qed.

Lemma vsprintf_value_appended (pr pr' : blkid_struct_probe)
    (name : option string) (fmt : string) (ap : list va_arg) (rc : Z) :
  vals_ok pr ->
  blkid_probe_vsprintf_value pr name fmt ap = Ok (rc, pr') ->
  (rc = 0 /\ pr_nvals pr' = pr_nvals pr + 1
   \/ rc = -1 /\ pr_nvals pr' = pr_nvals pr)
  /\ appended 1 pr pr'.
Proof.
  intros Hok. unfold blkid_probe_vsprintf_value.
  destruct name as [name|].
  2: { unfold blkid_probe_assign_value. intros [= <- <-].
       split; [by right|]. by apply appended_refl. }
  destruct (Z.lt_ge_cases (pr_nvals pr) BLKID_PROBVAL_NVALS) as [Hfree|Hfull].
  2: { rewrite assign_value_full by done. intros [= <- <-].
       split; [by right|]. by apply appended_refl. }
  destruct (blkid_probe_assign_value pr (Some name)) as [v pr1] eqn:Ha.
  assert (Hv : v = Some (pr_nvals pr)).
  { rewrite assign_value_exact in Ha by done. by injection Ha as <- _. }
  rewrite Hv at 1.
  destruct (deref pr1 v) as [x|] eqn:Hd; simpl; [|done].
  destruct (deref_after_assign_value pr pr1 name v x Hok Hfree Ha Hd)
    as (Hx & _).
  assert (Hrd : length (vsnprintf_into (v_data x) BLKID_PROBVAL_BUFSIZ
                          fmt ap).2 = Z.to_nat BLKID_PROBVAL_BUFSIZ)
    by (rewrite vsnprintf_into_length; [done|lia]).
  destruct (vsnprintf_into (v_data x) BLKID_PROBVAL_BUFSIZ fmt ap)
    as [ret d]. simpl in Hrd.
  destruct (size_t ret <=? 0).
  - intros [= <- <-].
    edestruct (write_slot_appended pr pr1 name v) as (_ & H0 & Hn);
      [done|done|exact Ha| |].
    2: { split; [right; split; [done|]|].
         2: { apply (appended_weaken _ _ 0); [exact H0|lia]. }
         simpl. rewrite Hn. lia. }
    done.
  - intros [= <- <-]. rewrite assign_assign.
    edestruct (write_slot_appended pr pr1 name v) as (H1 & _ & Hn);
      [done|done|exact Ha| |].
    2: { split; [left; split; [done|exact Hn]|exact H1]. }
    done.
Qed.

(** X8: The emitters of one tag keep the store as the struct declares it:
    [blkid_probe_set_value], [blkid_probe_vsprintf_value],
    [blkid_probe_set_version], [blkid_probe_sprintf_version] and
    [blkid_probe_set_usage] return 0 or -1, add at most one tag, leave
    [nvals] within the array, change no tag that was in use and touch
    nothing outside the store. *)
Theorem single_tag_emitters_keep_store (pr pr' : blkid_struct_probe)
    (rc : Z) :
  vals_ok pr ->
  (forall name data,
     blkid_probe_set_value pr name data = Ok (rc, pr') ->
     (rc = 0 \/ rc = -1) /\ appended 1 pr pr')
  /\ (forall name fmt ap,
        blkid_probe_vsprintf_value pr name fmt ap = Ok (rc, pr') ->
        (rc = 0 \/ rc = -1) /\ appended 1 pr pr')
  /\ (forall version,
        blkid_probe_set_version pr version = Ok (rc, pr') ->
        (rc = 0 \/ rc = -1) /\ appended 1 pr pr')
  /\ (forall fmt ap,
        blkid_probe_sprintf_version pr fmt ap = Ok (rc, pr') ->
        (rc = 0 \/ rc = -1) /\ appended 1 pr pr')
  /\ (forall usage,
        blkid_probe_set_usage pr usage = Ok (rc, pr') ->
        (rc = 0 \/ rc = -1) /\ appended 1 pr pr').
Proof.
  intros Hok.
  assert (Hsv : forall name data,
             blkid_probe_set_value pr name data = Ok (rc, pr') ->
             (rc = 0 \/ rc = -1) /\ appended 1 pr pr').
  { intros name data H.
    destruct (set_value_appended _ _ _ _ _ Hok H) as ([[? _]|[? _]] & ?);
      auto. }
  assert (Hvs : forall name fmt ap,
             blkid_probe_vsprintf_value pr name fmt ap = Ok (rc, pr') ->
             (rc = 0 \/ rc = -1) /\ appended 1 pr pr').
  { intros name fmt ap H.
    destruct (vsprintf_value_appended _ _ _ _ _ _ Hok H)
      as ([[? _]|[? _]] & ?); auto. }
  split; [exact Hsv|]. split; [exact Hvs|].
  split; [|split].
  - intros version. unfold blkid_probe_set_version.
    destruct (bit_set _ _); [apply Hsv|].
    intros [= <- <-]. split; [by left|]. by apply appended_refl.
  - intros fmt ap. unfold blkid_probe_sprintf_version.
    destruct (bit_set _ _); [apply Hvs|].
    intros [= <- <-]. split; [by left|]. by apply appended_refl.
  - intros usage. unfold blkid_probe_set_usage. apply Hsv.
Qed.


Lemma store_byte_length (i b : Z) (a d : list Z) :
  store_byte i b a = Ok d -> length d = length a.
Proof.
  unfold store_byte. case_match; [|done].
  intros [= <-]. by rewrite length_insert.
Qed.

Lemma list_pair_ind {A : Type} (P : list A -> Prop) :
  P [] -> (forall a, P [a]) ->
  (forall a b l, P l -> P (a :: b :: l)) ->
  forall l, P l.
Proof.
  intros H0 H1 H2 l.
  cut (P l /\ forall a, P (a :: l)); [by intros [? _]|].
  induction l as [|b l [IH1 IH2]]; [by split|].
  split; [apply IH2|]. intros a. by apply H2.
Qed.

(** The loop of [encode_to_utf8] stays inside [dest]: started at [j < len]
    it stores at most [len - j] bytes, the closing NUL included, and at
    least that NUL. *)
Lemma encode_loop_length (enc len : Z) (src : list Z) :
  forall j, 0 <= j < len ->
    1 <= Z.of_nat (length (encode_loop enc len src j)) <= len - j.
Proof.
  induction src as [|a|b0 b1 rest IH] using list_pair_ind; intros j Hj.
  - simpl. lia.
  - simpl. lia.
  - simpl. repeat case_match; simpl; try lia.
    all: first [ specialize (IH (j + 1)); lia
               | specialize (IH (j + 2)); lia
               | specialize (IH (j + 3)); lia ].
Qed.

(** The second half of the label emitters: a slot for LABEL, then the
    value written through it. *)
Lemma label_stage_appended (pr pr' : blkid_struct_probe) (rc : Z)
    (k : blkid_prval -> outcome blkid_prval) :
  vals_ok pr ->
  (forall x y, length (v_data x) = Z.to_nat BLKID_PROBVAL_BUFSIZ ->
               k x = Ok y -> length (v_data y) = length (v_data x)) ->
  match blkid_probe_assign_value pr (Some "LABEL"%string) with
  | (None, pr) => Ok (-1, pr)
  | (v, pr) => x ← deref pr v; y ← k x; Ok (0, assign pr v y)
  end = Ok (rc, pr') ->
  (rc = 0 \/ rc = -1) /\ appended 1 pr pr'.
Proof.
  intros Hok Hk.
  destruct (Z.lt_ge_cases (pr_nvals pr) BLKID_PROBVAL_NVALS) as [Hfree|Hfull].
  2: { rewrite assign_value_full by done. intros [= <- <-].
       split; [by right|]. by apply appended_refl. }
  destruct (blkid_probe_assign_value pr (Some "LABEL"%string))
    as [v pr1] eqn:Ha.
  assert (Hv : v = Some (pr_nvals pr)).
  { rewrite assign_value_exact in Ha by done. by injection Ha as <- _. }
  rewrite Hv at 1.
  destruct (deref pr1 v) as [x|] eqn:Hd; simpl; [|done].
  destruct (deref_after_assign_value pr pr1 _ v x Hok Hfree Ha Hd)
    as (Hx & _).
  destruct (k x) as [y|] eqn:Hy; simpl; [|done].
  intros [= <- <-]. split; [by left|].
  edestruct (write_slot_appended pr pr1 "LABEL" v y) as (H1 & _);
    [done|done|exact Ha| |exact H1].
  rewrite (Hk x y Hx Hy). done.
Qed.

Lemma raw_stage_appended (pr pr1 : blkid_struct_probe) (flag rc : Z)
    (name : string) (data : list Z) :
  vals_ok pr ->
  (if bit_set (pr_probreq pr) flag
   then blkid_probe_set_value pr (Some name) data
   else Ok (0, pr)) = Ok (rc, pr1) ->
  (rc = 0 \/ rc = -1) /\ appended 1 pr pr1
  /\ pr_probreq pr1 = pr_probreq pr.
Proof.
  intros Hok. destruct (bit_set _ _).
  - intros H.
    destruct (set_value_appended _ _ _ _ _ Hok H) as (Hrc & Happ).
    split; [destruct Hrc as [[? _]|[? _]]; auto|]. split; [done|].
    destruct Happ as (_ & _ & _ & Heq). by rewrite <- Heq.
  - intros [= <- <-]. split; [by left|]. split; [|done].
    by apply appended_refl.
Qed.

(** X9: The label emitters keep the store as the struct declares it:
    [blkid_probe_set_label] and [blkid_probe_set_utf8label], when they
    return, return 0 or -1, add at most two tags (LABEL_RAW, then LABEL),
    leave [nvals] within the array, change no tag that was in use and touch
    nothing outside the store. *)
Theorem label_emitters_keep_store (pr pr' : blkid_struct_probe) (rc : Z) :
  vals_ok pr -> 0 < BLKID_PROBVAL_BUFSIZ ->
  (forall label,
     blkid_probe_set_label pr label = Ok (rc, pr') ->
     (rc = 0 \/ rc = -1) /\ appended 2 pr pr')
  /\ (forall label enc,
        blkid_probe_set_utf8label pr label enc = Ok (rc, pr') ->
        (rc = 0 \/ rc = -1) /\ appended 2 pr pr').
Proof.
  intros Hok Hsize. split.
  - intros label. unfold blkid_probe_set_label.
    destruct (if bit_set (pr_probreq pr) BLKID_PROBREQ_LABELRAW
              then _ else _) as [[rc1 pr1]|] eqn:Hraw; simpl; [|done].
    destruct (raw_stage_appended _ _ _ _ _ _ Hok Hraw) as (Hrc1 & H1 & Hq).
    destruct (rc1 <? 0).
    { intros [= <- <-]. split; [by right|].
      by apply (appended_weaken _ _ 1). }
    destruct (negb (bit_set (pr_probreq pr1) BLKID_PROBREQ_LABEL)).
    { intros [= <- <-]. split; [by left|].
      by apply (appended_weaken _ _ 1). }
    intros H.
    destruct (label_stage_appended pr1 pr' rc
                (fun x =>
                   d ← store_byte
                         (Z.of_nat (length (take (Z.to_nat
                                      BLKID_PROBVAL_BUFSIZ) label))) 0
                         (memcpy (v_data x)
                            (take (Z.to_nat BLKID_PROBVAL_BUFSIZ) label));
                   d' ← store_byte
                          (strip_loop d
                             (Z.to_nat
                                (strnlen d
                                   (Z.to_nat
                                      (Z.of_nat
                                         (length
                                            (take (Z.to_nat
                                               BLKID_PROBVAL_BUFSIZ)
                                               label)))))) + 1) 0 d;
                   Ok (mk_prval (v_name x) d'
                         (strip_loop d
                            (Z.to_nat
                               (strnlen d
                                  (Z.to_nat
                                     (Z.of_nat
                                        (length
                                           (take (Z.to_nat
                                              BLKID_PROBVAL_BUFSIZ)
                                              label)))))) + 1 + 1))))
      as (Hrc & H2).
    + by destruct H1.
    + intros x y Hx. simpl.
      destruct (store_byte _ 0 (memcpy _ _)) as [d|] eqn:Hd; simpl; [|done].
      destruct (store_byte _ 0 d) as [d'|] eqn:Hd'; simpl; [|done].
      intros [= <-]. simpl.
      rewrite (store_byte_length _ _ _ _ Hd'), (store_byte_length _ _ _ _ Hd).
      rewrite memcpy_length, length_take. lia.
    + rewrite <- H. clear H.
      destruct (blkid_probe_assign_value _ _) as [[i|] p]; [|done].
      destruct (deref p (Some i)) as [x|]; simpl; [|done].
      destruct (store_byte _ _ _) as [d|]; simpl; [|done].
      by destruct (store_byte _ _ _).
    + split; [done|]. by apply (appended_trans _ pr1 _ 1 1).
  - intros label enc. unfold blkid_probe_set_utf8label.
    destruct (if bit_set (pr_probreq pr) BLKID_PROBREQ_LABELRAW
              then _ else _) as [[rc1 pr1]|] eqn:Hraw; simpl; [|done].
    destruct (raw_stage_appended _ _ _ _ _ _ Hok Hraw) as (Hrc1 & H1 & Hq).
    destruct (rc1 <? 0).
    { intros [= <- <-]. split; [by right|].
      by apply (appended_weaken _ _ 1). }
    destruct (negb (bit_set (pr_probreq pr1) BLKID_PROBREQ_LABEL)).
    { intros [= <- <-]. split; [by left|].
      by apply (appended_weaken _ _ 1). }
    intros H.
    destruct (label_stage_appended pr1 pr' rc
                (fun x =>
                   Ok (mk_prval (v_name x)
                         (encode_to_utf8 enc (v_data x)
                            BLKID_PROBVAL_BUFSIZ label).2
                         (encode_to_utf8 enc (v_data x)
                            BLKID_PROBVAL_BUFSIZ label).1)))
      as (Hrc & H2).
    + by destruct H1.
    + intros x y Hx [= <-]. simpl. rewrite memcpy_length.
      assert (Hb : 0 <= 0 < BLKID_PROBVAL_BUFSIZ) by lia.
      pose proof (encode_loop_length enc _ label 0 Hb). lia.
    + rewrite <- H. clear H.
      destruct (blkid_probe_assign_value _ _) as [[i|] p]; [|done].
      destruct (deref p (Some i)) as [x|]; simpl; [|done].
      reflexivity.
    + split; [done|]. by apply (appended_trans _ pr1 _ 1 1).
Qed.


(** A successful write through the pointer [blkid_probe_assign_value]
    returned appends one tag. *)
Lemma slot_write_appended (pr p : blkid_struct_probe) (name : string)
    (v : option Z) (x y : blkid_prval) :
  vals_ok pr ->
  blkid_probe_assign_value pr (Some name) = (v, p) ->
  deref p v = Ok x ->
  length (v_data x) = Z.to_nat BLKID_PROBVAL_BUFSIZ
  /\ (length (v_data y) = Z.to_nat BLKID_PROBVAL_BUFSIZ ->
      appended 1 pr (assign p v y)).
Proof.
  intros Hok Ha Hd.
  destruct (Z.lt_ge_cases (pr_nvals pr) BLKID_PROBVAL_NVALS) as [Hfree|Hfull].
  2: { rewrite assign_value_full in Ha by done. by injection Ha as <- <-. }
  destruct (deref_after_assign_value pr p name v x Hok Hfree Ha Hd)
    as (Hx & _).
  split; [done|]. intros Hy.
  by destruct (write_slot_appended pr p name v y Hok Hfree Ha Hy) as (H1 & _).
Qed.

Lemma lower_loop_length (x y : blkid_prval) :
  lower_loop x = Ok y -> length (v_data y) = length (v_data x).
Proof.
  unfold lower_loop. case_match; [|done]. intros [= <-]. simpl.
  rewrite length_app, length_map, length_take, length_drop. lia.
Qed.

(** The lowering loop of [blkid_probe_sprintf_uuid] writes to slot [nvals],
    which is not in use. *)
Lemma lower_stage_appended (pr : blkid_struct_probe) (x y : blkid_prval) :
  vals_ok pr ->
  deref pr (Some (pr_nvals pr)) = Ok x -> lower_loop x = Ok y ->
  appended 0 pr (assign pr (Some (pr_nvals pr)) y).
Proof.
  intros (Hn & Hlen & Hdata) Hd Hl.
  unfold deref in Hd. revert Hd. case_match; [|done].
  destruct (pr_vals pr !! Z.to_nat (pr_nvals pr)) as [x'|] eqn:Hx; [|done].
  intros [= ->].
  unfold assign. repeat split; simpl; rewrite ?length_insert; try lia.
  - apply Forall_insert; [done|].
    rewrite (lower_loop_length _ _ Hl).
    by apply (Forall_lookup_1 _ _ _ _ Hdata Hx).
  - intros i Hi. by rewrite list_lookup_insert_ne by lia.
  - by destruct pr.
Qed.

Lemma strncpy_length (dst src : list Z) (n : Z) :
  length dst = Z.to_nat n -> length (strncpy dst src n) = Z.to_nat n.
Proof.
  intros Hd. unfold strncpy.
  rewrite memcpy_length, length_take, length_app, length_replicate. lia.
Qed.

(** X10: The UUID emitters keep the store as the struct declares it:
    [blkid_probe_sprintf_uuid], [blkid_probe_set_uuid_as] and
    [blkid_probe_set_uuid], when they return, return 0 or -1, add at most
    two tags (UUID_RAW, then the text), leave [nvals] within the array,
    change no tag that was in use and touch nothing outside the store. *)
Theorem uuid_emitters_keep_store (pr pr' : blkid_struct_probe) (rc : Z) :
  vals_ok pr ->
  (forall uuid fmt ap,
     blkid_probe_sprintf_uuid pr uuid fmt ap = Ok (rc, pr') ->
     (rc = 0 \/ rc = -1) /\ appended 2 pr pr')
  /\ (forall uuid name,
        blkid_probe_set_uuid_as pr uuid name = Ok (rc, pr') ->
        (rc = 0 \/ rc = -1) /\ appended 2 pr pr')
  /\ (forall uuid,
        blkid_probe_set_uuid pr uuid = Ok (rc, pr') ->
        (rc = 0 \/ rc = -1) /\ appended 2 pr pr').
Proof.
  intros Hok.
  assert (Has : forall uuid name,
             blkid_probe_set_uuid_as pr uuid name = Ok (rc, pr') ->
             (rc = 0 \/ rc = -1) /\ appended 2 pr pr').
  { intros uuid name. unfold blkid_probe_set_uuid_as.
    destruct (uuid_is_empty (take 16 uuid)).
    { intros [= <- <-]. split; [by left|]. by apply appended_refl. }
    destruct name as [name|].
    - simpl.
      destruct (blkid_probe_assign_value pr (Some name)) as [v p] eqn:Ha.
      destruct (deref p v) as [x|] eqn:Hd; simpl; [|done].
      intros [= <- <-]. split; [by left|].
      destruct (slot_write_appended pr p name v x
                  (mk_prval (v_name x)
                     (snprintf_into (v_data x) BLKID_PROBVAL_BUFSIZ
                        (uuid_text uuid))
                     (Z.of_nat (length (uuid_text uuid)) + 1))
                  Hok Ha Hd) as (Hx & Happ).
      apply (appended_weaken _ _ 1); [|lia]. apply Happ. simpl.
      rewrite snprintf_into_length; [done|lia].
    - destruct (if bit_set (pr_probreq pr) BLKID_PROBREQ_UUIDRAW
                then _ else _) as [[rc1 pr1]|] eqn:Hraw; simpl; [|done].
      destruct (raw_stage_appended _ _ _ _ _ _ Hok Hraw) as (Hrc1 & H1 & Hq).
      destruct (rc1 <? 0); simpl.
      { intros [= <- <-]. split; [by right|].
        by apply (appended_weaken _ _ 1). }
      destruct (negb (bit_set (pr_probreq pr1) BLKID_PROBREQ_UUID)); simpl.
      { intros [= <- <-]. split; [by left|].
        by apply (appended_weaken _ _ 1). }
      destruct (blkid_probe_assign_value pr1 (Some "UUID"%string))
        as [v p] eqn:Ha.
      destruct (deref p v) as [x|] eqn:Hd; simpl; [|done].
      intros [= <- <-]. split; [by left|].
      destruct (slot_write_appended pr1 p "UUID" v x
                  (mk_prval (v_name x)
                     (snprintf_into (v_data x) BLKID_PROBVAL_BUFSIZ
                        (uuid_text uuid))
                     (Z.of_nat (length (uuid_text uuid)) + 1))
                  ltac:(by destruct H1) Ha Hd) as (Hx & Happ).
      apply (appended_trans _ pr1 _ 1 1); [done|]. apply Happ. simpl.
      rewrite snprintf_into_length; [done|lia]. }
  split; [|split; [exact Has|intros uuid; apply Has]].
  intros uuid fmt ap. unfold blkid_probe_sprintf_uuid.
  destruct (uuid_is_empty _).
  { intros [= <- <-]. split; [by left|]. by apply appended_refl. }
  destruct (if bit_set (pr_probreq pr) BLKID_PROBREQ_UUIDRAW
            then _ else _) as [[rc1 pr1]|] eqn:Hraw; simpl; [|done].
  destruct (raw_stage_appended _ _ _ _ _ _ Hok Hraw) as (Hrc1 & H1 & Hq).
  assert (Hok1 : vals_ok pr1) by (by destruct H1).
  destruct (rc1 <? 0); simpl.
  { intros [= <- <-]. split; [by right|]. by apply (appended_weaken _ _ 1). }
  destruct (negb (bit_set (pr_probreq pr1) BLKID_PROBREQ_UUID)); simpl.
  { intros [= <- <-]. split; [by left|]. by apply (appended_weaken _ _ 1). }
  match goal with
  | |- (?m ≫= _) = _ -> _ => destruct m as [[rc2 p2]|] eqn:Hstage
  end; simpl; [|done].
  assert (H2 : (rc2 = 0 \/ rc2 = -1) /\ appended 1 pr1 p2).
  { revert Hstage. destruct (String.eqb fmt "%s").
    - destruct ap as [|[str|n] ap]; try done.
      destruct (match str with
                | Some (c :: _) =>
                    if c =? 0 then (None, pr1)
                    else blkid_probe_assign_value pr1 (Some "UUID"%string)
                | _ => (None, pr1)
                end) as [v p] eqn:Hv.
      destruct v as [i|].
      2: { assert (p = pr1) as ->.
           { revert Hv. destruct str as [[|c l]|]; try (by intros [= <-]).
             destruct (c =? 0); try (by intros [= <-]).
             destruct (Z.lt_ge_cases (pr_nvals pr1) BLKID_PROBVAL_NVALS).
             - rewrite assign_value_exact by done. done.
             - rewrite assign_value_full by done. by intros [= <-]. }
           intros [= <- <-]. split; [by right|]. by apply appended_refl. }
      assert (Ha : blkid_probe_assign_value pr1 (Some "UUID"%string)
                   = (Some i, p)).
      { revert Hv. destruct str as [[|c l]|]; try done.
        by destruct (c =? 0). }
      destruct (deref p (Some i)) as [x|] eqn:Hd; simpl; [|done].
      destruct (store_byte _ 0 _) as [d|] eqn:Hsb; simpl; [|done].
      intros [= <- <-]. split; [by left|].
      destruct (slot_write_appended pr1 p "UUID" (Some i) x
                  (mk_prval (v_name x) d (strlen d)) Hok1 Ha Hd)
        as (Hx & Happ).
      apply Happ. simpl. rewrite (store_byte_length _ _ _ _ Hsb).
      by apply strncpy_length.
    - intros H. by destruct (vsprintf_value_appended _ _ _ _ _ _ Hok1 H)
        as ([[? _]|[? _]] & ?); auto. }
  destruct H2 as (Hrc2 & H2).
  assert (H12 : appended 2 pr p2) by (by apply (appended_trans _ pr1 _ 1 1)).
  destruct (rc2 =? 0).
  - destruct (deref p2 (Some (pr_nvals p2))) as [x|] eqn:Hd; simpl; [|done].
    destruct (lower_loop x) as [y|] eqn:Hl; simpl; [|done].
    intros [= <- <-]. split; [done|].
    replace 2 with (2 + 0) by lia.
    apply (appended_trans _ p2); [done|].
    apply (lower_stage_appended p2 x y); [by destruct H2|done|done].
  - by intros [= <- <-].
Qed.

(** ** What [vsnprintf] returns *)

Lemma vsprintf_value_exact (pr : blkid_struct_probe) (name : string)
    (fmt : string) (ap : list va_arg) :
  vals_ok pr -> pr_nvals pr < BLKID_PROBVAL_NVALS ->
  exists x,
    pr_vals pr !! Z.to_nat (pr_nvals pr) = Some x
    /\ length (v_data x) = Z.to_nat BLKID_PROBVAL_BUFSIZ
    /\ blkid_probe_vsprintf_value pr (Some name) fmt ap
       = let '(ret, d) :=
           vsnprintf_into (v_data x) BLKID_PROBVAL_BUFSIZ fmt ap in
         let slot l :=
           set_vals (<[Z.to_nat (pr_nvals pr) := mk_prval (Some name) d l]>
                       (pr_vals pr)) pr in
         if size_t ret <=? 0
         then Ok (-1, set_nvals (pr_nvals pr) (slot (v_len x)))
         else Ok (0, set_nvals (pr_nvals pr + 1)
                       (slot (size_t (size_t ret + 1)))).
Proof.
  intros Hok Hfree.
  assert (Hn0 : 0 <= pr_nvals pr) by (destruct Hok as ([? ?] & _); done).
  destruct (vals_ok_slot pr (pr_nvals pr) Hok ltac:(lia)) as (x & Hx & Hlen).
  exists x. split; [done|]. split; [done|].
  unfold blkid_probe_vsprintf_value.
  rewrite assign_value_exact by done.
  unfold deref. simpl.
  destruct (Z.leb_spec 0 (pr_nvals pr)); [|lia].
  rewrite list_lookup_alter, Hx. simpl.
  destruct (decide (Z.to_nat (pr_nvals pr) = Z.to_nat (pr_nvals pr)));
    [|done].
  simpl.
  destruct (vsnprintf_into (v_data x) BLKID_PROBVAL_BUFSIZ fmt ap)
    as [ret d].
  destruct (size_t ret <=? 0); unfold assign, set_vals, set_nvals; simpl.
  all: rewrite ?list_insert_insert_eq, ?insert_alter_same.
  all: try (f_equal; f_equal; f_equal; lia).
  all: try done.
Qed.

(** X11: [blkid_probe_vsprintf_value] keeps what [vsnprintf] returns in a
    [size_t].  A negative return is therefore not seen by [len <= 0]: the
    call returns 0 and leaves a tag over whatever the failed [vsnprintf]
    left in the value, with the length that return value plus one is as a
    [size_t], which is 0 for -1.  An empty text gives -1 and the count as it
    was.  Any other text gives 0, and the length recorded is that of the
    complete text and its NUL, also when the text did not fit and was cut
    to [BLKID_PROBVAL_BUFSIZ - 1] bytes. *)
Theorem vsprintf_value_unsigned_length (pr : blkid_struct_probe)
    (name fmt : string) (ap : list va_arg) :
  vals_ok pr -> pr_nvals pr < BLKID_PROBVAL_NVALS ->
  0 < BLKID_PROBVAL_BUFSIZ ->
  exists x,
    pr_vals pr !! Z.to_nat (pr_nvals pr) = Some x
    /\ (forall p stored,
          vsnprintf fmt ap = None -> vsnprintf_failed fmt ap = (p, stored) ->
          Z.pos p <= 2 ^ 31 ->
          exists pr',
            blkid_probe_vsprintf_value pr (Some name) fmt ap = Ok (0, pr')
            /\ blkid_probe_numof_values (Some pr') = pr_nvals pr + 1
            /\ blkid_probe_get_value (Some pr') (pr_nvals pr)
               = Some (Some name,
                       memcpy (v_data x)
                         (take (Z.to_nat BLKID_PROBVAL_BUFSIZ) stored),
                       size_t (Z.neg p + 1))
            /\ (p = 1%positive -> size_t (Z.neg p + 1) = 0))
    /\ (vsnprintf fmt ap = Some [] ->
        exists pr',
          blkid_probe_vsprintf_value pr (Some name) fmt ap = Ok (-1, pr')
          /\ blkid_probe_numof_values (Some pr') = pr_nvals pr)
    /\ (forall text,
          vsnprintf fmt ap = Some text -> text <> [] ->
          Z.of_nat (length text) + 1 < 2 ^ 64 ->
          exists pr' d,
            blkid_probe_vsprintf_value pr (Some name) fmt ap = Ok (0, pr')
            /\ blkid_probe_numof_values (Some pr') = pr_nvals pr + 1
            /\ blkid_probe_get_value (Some pr') (pr_nvals pr)
               = Some (Some name, d, Z.of_nat (length text) + 1)
            /\ length d = Z.to_nat BLKID_PROBVAL_BUFSIZ
            /\ take (S (length (take (Z.to_nat (BLKID_PROBVAL_BUFSIZ - 1))
                                     text))) d
               = take (Z.to_nat (BLKID_PROBVAL_BUFSIZ - 1)) text ++ [0]).
Proof.
  intros Hok Hfree Hsize.
  assert (Hn0 : 0 <= pr_nvals pr) by (destruct Hok as ([? ?] & _); done).
  assert (Hvl : (Z.to_nat (pr_nvals pr) < length (pr_vals pr))%nat).
  { destruct Hok as (_ & -> & _). lia. }
  destruct (vsprintf_value_exact pr name fmt ap Hok Hfree)
    as (x & Hx & Hlen & Hcall).
  exists x. split; [done|].
  assert (Hget : forall y,
             blkid_probe_get_value
               (Some (set_nvals (pr_nvals pr + 1)
                        (set_vals (<[Z.to_nat (pr_nvals pr) := y]>
                                     (pr_vals pr)) pr))) (pr_nvals pr)
             = Some (v_name y, v_data y, v_len y)).
  { intros y. unfold blkid_probe_get_value. simpl.
    destruct (Z.ltb_spec (pr_nvals pr) 0); [lia|].
    destruct (Z.geb_spec (pr_nvals pr) (pr_nvals pr + 1)); [lia|]. simpl.
    by rewrite list_lookup_insert_eq. }
  unfold vsnprintf_into in Hcall.
  split; [|split].
  - intros p stored Hv Hfail Hint. rewrite Hv, Hfail in Hcall.
    assert (Hs : size_t (Z.neg p) = 2 ^ 64 - Z.pos p).
    { unfold size_t. symmetry.
      apply (Z.mod_unique_pos _ _ (-1)); lia. }
    assert (Hs1 : size_t (size_t (Z.neg p) + 1) = size_t (Z.neg p + 1)).
    { unfold size_t. by rewrite Zplus_mod_idemp_l. }
    rewrite Hs1, Hs in Hcall.
    destruct (Z.leb_spec (2 ^ 64 - Z.pos p) 0); [lia|].
    eexists. split; [exact Hcall|]. split; [done|].
    split; [by rewrite Hget|]. by intros ->.
  - intros Hv. rewrite Hv in Hcall. simpl in Hcall.
    eexists. split; [exact Hcall|]. done.
  - intros text Hv Hne Hbig. rewrite Hv in Hcall.
    assert (Hlt : 0 < Z.of_nat (length text))
      by (destruct text; [done|simpl; lia]).
    assert (Hs : size_t (Z.of_nat (length text)) = Z.of_nat (length text)).
    { unfold size_t. apply Z.mod_small. lia. }
    rewrite Hs in Hcall.
    assert (Hs1 : size_t (Z.of_nat (length text) + 1)
                  = Z.of_nat (length text) + 1).
    { unfold size_t. apply Z.mod_small. lia. }
    rewrite Hs1 in Hcall.
    destruct (Z.leb_spec (Z.of_nat (length text)) 0); [lia|].
    eexists _, _. split; [exact Hcall|]. split; [done|].
    split; [by rewrite Hget|].
    simpl. split; [rewrite snprintf_into_length; [done|lia]|].
    unfold snprintf_into.
    destruct (Z.leb_spec BLKID_PROBVAL_BUFSIZ 0); [lia|].
    replace (S (length (take (Z.to_nat (BLKID_PROBVAL_BUFSIZ - 1)) text)))
      with (length (take (Z.to_nat (BLKID_PROBVAL_BUFSIZ - 1)) text ++ [0])).
    + apply memcpy_take.
    + rewrite length_app. simpl. lia.
Qed.

(** ** The bytes [encode_to_utf8] stores *)

(** A byte with bit 7 set stays one when it is cut to eight bits. *)
Lemma high_bit_byte (a : Z) :
  Z.testbit a 7 = true -> 128 <= a mod 2 ^ 8 <= 255.
Proof.
  intros Hbit.
  assert (Hr : 0 <= a mod 2 ^ 8 < 2 ^ 8) by (apply Z.mod_pos_bound; lia).
  split; [|lia].
  destruct (Z.lt_ge_cases (a mod 2 ^ 8) 128) as [Hlt|]; [|done].
  assert (Hb : Z.testbit (a mod 2 ^ 8) 7 = true)
    by (rewrite Z.mod_pow2_bits_low by lia; done).
  destruct (Z.eq_dec (a mod 2 ^ 8) 0) as [H0|H0].
  { rewrite H0 in Hb. by rewrite Z.bits_0 in Hb. }
  rewrite Z.bits_above_log2 in Hb; [done|lia|].
  apply Z.log2_lt_pow2; lia.
Qed.

Lemma lor_high_bit (a y : Z) :
  Z.testbit a 7 = true -> 128 <= Z.lor a y mod 2 ^ 8 <= 255.
Proof.
  intros Ha. apply high_bit_byte. by rewrite Z.lor_spec, Ha.
Qed.

(** What the loop stores is a C string: bytes that are not NUL, then the
    NUL. *)
Lemma encode_loop_c_string (enc len : Z) (src : list Z) :
  forall j,
    exists bs,
      encode_loop enc len src j = bs ++ [0]
      /\ Forall (fun b => 1 <= b <= 255) bs.
Proof.
  induction src as [|a|b0 b1 rest IH] using list_pair_ind; intros j.
  - by exists [].
  - by exists [].
  - simpl.
    set (c := if enc =? BLKID_ENC_UTF16LE
              then Z.lor (Z.shiftl b1 8) b0 mod 2 ^ 16
              else Z.lor (Z.shiftl b0 8) b1 mod 2 ^ 16).
    assert (Hc : 0 <= c < 2 ^ 16)
      by (subst c; destruct (enc =? _); apply Z.mod_pos_bound; lia).
    clearbody c.
    destruct (Z.eqb_spec c 0); [by exists []|].
    destruct (Z.ltb_spec c 128).
    { destruct (j + 1 >=? len); [by exists []|].
      destruct (IH (j + 1)) as (bs & -> & Hbs).
      exists (c mod 2 ^ 8 :: bs). split; [done|].
      constructor; [|done]. rewrite Z.mod_small; lia. }
    destruct (Z.ltb_spec c 2048).
    { destruct (j + 2 >=? len); [by exists []|].
      destruct (IH (j + 2)) as (bs & -> & Hbs).
      eexists (_ :: _ :: bs). split; [done|].
      repeat constructor; try done.
      all: pose proof (lor_high_bit 192 (Z.shiftr c 6) eq_refl);
        pose proof (lor_high_bit 128 (Z.land c 63) eq_refl); lia. }
    destruct (j + 3 >=? len); [by exists []|].
    destruct (IH (j + 3)) as (bs & -> & Hbs).
    eexists (_ :: _ :: _ :: bs). split; [done|].
    repeat constructor; try done.
    all: pose proof (lor_high_bit 224 (Z.shiftr c 12) eq_refl);
      pose proof (lor_high_bit 128 (Z.land (Z.shiftr c 6) 63) eq_refl);
      pose proof (lor_high_bit 128 (Z.land c 63) eq_refl); lia.
Qed.

(** Each code unit of the source gives at most three bytes. *)
Lemma encode_loop_growth (enc len : Z) (src : list Z) :
  forall j,
    Z.of_nat (length (encode_loop enc len src j))
    <= 3 * (Z.of_nat (length src) / 2) + 1.
Proof.
  induction src as [|a|b0 b1 rest IH] using list_pair_ind; intros j.
  - vm_compute. discriminate.
  - vm_compute. discriminate.
  - cbn [encode_loop].
    assert (Hl : Z.of_nat (length (b0 :: b1 :: rest)) / 2
                 = Z.of_nat (length rest) / 2 + 1).
    { cbn [length]. replace (Z.of_nat (S (S (length rest))))
        with (Z.of_nat (length rest) + 1 * 2) by lia.
      by rewrite Z.div_add. }
    rewrite Hl.
    assert (H0 : 0 <= Z.of_nat (length rest) / 2)
      by (apply Z.div_pos; lia).
    repeat case_match; cbn [length]; try lia.
    all: first [ specialize (IH (j + 1)); lia
               | specialize (IH (j + 2)); lia
               | specialize (IH (j + 3)); lia ].
Qed.

(** X12: [encode_to_utf8] into a destination of [len > 0] bytes returns a
    length below [len] and leaves a C string of that length at the start of
    the destination: bytes from 1 to 255, then a NUL at the index returned;
    the bytes behind the NUL and the size of the destination are as they
    were. *)
Theorem encode_to_utf8_c_string (enc len : Z) (dest src : list Z) :
  0 < len <= Z.of_nat (length dest) ->
  exists (n : Z) (d : list Z),
    encode_to_utf8 enc dest len src = (n, d)
    /\ 0 <= n < len
    /\ n <= 3 * (Z.of_nat (length src) / 2)
    /\ length d = length dest
    /\ Forall (fun b => 1 <= b <= 255) (take (Z.to_nat n) d)
    /\ d !! Z.to_nat n = Some 0
    /\ strlen d = n
    /\ drop (S (Z.to_nat n)) d = drop (S (Z.to_nat n)) dest.
Proof.
  intros Hlen. unfold encode_to_utf8.
  pose proof (encode_loop_length enc len src 0 ltac:(lia)) as Hout.
  pose proof (encode_loop_growth enc len src 0) as Hgrow.
  destruct (encode_loop_c_string enc len src 0) as (bs & Hbs & Hnz).
  rewrite Hbs in *. rewrite length_app in Hout, Hgrow. simpl in Hout, Hgrow.
  eexists _, _. split; [done|].
  rewrite length_app. simpl.
  replace (Z.to_nat (Z.of_nat (length bs + 1) - 1)) with (length bs) by lia.
  split; [lia|]. split; [lia|].
  split; [rewrite memcpy_length, length_app; simpl; lia|].
  unfold memcpy. rewrite <- (assoc_L (++)).
  split; [by rewrite take_app_length|].
  cbn [app].
  split; [by apply list_lookup_middle|].
  split.
  - unfold strlen. rewrite strnlen_no_nul; [lia| |].
    + eapply Forall_impl; [exact Hnz|]. simpl. lia.
    + rewrite length_app. simpl. lia.
  - rewrite (cons_middle 0 bs), (assoc_L (++)).
    replace (S (length bs)) with (length (bs ++ [0]))
      by (rewrite length_app; simpl; lia).
    by rewrite drop_app_length.
Qed.

(** ** The text of a UUID *)

Lemma hex_digit_lower (n : Z) :
  0 <= n < 16 ->
  48 <= hex_digit n <= 57 \/ 97 <= hex_digit n <= 102.
Proof. unfold hex_digit. intros Hn. destruct (Z.ltb_spec n 10); lia. Qed.

Lemma hex_digit_inj (n m : Z) :
  0 <= n < 16 -> 0 <= m < 16 -> hex_digit n = hex_digit m -> n = m.
Proof.
  unfold hex_digit. intros Hn Hm.
  destruct (Z.ltb_spec n 10), (Z.ltb_spec m 10); lia.
Qed.

Lemma hex2_inj (b b' : Z) :
  0 <= b < 256 -> 0 <= b' < 256 ->
  hex_digit (b / 16) = hex_digit (b' / 16) ->
  hex_digit (b mod 16) = hex_digit (b' mod 16) -> b = b'.
Proof.
  intros Hb Hb' H1 H2.
  apply hex_digit_inj in H1; [|Z.div_mod_to_equations; lia..].
  apply hex_digit_inj in H2; [|Z.div_mod_to_equations; lia..].
  Z.div_mod_to_equations. lia.
Qed.

Lemma hex2_run (l : list Z) :
  Forall (fun b => 0 <= b < 256) l ->
  length (concat (map hex2 l)) = (2 * length l)%nat
  /\ Forall (fun c => 48 <= c <= 57 \/ 97 <= c <= 102)
            (concat (map hex2 l)).
Proof.
  induction 1 as [|b l Hb _ [IH1 IH2]]; [by split|].
  split; [simpl; lia|].
  simpl. apply Forall_cons. split.
  { apply hex_digit_lower. Z.div_mod_to_equations. lia. }
  apply Forall_cons. split; [|done].
  apply hex_digit_lower. Z.div_mod_to_equations. lia.
Qed.

(** X13: the text [blkid_probe_set_uuid_as] prints for 16 bytes is the
    canonical one: groups of 8, 4, 4, 4 and 12 digits from [0-9a-f] with a
    hyphen between them; and no two UUIDs have the same text. *)
Theorem uuid_text_canonical (uuid uuid' : list Z) :
  length uuid = 16%nat -> Forall (fun b => 0 <= b < 256) uuid ->
  (exists a b c d e,
     uuid_text uuid = a ++ [45] ++ b ++ [45] ++ c ++ [45] ++ d ++ [45] ++ e
     /\ length a = 8%nat /\ length b = 4%nat /\ length c = 4%nat
     /\ length d = 4%nat /\ length e = 12%nat
     /\ Forall (fun c => 48 <= c <= 57 \/ 97 <= c <= 102)
               (a ++ b ++ c ++ d ++ e))
  /\ (length uuid' = 16%nat -> Forall (fun b => 0 <= b < 256) uuid' ->
      uuid_text uuid = uuid_text uuid' -> uuid = uuid').
Proof.
  intros Hlen Hrange. split.
  - unfold uuid_text.
    eexists _, _, _, _, _. split; [reflexivity|].
    assert (Hseg : forall lo n, (lo + n <= 16)%nat ->
               length (concat (map hex2 (take n (drop lo uuid))))
               = (2 * n)%nat
               /\ Forall (fun c => 48 <= c <= 57 \/ 97 <= c <= 102)
                         (concat (map hex2 (take n (drop lo uuid))))).
    { intros lo n Hn.
      destruct (hex2_run (take n (drop lo uuid))) as [H1 H2].
      - by apply Forall_take, Forall_drop.
      - split; [|done]. rewrite H1, length_take, length_drop. lia. }
    destruct (Hseg 0%nat 4%nat ltac:(lia)) as [? ?].
    destruct (Hseg 4%nat 2%nat ltac:(lia)) as [? ?].
    destruct (Hseg 6%nat 2%nat ltac:(lia)) as [? ?].
    destruct (Hseg 8%nat 2%nat ltac:(lia)) as [? ?].
    destruct (Hseg 10%nat 6%nat ltac:(lia)) as [? ?].
    repeat split; try done.
    by repeat (apply Forall_app; split).
  - intros Hlen' Hrange'.
    do 17 (destruct uuid as [|? uuid]; try done).
    do 17 (destruct uuid' as [|? uuid']; try done).
    repeat match goal with
           | H : Forall _ (_ :: _) |- _ => apply Forall_cons in H as [? H]
           end.
    intros [= ].
    repeat f_equal; by apply hex2_inj.
Qed.

(** ** The tags in order *)

Lemma tags_of_snoc (pr pr' : blkid_struct_probe)
    (t : option string * list Z) :
  0 <= pr_nvals pr -> pr_nvals pr' = pr_nvals pr + 1 ->
  (forall i, i <> Z.to_nat (pr_nvals pr) ->
     pr_vals pr' !! i = pr_vals pr !! i) ->
  tag_of pr' (pr_nvals pr) = Some t ->
  tags_of pr' = tags_of pr ++ [t].
Proof.
  intros Hn0 Hnv Hother. unfold tag_of, blkid_probe_get_value, tags_of.
  destruct (Z.ltb_spec (pr_nvals pr) 0); [lia|].
  destruct (Z.geb_spec (pr_nvals pr) (pr_nvals pr')); [lia|]. simpl.
  destruct (pr_vals pr' !! Z.to_nat (pr_nvals pr)) as [x|] eqn:Hx; [|done].
  simpl. intros [= <-]. rewrite Hnv.
  replace (Z.to_nat (pr_nvals pr + 1)) with (S (Z.to_nat (pr_nvals pr)))
    by lia.
  rewrite (take_S_r _ _ x) by done.
  rewrite map_app. simpl. f_equal. f_equal.
  apply list_eq. intros i.
  destruct (decide (i < Z.to_nat (pr_nvals pr))%nat).
  - rewrite !lookup_take_lt by done. apply Hother. lia.
  - rewrite !lookup_take_ge by lia. done.
Qed.

(** The text stage of [blkid_probe_set_uuid_as] on a free slot. *)
Lemma uuid_text_stage (pr : blkid_struct_probe) (name : string)
    (uuid : list Z) :
  vals_ok pr -> pr_nvals pr < BLKID_PROBVAL_NVALS ->
  37 <= BLKID_PROBVAL_BUFSIZ -> length uuid = 16%nat ->
  exists v p x pr',
    blkid_probe_assign_value pr (Some name) = (v, p)
    /\ deref p v = Ok x
    /\ pr' = assign p v
               (mk_prval (v_name x)
                  (snprintf_into (v_data x) BLKID_PROBVAL_BUFSIZ
                     (uuid_text uuid))
                  (Z.of_nat (length (uuid_text uuid)) + 1))
    /\ tags_of pr' = tags_of pr ++ [(Some name, uuid_text uuid ++ [0])].
Proof.
  intros Hok Hfree Hsize Hlen.
  destruct (assign_value_free pr name Hok Hfree)
    as (x & pr1 & Hx & Hdata & Ha & Hd & Hnv & Hq & Hl & Hother).
  eexists _, _, _, _. split; [exact Ha|]. split; [exact Hd|].
  split; [reflexivity|].
  assert (Hn0 : 0 <= pr_nvals pr) by (destruct Hok as ([? ?] & _); done).
  assert (Hlt : (Z.to_nat (pr_nvals pr) < length (pr_vals pr1))%nat).
  { rewrite Hl. destruct Hok as (_ & -> & _). lia. }
  pose proof (uuid_text_length uuid Hlen) as Ht.
  apply tags_of_snoc; [done|by rewrite assign_nvals| |].
  - intros i Hi. unfold assign. simpl.
    rewrite list_lookup_insert_ne by done. by apply Hother.
  - rewrite tag_of_assign by done. simpl. rewrite Ht.
    replace (Z.to_nat (Z.of_nat 36 + 1)) with (S (length (uuid_text uuid)))
      by lia.
    rewrite snprintf_into_take by lia. done.
Qed.

(** X14: on a store with two free slots, [blkid_probe_set_uuid] of 16 bytes
    that are not all zero returns 0 and appends, in this order, UUID_RAW
    with the 16 bytes when the raw flag is requested and UUID with the
    canonical text and its NUL when the UUID flag is requested; the tags
    before are kept. *)
Theorem set_uuid_tags (pr : blkid_struct_probe) (uuid : list Z) :
  vals_ok pr -> pr_nvals pr + 2 <= BLKID_PROBVAL_NVALS ->
  37 <= BLKID_PROBVAL_BUFSIZ ->
  length uuid = 16%nat -> uuid_is_empty uuid = false ->
  exists pr',
    blkid_probe_set_uuid pr uuid = Ok (0, pr')
    /\ tags_of pr'
       = tags_of pr
         ++ (if bit_set (pr_probreq pr) BLKID_PROBREQ_UUIDRAW
             then [(Some "UUID_RAW"%string, uuid)] else [])
         ++ (if bit_set (pr_probreq pr) BLKID_PROBREQ_UUID
             then [(Some "UUID"%string, uuid_text uuid ++ [0])] else []).
Proof.
  intros Hok Hfree Hsize Hlen Hne.
  assert (Hn0 : 0 <= pr_nvals pr) by (destruct Hok as ([? ?] & _); done).
  unfold blkid_probe_set_uuid, blkid_probe_set_uuid_as.
  rewrite (uuid_is_empty_take_16 uuid Hlen), Hne.
  assert (Hraw : exists p1,
             (if bit_set (pr_probreq pr) BLKID_PROBREQ_UUIDRAW
              then blkid_probe_set_value pr (Some "UUID_RAW"%string) uuid
              else Ok (0, pr)) = Ok (0, p1)
             /\ vals_ok p1 /\ pr_nvals p1 <= pr_nvals pr + 1
             /\ pr_probreq p1 = pr_probreq pr
             /\ tags_of p1
                = tags_of pr
                  ++ (if bit_set (pr_probreq pr) BLKID_PROBREQ_UUIDRAW
                      then [(Some "UUID_RAW"%string, uuid)] else [])).
  { destruct (bit_set (pr_probreq pr) BLKID_PROBREQ_UUIDRAW).
    - destruct (set_value_free pr "UUID_RAW" uuid Hok ltac:(lia))
        as (p1 & -> & Hok1 & Hnv1 & Hq1 & Htag1 & Hother1).
      exists p1. split; [done|]. split; [done|]. split; [lia|].
      split; [done|].
      rewrite (take_ge uuid) in Htag1 by lia.
      by apply tags_of_snoc.
    - exists pr. rewrite app_nil_r. repeat split; try done; try lia.
      all: by destruct Hok as (? & ? & ?). }
  destruct Hraw as (p1 & -> & Hok1 & Hnv1 & Hq1 & Ht1). simpl.
  rewrite Hq1.
  destruct (bit_set (pr_probreq pr) BLKID_PROBREQ_UUID); simpl.
  - destruct (uuid_text_stage p1 "UUID" uuid Hok1 ltac:(lia) Hsize Hlen)
      as (v & p & x & pr' & -> & Hd & -> & Ht).
    rewrite Hd. simpl. eexists. split; [reflexivity|].
    by rewrite Ht, Ht1, <- (assoc_L (++)).
  - exists p1. split; [done|]. by rewrite app_nil_r.
Qed.

(** ** The filter bitmap *)

Lemma land_bit_nonzero (w k : Z) :
  0 <= k -> Z.land w (Z.shiftl 1 k) <> 0 <-> Z.testbit w k = true.
Proof.
  intros Hk. rewrite Z.shiftl_1_l. split.
  - intros Hne. destruct (Z.testbit w k) eqn:Hb; [done|].
    exfalso. apply Hne. apply Z.bits_inj'. intros n Hn.
    rewrite Z.land_spec, Z.bits_0, Z.pow2_bits_eqb by done.
    destruct (Z.eqb_spec k n) as [->|]; [by rewrite Hb|].
    by rewrite andb_false_r.
  - intros Hb Hz.
    assert (H : Z.testbit (Z.land w (2 ^ k)) k = true).
    { rewrite Z.land_spec, Hb, Z.pow2_bits_eqb, Z.eqb_refl by done. done. }
    rewrite Hz, Z.bits_0 in H. done.
Qed.

Lemma item_of_word_bit (i j : Z) :
  0 <= i -> 0 <= j ->
  blkid_bmp_idx_byte i = blkid_bmp_idx_byte j ->
  i mod blkid_bmp_wordsize = j mod blkid_bmp_wordsize -> i = j.
Proof.
  unfold blkid_bmp_idx_byte, blkid_bmp_wordsize. intros.
  Z.div_mod_to_equations. lia.
Qed.

Lemma disabled_testbit (f : list Z) (i : Z) :
  0 <= i ->
  disabled f i
  <-> exists w, f !! Z.to_nat (blkid_bmp_idx_byte i) = Some w
                /\ Z.testbit w (i mod blkid_bmp_wordsize) = true.
Proof.
  intros Hi. unfold disabled, blkid_bmp_get_item, blkid_bmp_idx_bit.
  assert (Hk : 0 <= i mod blkid_bmp_wordsize)
    by (apply Z.mod_pos_bound; done).
  destruct (f !! Z.to_nat (blkid_bmp_idx_byte i)) as [w|].
  - split.
    + intros (w' & [= <-] & Hne). exists w. split; [done|].
      by apply land_bit_nonzero.
    + intros (w' & [= <-] & Hb). eexists. split; [done|].
      by apply land_bit_nonzero.
  - split; [by intros (? & ? & ?)|by intros (? & ? & ?)].
Qed.

(** Setting an item sets it, and no other. *)
Lemma bmp_set_item_spec (b : list Z) (i : Z) :
  0 <= i < blkid_bmp_wordsize * Z.of_nat (length b) ->
  exists b',
    blkid_bmp_set_item (Some b) i = Ok (Some b')
    /\ length b' = length b
    /\ forall j, 0 <= j -> disabled b' j <-> j = i \/ disabled b j.
Proof.
  intros Hi. unfold blkid_bmp_set_item.
  assert (Hbyte : (Z.to_nat (blkid_bmp_idx_byte i) < length b)%nat).
  { unfold blkid_bmp_idx_byte, blkid_bmp_wordsize in *.
    Z.div_mod_to_equations. lia. }
  destruct (b !! Z.to_nat (blkid_bmp_idx_byte i)) as [w|] eqn:Hw.
  2: { apply lookup_ge_None in Hw. lia. }
  eexists. split; [done|]. split; [by rewrite length_insert|].
  intros j Hj. rewrite !disabled_testbit by lia.
  assert (Hk : 0 <= i mod blkid_bmp_wordsize)
    by (apply Z.mod_pos_bound; done).
  assert (Hl : 0 <= j mod blkid_bmp_wordsize)
    by (apply Z.mod_pos_bound; done).
  assert (Hbi : 0 <= blkid_bmp_idx_byte i)
    by (unfold blkid_bmp_idx_byte, blkid_bmp_wordsize;
        Z.div_mod_to_equations; lia).
  assert (Hbj : 0 <= blkid_bmp_idx_byte j)
    by (unfold blkid_bmp_idx_byte, blkid_bmp_wordsize;
        Z.div_mod_to_equations; lia).
  unfold blkid_bmp_idx_bit. rewrite Z.shiftl_1_l.
  destruct (decide (blkid_bmp_idx_byte j = blkid_bmp_idx_byte i)) as [Hb|Hb].
  - rewrite Hb, list_lookup_insert_eq by done. rewrite Hw.
    split.
    + intros (w' & [= <-] & Hbit).
      rewrite Z.lor_spec, Z.pow2_bits_eqb in Hbit by done.
      apply orb_true_iff in Hbit as [Hbit|Hbit].
      * right. by exists w.
      * left. apply Z.eqb_eq in Hbit. symmetry.
        by apply item_of_word_bit; [lia..| |].
    + intros [->|(w' & [= <-] & Hbit)]; eexists; (split; [done|]).
      * by rewrite Z.lor_spec, Z.pow2_bits_eqb, Z.eqb_refl, orb_true_r.
      * by rewrite Z.lor_spec, Hbit.
  - rewrite list_lookup_insert_ne by lia.
    split; [by right|]. intros [->|H]; [done|exact H].
Qed.

Lemma disabled_zero (n : nat) (j : Z) : ~ disabled (replicate n 0) j.
Proof.
  intros (w & Hw & Hne). unfold blkid_bmp_get_item in Hw.
  destruct (replicate n 0 !! _) as [w'|] eqn:Hl; [|done].
  apply lookup_replicate in Hl as [-> _].
  injection Hw as <-. by rewrite Z.land_0_l in Hne.
Qed.

(** A loop over the registry that sets the items of the descriptors that
    satisfy [cond]. *)
Lemma mark_loop_spec (cond : blkid_idinfo -> bool)
    (loop : list blkid_idinfo -> Z -> option (list Z) ->
            outcome (option (list Z))) :
  (forall i f, loop [] i f = Ok f) ->
  (forall id ids i f,
     loop (id :: ids) i f
     = (f' ← (if cond id then blkid_bmp_set_item f i else Ok f);
        loop ids (i + 1) f')) ->
  forall ids i b,
    0 <= i ->
    i + Z.of_nat (length ids) <= blkid_bmp_wordsize * Z.of_nat (length b) ->
    exists b',
      loop ids i (Some b) = Ok (Some b')
      /\ length b' = length b
      /\ forall j, 0 <= j ->
           disabled b' j
           <-> disabled b j
               \/ exists id, i <= j /\ ids !! Z.to_nat (j - i) = Some id
                             /\ cond id = true.
Proof.
  intros Hnil Hcons ids.
  induction ids as [|id ids IH]; intros i b Hi Hroom.
  - exists b. rewrite Hnil. split; [done|]. split; [done|].
    intros j Hj. split; [by left|]. by intros [?|(? & ? & ? & ?)].
  - rewrite Hcons. simpl in Hroom.
    assert (Hstep : exists b1,
               (if cond id then blkid_bmp_set_item (Some b) i
                else Ok (Some b)) = Ok (Some b1)
               /\ length b1 = length b
               /\ forall j, 0 <= j ->
                    disabled b1 j
                    <-> disabled b j \/ (j = i /\ cond id = true)).
    { destruct (cond id).
      - destruct (bmp_set_item_spec b i ltac:(lia)) as (b1 & -> & Hl & Hd).
        exists b1. split; [done|]. split; [done|].
        intros j Hj. rewrite Hd by done. intuition.
      - exists b. split; [done|]. split; [done|].
        intros j Hj. split; [by left|]. by intros [?|[_ ?]]. }
    destruct Hstep as (b1 & -> & Hl1 & Hd1). simpl.
    destruct (IH (i + 1) b1 ltac:(lia) ltac:(lia)) as (b' & -> & Hl & Hd).
    exists b'. split; [done|]. split; [lia|].
    intros j Hj. rewrite Hd, Hd1 by done. split.
    + intros [[?|[-> Hc]]|(id' & Hij & Hid & Hc)].
      * by left.
      * right. exists id. rewrite Z.sub_diag. by split; [lia|].
      * right. exists id'. split; [lia|]. split; [|done].
        replace (Z.to_nat (j - i)) with (S (Z.to_nat (j - (i + 1)))) by lia.
        done.
    + intros [?|(id' & Hij & Hid & Hc)]; [by left; left|].
      destruct (decide (j = i)) as [->|Hne].
      * rewrite Z.sub_diag in Hid. injection Hid as <-.
        left. by right.
      * right. exists id'. split; [lia|]. split; [|done].
        replace (Z.to_nat (j - i)) with (S (Z.to_nat (j - (i + 1))))
          in Hid by lia.
        done.
Qed.

Lemma mark_loop_null (cond : blkid_idinfo -> bool)
    (loop : list blkid_idinfo -> Z -> option (list Z) ->
            outcome (option (list Z))) :
  (forall i f, loop [] i f = Ok f) ->
  (forall id ids i f,
     loop (id :: ids) i f
     = (f' ← (if cond id then blkid_bmp_set_item f i else Ok f);
        loop ids (i + 1) f')) ->
  forall ids i,
    loop ids i None = if existsb cond ids then Fault else Ok None.
Proof.
  intros Hnil Hcons ids.
  induction ids as [|id ids IH]; intros i; [by rewrite Hnil|].
  rewrite Hcons. simpl. destruct (cond id); simpl; [done|]. apply IH.
Qed.

Lemma bmp_room (idinfos : list blkid_idinfo) :
  0 <= BLKID_FLTR_SIZE idinfos
  /\ Z.of_nat (length idinfos)
     < blkid_bmp_wordsize * BLKID_FLTR_SIZE idinfos.
Proof.
  unfold BLKID_FLTR_SIZE, blkid_bmp_size, BLKID_FLTR_ITEMS,
    blkid_bmp_wordsize.
  Z.div_mod_to_equations. lia.
Qed.

(** What [fltr_prepare] leaves when the bitmap exists or can be
    allocated. *)
Lemma fltr_prepare_zero (idinfos : list blkid_idinfo)
    (pr : blkid_struct_probe) :
  (pr_fltr pr = None -> is_Some (malloc (BLKID_FLTR_SIZE idinfos * 8))) ->
  pr_fltr (fltr_prepare idinfos pr)
  = Some (replicate (Z.to_nat (BLKID_FLTR_SIZE idinfos)) 0)
  /\ forall f, set_idx 0 (set_fltr f (fltr_prepare idinfos pr))
               = set_idx 0 (set_fltr f pr).
Proof.
  intros Hm. unfold fltr_prepare.
  destruct (pr_fltr pr) as [f0|] eqn:Hf; simpl.
  - rewrite Hf. simpl. done.
  - destruct (Hm eq_refl) as [junk ->]. simpl. done.
Qed.

(** The bitmap the loop of [blkid_probe_filter_types] leaves, started on
    a cleared one. *)
Lemma filter_types_loop_selects (idinfos : list blkid_idinfo) (flag : Z)
    (names : list string) :
  exists f,
    filter_types_loop flag names idinfos 0
      (Some (replicate (Z.to_nat (BLKID_FLTR_SIZE idinfos)) 0))
    = Ok (Some f)
    /\ length f = Z.to_nat (BLKID_FLTR_SIZE idinfos)
    /\ forall (i : nat) (id : blkid_idinfo),
         idinfos !! i = Some id ->
         disabled f (Z.of_nat i)
         <-> if bit_set flag BLKID_FLTR_ONLYIN then id_name id ∉ names
             else bit_set flag BLKID_FLTR_NOTIN = true
                  /\ id_name id ∈ names.
Proof.
  destruct (bmp_room idinfos) as [Hs0 Hroom].
  set (cond := fun id : blkid_idinfo =>
         if bit_set flag BLKID_FLTR_ONLYIN
         then negb (existsb (String.eqb (id_name id)) names)
         else if bit_set flag BLKID_FLTR_NOTIN
              then existsb (String.eqb (id_name id)) names
              else false).
  destruct (mark_loop_spec cond (filter_types_loop flag names))
    with (ids := idinfos) (i := 0)
         (b := replicate (Z.to_nat (BLKID_FLTR_SIZE idinfos)) 0)
    as (f & Hloop & Hlen & Hd).
  - done.
  - intros id ids i f. subst cond. simpl.
    by destruct (bit_set flag BLKID_FLTR_ONLYIN),
         (bit_set flag BLKID_FLTR_NOTIN),
         (existsb (String.eqb (id_name id)) names).
  - done.
  - rewrite length_replicate. unfold blkid_bmp_wordsize in *. lia.
  - exists f. split; [done|].
    rewrite length_replicate in Hlen. split; [done|].
    intros i id Hid. rewrite Hd by lia.
    assert (Hhas : existsb (String.eqb (id_name id)) names = true
                   <-> id_name id ∈ names).
    { rewrite existsb_exists. split.
      - intros (x & Hx & ->%String.eqb_eq). by apply list_elem_of_In.
      - intros Hx. exists (id_name id). split; [by apply list_elem_of_In|].
        apply String.eqb_refl. }
    split.
    + intros [H|(id' & _ & Hid' & Hc)]; [by apply disabled_zero in H|].
      rewrite Z.sub_0_r, Nat2Z.id, Hid in Hid'. injection Hid' as <-.
      subst cond. simpl in Hc.
      destruct (bit_set flag BLKID_FLTR_ONLYIN).
      * intros Hin%Hhas. by rewrite Hin in Hc.
      * destruct (bit_set flag BLKID_FLTR_NOTIN); [|done].
        split; [done|]. by apply Hhas.
    + intros Hsel. right. exists id. split; [lia|].
      rewrite Z.sub_0_r, Nat2Z.id. split; [done|].
      subst cond. simpl.
      destruct (bit_set flag BLKID_FLTR_ONLYIN).
      * apply negb_true_iff, not_true_is_false. by rewrite Hhas.
      * destruct Hsel as [-> Hin]. by apply Hhas.
Qed.

(** X15: [blkid_probe_filter_types], when the bitmap exists or can be
    allocated, returns 0, resets the cursor, and leaves a bitmap that
    depends on the call alone, not on the filter before: with
    [BLKID_FLTR_ONLYIN] exactly the probers whose name is not in [names] are
    disabled, otherwise with [BLKID_FLTR_NOTIN] exactly those whose name is
    in [names], and with neither flag none. *)
Theorem filter_types_selects (idinfos : list blkid_idinfo)
    (pr : blkid_struct_probe) (flag : Z) (names : list string) :
  (pr_fltr pr = None -> is_Some (malloc (BLKID_FLTR_SIZE idinfos * 8))) ->
  exists f,
    blkid_probe_filter_types idinfos (Some pr) flag (Some names)
    = Ok (0, Some (set_idx 0 (set_fltr (Some f) pr)))
    /\ length f = Z.to_nat (BLKID_FLTR_SIZE idinfos)
    /\ forall (i : nat) (id : blkid_idinfo),
         idinfos !! i = Some id ->
         disabled f (Z.of_nat i)
         <-> if bit_set flag BLKID_FLTR_ONLYIN then id_name id ∉ names
             else bit_set flag BLKID_FLTR_NOTIN = true
                  /\ id_name id ∈ names.
Proof.
  intros Hm. unfold blkid_probe_filter_types.
  destruct (fltr_prepare_zero idinfos pr Hm) as [-> Hrest].
  destruct (filter_types_loop_selects idinfos flag names)
    as (f & -> & Hlen & Hsel).
  simpl. rewrite Hrest. by exists f.
Qed.

(** The bitmap the loop of [blkid_probe_filter_usage] leaves, started on
    a cleared one. *)
Lemma filter_usage_loop_selects (idinfos : list blkid_idinfo)
    (flag usage : Z) :
  exists f,
    filter_usage_loop flag usage idinfos 0
      (Some (replicate (Z.to_nat (BLKID_FLTR_SIZE idinfos)) 0))
    = Ok (Some f)
    /\ length f = Z.to_nat (BLKID_FLTR_SIZE idinfos)
    /\ forall (i : nat) (id : blkid_idinfo),
         idinfos !! i = Some id ->
         disabled f (Z.of_nat i)
         <-> if bit_set (id_usage id) usage
             then bit_set flag BLKID_FLTR_NOTIN = true
             else bit_set flag BLKID_FLTR_ONLYIN = true.
Proof.
  destruct (bmp_room idinfos) as [Hs0 Hroom].
  set (cond := fun id : blkid_idinfo =>
         if bit_set (id_usage id) usage
         then bit_set flag BLKID_FLTR_NOTIN
         else bit_set flag BLKID_FLTR_ONLYIN).
  destruct (mark_loop_spec cond (filter_usage_loop flag usage))
    with (ids := idinfos) (i := 0)
         (b := replicate (Z.to_nat (BLKID_FLTR_SIZE idinfos)) 0)
    as (f & Hloop & Hlen & Hd).
  - done.
  - intros id ids i f. subst cond. simpl.
    by destruct (bit_set (id_usage id) usage),
         (bit_set flag BLKID_FLTR_ONLYIN),
         (bit_set flag BLKID_FLTR_NOTIN).
  - done.
  - rewrite length_replicate. unfold blkid_bmp_wordsize in *. lia.
  - exists f. split; [done|].
    rewrite length_replicate in Hlen. split; [done|].
    intros i id Hid. rewrite Hd by lia. split.
    + intros [H|(id' & _ & Hid' & Hc)]; [by apply disabled_zero in H|].
      rewrite Z.sub_0_r, Nat2Z.id, Hid in Hid'. injection Hid' as <-.
      subst cond. simpl in Hc. by destruct (bit_set (id_usage id) usage).
    + intros Hsel. right. exists id. split; [lia|].
      rewrite Z.sub_0_r, Nat2Z.id. split; [done|].
      subst cond. simpl. by destruct (bit_set (id_usage id) usage).
Qed.

(** X16: [blkid_probe_filter_usage] with a usage that is not 0, when the
    bitmap exists or can be allocated, returns 0, resets the cursor, and
    leaves a bitmap that depends on the call alone: a prober whose usage
    meets [usage] is disabled exactly when [BLKID_FLTR_NOTIN] is given, any
    other prober exactly when [BLKID_FLTR_ONLYIN] is given. *)
Theorem filter_usage_selects (idinfos : list blkid_idinfo)
    (pr : blkid_struct_probe) (flag usage : Z) :
  usage <> 0 ->
  (pr_fltr pr = None -> is_Some (malloc (BLKID_FLTR_SIZE idinfos * 8))) ->
  exists f,
    blkid_probe_filter_usage idinfos (Some pr) flag usage
    = Ok (0, Some (set_idx 0 (set_fltr (Some f) pr)))
    /\ length f = Z.to_nat (BLKID_FLTR_SIZE idinfos)
    /\ forall (i : nat) (id : blkid_idinfo),
         idinfos !! i = Some id ->
         disabled f (Z.of_nat i)
         <-> if bit_set (id_usage id) usage
             then bit_set flag BLKID_FLTR_NOTIN = true
             else bit_set flag BLKID_FLTR_ONLYIN = true.
Proof.
  intros Hu Hm. unfold blkid_probe_filter_usage.
  destruct (Z.eqb_spec usage 0); [done|].
  destruct (fltr_prepare_zero idinfos pr Hm) as [-> Hrest].
  destruct (filter_usage_loop_selects idinfos flag usage)
    as (f & -> & Hlen & Hsel).
  simpl. rewrite Hrest. by exists f.
Qed.

(** X17: the result of [calloc] is not checked.  On a session without a
    bitmap, when the allocation fails, both filter calls store through the
    null pointer as soon as one prober is to be disabled, and return 0 with
    no bitmap when none is. *)
Theorem filter_alloc_unchecked (idinfos : list blkid_idinfo)
    (pr : blkid_struct_probe) (flag usage : Z) (names : list string) :
  pr_fltr pr = None -> malloc (BLKID_FLTR_SIZE idinfos * 8) = None ->
  blkid_probe_filter_types idinfos (Some pr) flag (Some names)
  = (if existsb
          (fun id =>
             if bit_set flag BLKID_FLTR_ONLYIN
             then negb (existsb (String.eqb (id_name id)) names)
             else bit_set flag BLKID_FLTR_NOTIN
                  && existsb (String.eqb (id_name id)) names)
          idinfos
     then Fault else Ok (0, Some (set_idx 0 pr)))
  /\ (usage <> 0 ->
      blkid_probe_filter_usage idinfos (Some pr) flag usage
      = (if existsb
              (fun id =>
                 if bit_set (id_usage id) usage
                 then bit_set flag BLKID_FLTR_NOTIN
                 else bit_set flag BLKID_FLTR_ONLYIN)
              idinfos
         then Fault else Ok (0, Some (set_idx 0 pr)))).
Proof.
  intros Hf Hm.
  assert (Hprep : fltr_prepare idinfos pr = pr).
  { unfold fltr_prepare. rewrite Hf, Hm. simpl.
    destruct pr; simpl in *. by subst. }
  split.
  - unfold blkid_probe_filter_types. rewrite Hprep, Hf.
    rewrite (mark_loop_null
               (fun id =>
                  if bit_set flag BLKID_FLTR_ONLYIN
                  then negb (existsb (String.eqb (id_name id)) names)
                  else bit_set flag BLKID_FLTR_NOTIN
                       && existsb (String.eqb (id_name id)) names)).
    + destruct (existsb _ idinfos); simpl; [done|].
      destruct pr; simpl in *. by subst.
    + done.
    + intros id ids i f. simpl.
      by destruct (bit_set flag BLKID_FLTR_ONLYIN),
           (bit_set flag BLKID_FLTR_NOTIN),
           (existsb (String.eqb (id_name id)) names).
  - intros Hu. unfold blkid_probe_filter_usage.
    destruct (Z.eqb_spec usage 0); [done|]. rewrite Hprep, Hf.
    rewrite (mark_loop_null
               (fun id =>
                  if bit_set (id_usage id) usage
                  then bit_set flag BLKID_FLTR_NOTIN
                  else bit_set flag BLKID_FLTR_ONLYIN)).
    + destruct (existsb _ idinfos); simpl; [done|].
      destruct pr; simpl in *. by subst.
    + done.
    + intros id ids i f. simpl.
      by destruct (bit_set (id_usage id) usage),
           (bit_set flag BLKID_FLTR_ONLYIN),
           (bit_set flag BLKID_FLTR_NOTIN).
Qed.

(** X18: [blkid_probe_invert_filter] on a bitmap of [BLKID_FLTR_SIZE] words
    returns 0, resets the cursor and flips every item of the bitmap: what
    was disabled is enabled and what was enabled is disabled, the items of
    the last word behind the registry included. *)
Theorem invert_filter_flips (idinfos : list blkid_idinfo)
    (pr : blkid_struct_probe) (f : list Z) :
  pr_fltr pr = Some f -> length f = Z.to_nat (BLKID_FLTR_SIZE idinfos) ->
  exists f',
    blkid_probe_invert_filter idinfos (Some pr)
    = (0, Some (set_idx 0 (set_fltr (Some f') pr)))
    /\ length f' = length f
    /\ forall j,
         0 <= j < blkid_bmp_wordsize * BLKID_FLTR_SIZE idinfos ->
         disabled f' j <-> ~ disabled f j.
Proof.
  intros Hf Hlen. unfold blkid_probe_invert_filter. rewrite Hf.
  rewrite take_ge, drop_ge, app_nil_r by lia.
  eexists. split; [done|]. split; [by rewrite length_map|].
  intros j Hj. rewrite !disabled_testbit by lia.
  assert (Hk : 0 <= j mod blkid_bmp_wordsize < blkid_bmp_wordsize)
    by (apply Z.mod_pos_bound; done).
  assert (Hbyte : (Z.to_nat (blkid_bmp_idx_byte j) < length f)%nat).
  { unfold blkid_bmp_idx_byte, blkid_bmp_wordsize in *.
    Z.div_mod_to_equations. lia. }
  destruct (f !! Z.to_nat (blkid_bmp_idx_byte j)) as [w|] eqn:Hw.
  2: { apply lookup_ge_None in Hw. lia. }
  rewrite list_lookup_fmap, Hw. simpl.
  assert (Hflip : Z.testbit (ulong_not w) (j mod blkid_bmp_wordsize)
                  = negb (Z.testbit w (j mod blkid_bmp_wordsize))).
  { unfold ulong_not.
    rewrite Z.mod_pow2_bits_low, Z.lnot_spec by lia. done. }
  split.
  - intros (w' & [= <-] & Hb) (w'' & [= <-] & Hb').
    rewrite Hflip, Hb' in Hb. done.
  - intros Hn. eexists. split; [done|]. rewrite Hflip.
    destruct (Z.testbit w _) eqn:Hb; [|done].
    exfalso. apply Hn. by exists w.
Qed.

(** ** What a match means *)

Lemma set_value_snoc (pr : blkid_struct_probe) (name : string)
    (data : list Z) :
  vals_ok pr -> pr_nvals pr < BLKID_PROBVAL_NVALS ->
  exists pr',
    blkid_probe_set_value pr (Some name) data = Ok (0, pr')
    /\ vals_ok pr'
    /\ pr_nvals pr' = pr_nvals pr + 1
    /\ pr_probreq pr' = pr_probreq pr
    /\ tags_of pr'
       = tags_of pr
         ++ [(Some name, take (Z.to_nat BLKID_PROBVAL_BUFSIZ) data)].
Proof.
  intros Hok Hfree.
  destruct (set_value_free pr name data Hok Hfree)
    as (pr' & Hs & Hok' & Hnv & Hq & Htag & Hother).
  exists pr'. repeat (split; [done|]).
  apply tags_of_snoc; try done. by destruct Hok as ([? ?] & _).
Qed.






(** ** Disabled probers *)

Lemma probe_body_disabled (id : blkid_idinfo) (i : Z)
    (pr : blkid_struct_probe) (f : list Z) :
  pr_fltr pr = Some f -> disabled f i ->
  probe_body id i pr = Ok (inl (set_idx i pr)).
Proof.
  intros Hf (w & Hw & Hne). unfold probe_body. simpl.
  rewrite Hf, Hw. simpl.
  destruct (Z.eqb_spec w 0); [done|]. done.
Qed.

Lemma probe_body_keeps_filter (id : blkid_idinfo) (i : Z)
    (pr pr' : blkid_struct_probe) :
  (forall f pr mag rc pr',
     id_probefunc id = Some f -> f pr mag = Ok (rc, pr') ->
     pr_fltr pr' = pr_fltr pr) ->
  probe_body id i pr = Ok (inl pr') -> pr_fltr pr' = pr_fltr pr.
Proof.
  intros Hid. unfold probe_body.
  set (p0 := set_idx i pr).
  assert (Hp0 : pr_fltr p0 = pr_fltr pr) by done. clearbody p0.
  destruct (match pr_fltr p0 with Some _ => _ | None => _ end)
    as [[|]|]; simpl; try done.
  { by intros [= <-]. }
  destruct (id_magics id) as [mags|]; simpl.
  - destruct (magic_loop p0 mags) as [[m p1]|] eqn:Hm; simpl; [|done].
    apply magic_loop_frame in Hm as (_ & _ & Hfl & _).
    destruct m as [mag|]; simpl; [|intros [= <-]; congruence].
    destruct (id_probefunc id) as [f|] eqn:Hf; simpl.
    + destruct (f p1 (Some mag)) as [[rc p2]|] eqn:Hcall; simpl; [|done].
      destruct (Z.eqb_spec rc 0) as [->|Hrc]; simpl.
      * split_emitters.
      * intros [= <-]. rewrite (Hid f _ _ _ _ eq_refl Hcall). congruence.
    + split_emitters.
  - destruct (id_probefunc id) as [f|] eqn:Hf; simpl.
    + destruct (f p0 None) as [[rc p2]|] eqn:Hcall; simpl; [|done].
      destruct (Z.eqb_spec rc 0) as [->|Hrc]; simpl.
      * split_emitters.
      * intros [= <-]. rewrite (Hid f _ _ _ _ eq_refl Hcall). congruence.
    + split_emitters.
Qed.

Lemma probe_loop_skips_disabled (f : list Z) (ids : list blkid_idinfo) :
  registry_keeps_filter ids ->
  forall (ids' : list blkid_idinfo) (i : Z) (pr : blkid_struct_probe),
    pr_fltr pr = Some f -> length ids = length ids' ->
    (forall k : nat,
       disabled f (i + Z.of_nat k) \/ ids !! k = ids' !! k) ->
    probe_loop ids i pr = probe_loop ids' i pr.
Proof.
  induction 1 as [|id ids Hid _ IH]; intros ids' i pr Hf Hlen Hsame.
  - by destruct ids'.
  - destruct ids' as [|id' ids']; [done|]. simpl.
    assert (Hrest : forall k : nat,
               disabled f (i + 1 + Z.of_nat k) \/ ids !! k = ids' !! k).
    { intros k. destruct (Hsame (S k)) as [H|H]; [left|by right].
      by replace (i + 1 + Z.of_nat k) with (i + Z.of_nat (S k)) by lia. }
    destruct (Hsame 0%nat) as [Hdis|Heq].
    + rewrite Z.add_0_r in Hdis.
      rewrite !(probe_body_disabled _ i pr f) by done. simpl.
      apply IH; [done|by injection Hlen|done].
    + injection Heq as <-.
      destruct (probe_body id i pr) as [[p1|p1]|] eqn:Hb; simpl; try done.
      apply IH; [|by injection Hlen|done].
      by rewrite (probe_body_keeps_filter _ _ _ _ Hid Hb).
Qed.

(** X20: a prober the filter disables has no part in [blkid_do_probe]:
    when the probing functions leave the filter alone, the call gives the
    same result, return value and session, on a registry that differs in
    the disabled entries only. *)
Theorem do_probe_skips_disabled (idinfos idinfos' : list blkid_idinfo)
    (pr : blkid_struct_probe) (f : list Z) :
  pr_fltr pr = Some f -> length idinfos = length idinfos' ->
  registry_keeps_filter idinfos ->
  (forall i : nat,
     disabled f (Z.of_nat i) \/ idinfos !! i = idinfos' !! i) ->
  blkid_do_probe idinfos (Some pr) = blkid_do_probe idinfos' (Some pr).
Proof.
  intros Hf Hlen Hkeep Hsame. unfold blkid_do_probe, overwrite. simpl.
  change (drop (Z.to_nat 0) idinfos) with idinfos.
  change (drop (Z.to_nat 0) idinfos') with idinfos'.
  by rewrite (probe_loop_skips_disabled f idinfos Hkeep idinfos' 0).
Qed.

(** ** The registry *)

(** X21: [blkid_known_fstype] returns 1 when a prober of the registry
    carries the name and 0 otherwise, also for a null name. *)
Theorem known_fstype_iff (idinfos : list blkid_idinfo) (t : string) :
  (blkid_known_fstype idinfos (Some t) = 1
   <-> exists id, id ∈ idinfos /\ id_name id = t)
  /\ (blkid_known_fstype idinfos (Some t) = 0
      <-> forall id, id ∈ idinfos -> id_name id <> t)
  /\ blkid_known_fstype idinfos None = 0.
Proof.
  unfold blkid_known_fstype.
  destruct (existsb (fun id => String.eqb (id_name id) t) idinfos) eqn:He.
  - apply existsb_exists in He as (id & Hin%list_elem_of_In & Hn%String.eqb_eq).
    split; [|split; [|done]].
    + split; [|done]. intros _. by exists id.
    + split; [done|]. intros H. by destruct (H id Hin).
  - assert (Hnone : forall id, id ∈ idinfos -> id_name id <> t).
    { intros id Hin%list_elem_of_In Hn.
      assert (Ht : existsb (fun id => String.eqb (id_name id) t) idinfos
                   = true).
      { apply existsb_exists. exists id. split; [done|].
        by apply String.eqb_eq. }
      by rewrite Ht in He. }
    split; [|split; [|done]].
    + split; [done|]. intros (id & Hin & Hn). by destruct (Hnone id Hin).
    + split; [done|]. done.
Qed.

(** ** Invariants of a session *)

Lemma vals_ok_reset_vals (pr : blkid_struct_probe) :
  0 <= BLKID_PROBVAL_NVALS -> vals_ok (blkid_probe_reset_vals pr).
Proof.
  intros Hn. unfold vals_ok, blkid_probe_reset_vals. simpl.
  split; [lia|]. split; [by rewrite length_replicate|].
  apply Forall_replicate. simpl. by rewrite length_replicate.
Qed.

(** X22: the buffers and the tag store of a session are consistent from
    [blkid_new_probe] on.  The session it yields has buffers that hold what
    their counters say and a tag store of [BLKID_PROBVAL_NVALS] values of
    [BLKID_PROBVAL_BUFSIZ] bytes with none in use;
    [blkid_reset_probe] and [blkid_probe_set_device] keep the buffers so
    and leave the store so, whatever it was; [blkid_probe_get_buffer] keeps
    the buffers so and does not touch the store. *)
Theorem session_invariants (pr : blkid_struct_probe) :
  0 <= BLKID_PROBVAL_NVALS ->
  (blkid_new_probe = Some pr ->
   buffers_ok pr /\ vals_ok pr /\ pr_nvals pr = 0)
  /\ (buffers_ok pr -> buffers_ok (blkid_reset_probe pr))
  /\ (vals_ok (blkid_reset_probe pr)
      /\ pr_nvals (blkid_reset_probe pr) = 0)
  /\ (forall fd off size pr',
        (blkid_probe_set_device (Some pr) fd off size).2 = Some pr' ->
        (buffers_ok pr -> buffers_ok pr')
        /\ vals_ok pr' /\ pr_nvals pr' = 0)
  /\ (forall off len,
        let pr' := (blkid_probe_get_buffer pr off len).2 in
        (buffers_ok pr -> 0 <= off -> 0 <= len -> buffers_ok pr')
        /\ pr_vals pr' = pr_vals pr /\ pr_nvals pr' = pr_nvals pr).
Proof.
  intros Hn.
  assert (Hreset : forall p, vals_ok (blkid_reset_probe p)
                             /\ pr_nvals (blkid_reset_probe p) = 0).
  { intros p. split; [|done]. unfold blkid_reset_probe.
    by apply vals_ok_reset_vals. }
  split; [|split; [|split; [|split]]].
  - intros Hnew. split; [by apply buffers_ok_new_probe|].
    unfold blkid_new_probe in Hnew.
    destruct (malloc 1); simpl in Hnew; [|done]. injection Hnew as <-.
    split; [|done]. unfold vals_ok. simpl.
    split; [lia|]. split; [by rewrite length_replicate|].
    apply Forall_replicate. simpl. by rewrite length_replicate.
  - apply buffers_ok_reset_probe.
  - apply Hreset.
  - intros fd off size pr' Hdev.
    split; [intros Hb; by eapply buffers_ok_set_device|].
    unfold blkid_probe_set_device in Hdev.
    pose proof (get_buffer_frame (set_device_fields pr fd off size) 0 512)
      as Hf. cbv zeta in Hf.
    destruct (blkid_probe_get_buffer _ 0 512) as [b p]. simpl in Hf.
    destruct Hf as (Hv & Hnv & _).
    assert (Hfields : vals_ok (set_device_fields pr fd off size)
                      /\ pr_nvals (set_device_fields pr fd off size) = 0).
    { unfold set_device_fields.
      destruct (Hreset pr) as [H1 H2]. revert H1 H2.
      generalize (blkid_reset_probe pr). intros q H1 H2.
      destruct (size =? 0); [destruct (blkdev_get_size fd)|]; done. }
    destruct Hfields as [(H1 & H2 & H3) H4].
    assert (Hp : vals_ok p /\ pr_nvals p = 0).
    { unfold vals_ok. rewrite Hv, Hnv. done. }
    destruct b; simpl in Hdev; injection Hdev as <-; exact Hp.
  - intros off len. cbv zeta.
    split; [apply buffers_ok_get_buffer|].
    pose proof (get_buffer_frame pr off len) as Hf. cbv zeta in Hf.
    by destruct Hf as (? & ? & _).
Qed.

(** ** A filter that disables every prober *)

Lemma probe_loop_all_disabled (f : list Z) (ids : list blkid_idinfo) :
  forall (i : Z) (pr : blkid_struct_probe),
    pr_fltr pr = Some f ->
    (forall k : nat, (k < length ids)%nat -> disabled f (i + Z.of_nat k)) ->
    probe_loop ids i pr
    = Ok (1, if decide (ids = []) then pr
             else set_idx (i + Z.of_nat (length ids) - 1) pr).
Proof.
  induction ids as [|id ids IH]; intros i pr Hf Hdis; [done|].
  cbn [probe_loop].
  rewrite (probe_body_disabled _ i pr f Hf).
  2: { specialize (Hdis 0%nat). rewrite Z.add_0_r in Hdis.
       apply Hdis. simpl. lia. }
  simpl. rewrite (IH (i + 1) (set_idx i pr)); [|done|].
  - destruct ids as [|id' ids]; simpl.
    + do 2 f_equal. f_equal. lia.
    + do 2 f_equal. unfold set_idx. simpl. f_equal. lia.
  - intros k Hk.
    replace (i + 1 + Z.of_nat k) with (i + Z.of_nat (S k)) by lia.
    apply Hdis. simpl. lia.
Qed.

(** X23: with every prober of the registry disabled, [blkid_do_probe]
    returns 1 whatever the device and the probers are: nothing is read and
    no probing function runs.  The tags of the call before are gone, and
    the cursor stands at the last index. *)
Theorem do_probe_all_disabled (idinfos : list blkid_idinfo)
    (pr : blkid_struct_probe) (f : list Z) :
  idinfos <> [] -> pr_fltr pr = Some f ->
  (forall i : nat, (i < length idinfos)%nat -> disabled f (Z.of_nat i)) ->
  blkid_do_probe idinfos (Some pr)
  = Ok (1, Some (set_idx (Z.of_nat (length idinfos) - 1)
                   (blkid_probe_reset_vals pr))).
Proof.
  intros Hne Hf Hdis. unfold blkid_do_probe, overwrite. simpl.
  change (drop (Z.to_nat 0) idinfos) with idinfos.
  rewrite (probe_loop_all_disabled f); [|done|done].
  simpl. by destruct (decide (idinfos = [])).
Qed.

(** ** What is not requested *)

(** X24: a tag that is not requested is not stored.  With the VERSION flag
    off the version emitters, with both label flags off the label emitters,
    and with both UUID flags off the UUID emitters return 0 and leave the
    session as it was, whatever the state of the store, also a full
    one. *)
Theorem unrequested_tags_are_not_stored (pr : blkid_struct_probe) :
  (bit_set (pr_probreq pr) BLKID_PROBREQ_VERSION = false ->
   (forall version, blkid_probe_set_version pr version = Ok (0, pr))
   /\ (forall fmt ap, blkid_probe_sprintf_version pr fmt ap = Ok (0, pr)))
  /\ (bit_set (pr_probreq pr) BLKID_PROBREQ_LABEL = false ->
      bit_set (pr_probreq pr) BLKID_PROBREQ_LABELRAW = false ->
      (forall label, blkid_probe_set_label pr label = Ok (0, pr))
      /\ (forall label enc,
            blkid_probe_set_utf8label pr label enc = Ok (0, pr)))
  /\ (bit_set (pr_probreq pr) BLKID_PROBREQ_UUID = false ->
      bit_set (pr_probreq pr) BLKID_PROBREQ_UUIDRAW = false ->
      (forall uuid, blkid_probe_set_uuid pr uuid = Ok (0, pr))
      /\ (forall uuid fmt ap,
            blkid_probe_sprintf_uuid pr uuid fmt ap = Ok (0, pr))).
Proof.
  split; [|split].
  - intros H. unfold blkid_probe_set_version, blkid_probe_sprintf_version.
    by rewrite H.
  - intros H1 H2. unfold blkid_probe_set_label, blkid_probe_set_utf8label.
    rewrite H2. simpl. by rewrite H1.
  - intros H1 H2.
    unfold blkid_probe_set_uuid, blkid_probe_set_uuid_as,
      blkid_probe_sprintf_uuid.
    rewrite H2. split.
    + intros uuid. destruct (uuid_is_empty _); [done|]. simpl.
      by rewrite H1.
    + intros uuid fmt ap. destruct (uuid_is_empty _); [done|]. simpl.
      by rewrite H1.
Qed.

(** ** Labels that fill the value *)

(** X25: [blkid_probe_set_label] stores the closing NUL at index [len] of
    the value.  For a label of [BLKID_PROBVAL_BUFSIZ] bytes or more, with
    the LABEL flag requested and a slot to take, that index is the size of
    the value: the store is outside the array. *)
Theorem set_label_long_label_overflows (pr : blkid_struct_probe)
    (label : list Z) :
  vals_ok pr -> pr_nvals pr + 2 <= BLKID_PROBVAL_NVALS ->
  bit_set (pr_probreq pr) BLKID_PROBREQ_LABEL = true ->
  BLKID_PROBVAL_BUFSIZ <= Z.of_nat (length label) ->
  blkid_probe_set_label pr label = Fault.
Proof.
  intros Hok Hfree Hlab Hlong.
  assert (Hn0 : 0 <= pr_nvals pr) by (destruct Hok as ([? ?] & _); done).
  unfold blkid_probe_set_label.
  assert (Hraw : exists p1,
             (if bit_set (pr_probreq pr) BLKID_PROBREQ_LABELRAW
              then blkid_probe_set_value pr (Some "LABEL_RAW"%string)
                     (take (Z.to_nat BLKID_PROBVAL_BUFSIZ) label)
              else Ok (0, pr)) = Ok (0, p1)
             /\ vals_ok p1 /\ pr_nvals p1 <= pr_nvals pr + 1
             /\ pr_probreq p1 = pr_probreq pr).
  { destruct (bit_set (pr_probreq pr) BLKID_PROBREQ_LABELRAW).
    - destruct (set_value_free pr "LABEL_RAW"
                  (take (Z.to_nat BLKID_PROBVAL_BUFSIZ) label) Hok
                  ltac:(lia))
        as (p1 & -> & Hok1 & Hnv1 & Hq1 & _).
      exists p1. repeat (split; [done|]). split; [lia|done].
    - exists pr. repeat (split; [done|]). split; [lia|done]. }
  destruct Hraw as (p1 & -> & Hok1 & Hnv1 & Hq1). simpl.
  rewrite Hq1, Hlab. simpl.
  destruct (assign_value_free p1 "LABEL" Hok1 ltac:(lia))
    as (x & p2 & Hx & Hdata & -> & Hd & _).
  rewrite Hd. simpl.
  unfold store_byte.
  rewrite memcpy_length, length_take. simpl. rewrite Hdata.
  destruct (Z.ltb_spec
              (Z.of_nat (Z.to_nat BLKID_PROBVAL_BUFSIZ `min` length label))
              (Z.of_nat ((Z.to_nat BLKID_PROBVAL_BUFSIZ `min` length label)
                         `max` Z.to_nat BLKID_PROBVAL_BUFSIZ)));
    [lia|].
  by rewrite andb_false_r.
Qed.

(** ** Labels in UTF-16 *)

(** X26: on a store with two free slots [blkid_probe_set_utf8label] returns
    0 and appends, in this order, LABEL_RAW with the label as given (cut
    to [BLKID_PROBVAL_BUFSIZ] bytes) when the raw flag is requested and
    LABEL with the UTF-8 text when the LABEL flag is requested.  The length
    of LABEL is that of the text: the NUL behind it is not counted. *)
Theorem set_utf8label_tags (pr : blkid_struct_probe) (label : list Z)
    (enc : Z) :
  vals_ok pr -> pr_nvals pr + 2 <= BLKID_PROBVAL_NVALS ->
  0 < BLKID_PROBVAL_BUFSIZ ->
  exists pr' bs,
    blkid_probe_set_utf8label pr label enc = Ok (0, pr')
    /\ encode_loop enc BLKID_PROBVAL_BUFSIZ label 0 = bs ++ [0]
    /\ Forall (fun b => 1 <= b <= 255) bs
    /\ tags_of pr'
       = tags_of pr
         ++ (if bit_set (pr_probreq pr) BLKID_PROBREQ_LABELRAW
             then [(Some "LABEL_RAW"%string,
                    take (Z.to_nat BLKID_PROBVAL_BUFSIZ) label)]
             else [])
         ++ (if bit_set (pr_probreq pr) BLKID_PROBREQ_LABEL
             then [(Some "LABEL"%string, bs)] else []).
Proof.
  intros Hok Hfree Hsize.
  assert (Hn0 : 0 <= pr_nvals pr) by (destruct Hok as ([? ?] & _); done).
  destruct (encode_loop_c_string enc BLKID_PROBVAL_BUFSIZ label 0)
    as (bs & Hbs & Hnz).
  unfold blkid_probe_set_utf8label.
  assert (Hraw : exists p1,
             (if bit_set (pr_probreq pr) BLKID_PROBREQ_LABELRAW
              then blkid_probe_set_value pr (Some "LABEL_RAW"%string) label
              else Ok (0, pr)) = Ok (0, p1)
             /\ vals_ok p1 /\ pr_nvals p1 <= pr_nvals pr + 1
             /\ pr_probreq p1 = pr_probreq pr
             /\ tags_of p1
                = tags_of pr
                  ++ (if bit_set (pr_probreq pr) BLKID_PROBREQ_LABELRAW
                      then [(Some "LABEL_RAW"%string,
                             take (Z.to_nat BLKID_PROBVAL_BUFSIZ) label)]
                      else [])).
  { destruct (bit_set (pr_probreq pr) BLKID_PROBREQ_LABELRAW).
    - destruct (set_value_snoc pr "LABEL_RAW" label Hok ltac:(lia))
        as (p1 & -> & Hok1 & Hnv1 & Hq1 & Ht1).
      exists p1. repeat (split; [done|]). split; [lia|done].
    - exists pr. rewrite app_nil_r. repeat (split; [done|]).
      split; [lia|done]. }
  destruct Hraw as (p1 & -> & Hok1 & Hnv1 & Hq1 & Ht1). simpl.
  rewrite Hq1.
  destruct (bit_set (pr_probreq pr) BLKID_PROBREQ_LABEL); simpl.
  2: { exists p1, bs. repeat (split; [done|]). by rewrite app_nil_r. }
  assert (Hn1 : 0 <= pr_nvals p1) by (destruct Hok1 as ([? ?] & _); done).
  destruct (assign_value_free p1 "LABEL" Hok1 ltac:(lia))
    as (x & p2 & Hx & Hdata & -> & Hd & Hnv2 & Hq2 & Hl2 & Hother2).
  rewrite Hd. simpl. unfold encode_to_utf8. rewrite Hbs.
  eexists _, bs. split; [reflexivity|]. split; [done|]. split; [done|].
  rewrite (assoc_L (++)), <- Ht1.
  assert (Hlt : (Z.to_nat (pr_nvals p1) < length (pr_vals p2))%nat).
  { rewrite Hl2. destruct Hok1 as (_ & -> & _). lia. }
  apply tags_of_snoc; [done|by rewrite assign_nvals| |].
  - intros i Hi. unfold assign. simpl.
    rewrite list_lookup_insert_ne by done. by apply Hother2.
  - rewrite tag_of_assign by done. simpl.
    rewrite length_app. simpl.
    replace (Z.to_nat (Z.of_nat (length bs + 1) - 1)) with (length bs)
      by lia.
    unfold memcpy. by rewrite <- (assoc_L (++)), take_app_length.
Qed.

(** ** The cache and the device *)

(** X27: in the general tier a read that comes short is reported as a
    failure, but its bytes are already in the buffer and the cached window
    is still the one recorded.  A later request inside that window is
    served without a read, from a buffer that starts with the bytes of the
    failed read. *)
Theorem short_read_leaves_stale_window (pr : blkid_struct_probe)
    (off len : Z) (b bs : list Z) :
  BLKID_SB_BUFSIZ < off + len -> len <= pr_buf_max pr ->
  pr_buf pr = Some b ->
  off < pr_buf_off pr \/ pr_buf_off pr + pr_buf_len pr < off + len ->
  blkid_llseek (pr_fd pr) (pr_off pr + off) = true ->
  read (pr_fd pr) (pr_off pr + off) len = Some bs ->
  Z.of_nat (length bs) < len ->
  blkid_probe_get_buffer pr off len
  = (None, set_buf (Some (memcpy b bs)) pr)
  /\ forall off1 len1,
       BLKID_SB_BUFSIZ < off1 + len1 -> len1 <= pr_buf_max pr ->
       pr_buf_off pr <= off1 ->
       off1 + len1 <= pr_buf_off pr + pr_buf_len pr ->
       blkid_probe_get_buffer (set_buf (Some (memcpy b bs)) pr) off1 len1
       = (Some (slice (if off1 =? 0 then 0 else off1 - pr_buf_off pr) len1
                      (memcpy b bs)),
          set_buf (Some (memcpy b bs)) pr).
Proof.
  intros Htier Hmax Hb Hmiss Hseek Hread Hshort. split.
  - unfold blkid_probe_get_buffer, buf_ensure, read_into.
    destruct (Z.leb_spec (off + len) BLKID_SB_BUFSIZ); [lia|].
    destruct (Z.gtb_spec len (pr_buf_max pr)); [lia|].
    assert (Hm : (off <? pr_buf_off pr)
                 || (off + len >? pr_buf_off pr + pr_buf_len pr) = true).
    { destruct Hmiss; [destruct (Z.ltb_spec off (pr_buf_off pr)); [done|lia]|].
      destruct (Z.gtb_spec (off + len) (pr_buf_off pr + pr_buf_len pr));
        [by rewrite orb_true_r|lia]. }
    simpl. rewrite Hm, Hseek, Hb, Hread. simpl.
    rewrite (take_ge bs) by lia.
    destruct (Z.eqb_spec (Z.of_nat (length bs)) len); [lia|]. done.
  - intros off1 len1 Ht1 Hm1 Hlo Hhi.
    by rewrite (buf_served sys) by done.
Qed.

Lemma slice_slice (a n off len : Z) (img : list Z) :
  0 <= a -> 0 <= off -> 0 <= len -> off + len <= n ->
  slice off len (slice a n img) = slice (a + off) len img.
Proof.
  intros Ha Hoff Hlen Hin. unfold slice.
  rewrite skipn_firstn_comm, take_take, drop_drop.
  f_equal; [lia|]. f_equal. lia.
Qed.

Lemma slice_of_take (off len : Z) (n : nat) (l : list Z) :
  0 <= off -> 0 <= len -> off + len <= Z.of_nat n ->
  slice off len (take n l) = slice off len l.
Proof.
  intros Hoff Hlen Hin. unfold slice.
  rewrite skipn_firstn_comm, take_take. f_equal. lia.
Qed.

Lemma slice_own_length (a n : Z) (img : list Z) :
  slice a (Z.of_nat (length (slice a n img))) img = slice a n img.
Proof.
  unfold slice at 1. rewrite Nat2Z.id. unfold slice.
  generalize (drop (Z.to_nat a) img). intros l.
  rewrite length_take.
  destruct (Nat.le_ge_cases (Z.to_nat n) (length l)).
  - by rewrite Nat.min_l.
  - by rewrite Nat.min_r, !take_ge by lia.
Qed.

(** X28: the cache is transparent on a device that does not change.  After
    [blkid_reset_probe] the buffers count no byte as valid; and when the
    bytes the buffers count as valid are those of the device, a request
    that is served returns the bytes of the device at [pr->off + off], and
    the buffers are again as the device. *)
Theorem served_bytes_are_device_bytes (img : list Z)
    (pr pr' : blkid_struct_probe) (off len : Z) (d : list Z) :
  stable_device img ->
  cache_coherent img (blkid_reset_probe pr)
  /\ (buffers_ok pr -> cache_coherent img pr ->
      0 <= pr_off pr -> 0 <= off -> 0 < len ->
      blkid_probe_get_buffer pr off len = (Some d, pr') ->
      d = slice (pr_off pr + off) len img /\ cache_coherent img pr').
Proof.
  intros Hdev. split.
  { unfold cache_coherent, blkid_reset_probe, slice. simpl.
    by rewrite !take_0. }
  intros ((Hsn & Hsl) & (Hbn & Hbo & Hbl)) (Hcs & Hcb) Horg Hoff Hlen.
  unfold blkid_probe_get_buffer.
  destruct (Z.leb_spec (off + len) BLKID_SB_BUFSIZ) as [Htier|Htier].
  - (* the superblock tier *)
    unfold sb_ensure.
    assert (Hens : forall p1, 
               match pr_sbbuf pr with
               | Some _ => Some pr
               | None => (fun b => set_sbbuf (Some b) pr)
                           <$> alloc BLKID_SB_BUFSIZ
               end = Some p1 ->
               is_Some (pr_sbbuf p1) /\ pr_sbbuf_len p1 = pr_sbbuf_len pr
               /\ pr_off p1 = pr_off pr /\ pr_fd p1 = pr_fd pr
               /\ (pr_sbbuf_len pr <> 0 -> pr_sbbuf p1 = pr_sbbuf pr)
               /\ pr_buf p1 = pr_buf pr /\ pr_buf_len p1 = pr_buf_len pr
               /\ pr_buf_off p1 = pr_buf_off pr).
    { intros p1. destruct (pr_sbbuf pr) as [b0|] eqn:Hb0.
      - intros [= <-]. rewrite Hb0. by repeat split.
      - destruct (alloc BLKID_SB_BUFSIZ); simpl; [|done].
        intros [= <-]. simpl. repeat split; try done.
        intros Hne. by destruct Hne; apply Hsn. }
    destruct (match pr_sbbuf pr with Some _ => _ | None => _ end)
      as [p1|]; [|done].
    destruct (Hens p1 eq_refl)
      as ([b1 Hb1] & Hl1 & Ho1 & Hfd1 & Hsame & Hbuf1 & Hbl1 & Hbo1).
    clear Hens. unfold sb_fill. rewrite Hl1, Ho1, Hfd1.
    destruct (Z.eqb_spec (pr_sbbuf_len pr) 0) as [Hz|Hnz].
    + destruct (lseek (pr_fd pr) (pr_off pr)); [|done].
      unfold read_into. rewrite Hdev by done. rewrite Hb1. simpl.
      set (got := take (Z.to_nat BLKID_SB_BUFSIZ)
                    (slice (pr_off pr) BLKID_SB_BUFSIZ img)).
      assert (Hgot : got = slice (pr_off pr) BLKID_SB_BUFSIZ img).
      { subst got. unfold slice. by rewrite take_take, Nat.min_id. }
      destruct (Z.ltb_spec (Z.of_nat (length got)) 0); [lia|].
      destruct (Z.gtb_spec (off + len) (Z.of_nat (length got))); [done|].
      intros [= <- <-]. unfold cache_coherent. simpl.
      rewrite Ho1, Hbuf1, Hbl1, Hbo1.
      split; [|split; [|done]].
      * unfold memcpy. rewrite slice_app_l by lia.
        clearbody got. subst got. apply slice_slice; lia.
      * rewrite Nat2Z.id, memcpy_take. clearbody got. subst got.
        symmetry. apply slice_own_length.
    + rewrite Hl1.
      destruct (Z.gtb_spec (off + len) (pr_sbbuf_len pr)); [done|].
      intros [= <- <-]. unfold cache_coherent.
      rewrite Ho1, Hl1, Hbuf1, Hbl1, Hbo1, (Hsame Hnz).
      rewrite (Hsame Hnz) in Hb1. rewrite Hb1 in *. simpl in *.
      split; [|done].
      rewrite <- (slice_of_take off len (Z.to_nat (pr_sbbuf_len pr)) b1)
        by lia.
      rewrite Hcs. apply slice_slice; lia.
  - (* the general tier *)
    assert (Hens : forall nb p1,
               buf_ensure pr len = Some (nb, p1) ->
               pr_off p1 = pr_off pr /\ pr_fd p1 = pr_fd pr
               /\ pr_sbbuf p1 = pr_sbbuf pr
               /\ pr_sbbuf_len p1 = pr_sbbuf_len pr
               /\ (nb = false -> p1 = pr)).
    { intros nb p1. unfold buf_ensure.
      destruct (len >? pr_buf_max pr).
      - destruct (realloc (pr_buf pr) len); simpl; [|done].
        by intros [= <- <-].
      - by intros [= <- <-]. }
    destruct (buf_ensure pr len) as [[nb p1]|]; [|done].
    destruct (Hens nb p1 eq_refl) as (Ho1 & Hfd1 & Hs1 & Hsl1 & Hold).
    clear Hens.
    destruct (nb || (off <? pr_buf_off p1)
              || (off + len >? pr_buf_off p1 + pr_buf_len p1)) eqn:Hmiss.
    + destruct (blkid_llseek (pr_fd p1) (pr_off p1 + off)); [|done].
      destruct (pr_buf p1) as [b|]; [|done].
      unfold read_into. rewrite Ho1, Hdev by lia.
      set (got := take (Z.to_nat len) (slice (pr_off pr + off) len img)).
      assert (Hgot : got = slice (pr_off pr + off) len img).
      { subst got. unfold slice. by rewrite take_take, Nat.min_id. }
      destruct (Z.eqb_spec (Z.of_nat (length got)) len) as [Hfull|];
        simpl; [|done].
      intros [= <- <-]. unfold cache_coherent. simpl.
      rewrite Ho1, Hs1, Hsl1. clearbody got.
      assert (Htake : take (Z.to_nat len) (memcpy b got) = got).
      { replace (Z.to_nat len) with (length got) by lia.
        apply memcpy_take. }
      split; [|split; [done|]].
      * replace (if off =? 0 then 0 else off - off) with 0
          by (destruct (off =? 0); lia).
        change (slice 0 len (memcpy b got))
          with (take (Z.to_nat len) (memcpy b got)).
        by rewrite Htake.
      * by rewrite Htake.
    + apply orb_false_iff in Hmiss as [Hmiss Hhi].
      apply orb_false_iff in Hmiss as [-> Hlo].
      rewrite (Hold eq_refl) in *.
      apply Z.ltb_ge in Hlo. rewrite Z.gtb_ltb in Hhi.
      apply Z.ltb_ge in Hhi.
      intros [= <- <-]. split; [|done].
      replace (if off =? 0 then 0 else off - pr_buf_off pr)
        with (off - pr_buf_off pr) by (destruct (Z.eqb_spec off 0); lia).
      rewrite <- (slice_of_take _ _ (Z.to_nat (pr_buf_len pr))) by lia.
      rewrite Hcb. rewrite slice_slice by lia. f_equal. lia.
Qed.

(** ** UTF-8 read back *)

Lemma lor_low (a hi k x : Z) :
  a = hi * 2 ^ k -> 0 <= k -> 0 <= x < 2 ^ k -> Z.lor a x = a + x.
Proof.
  intros -> Hk Hx.
  assert (Hland : Z.land (hi * 2 ^ k) x = 0).
  { apply Z.bits_inj'. intros n Hn. rewrite Z.land_spec, Z.bits_0.
    destruct (Z.lt_ge_cases n k).
    - by rewrite Z.mul_pow2_bits_low.
    - destruct (Z.eq_dec x 0) as [->|]; [by rewrite Z.bits_0, andb_false_r|].
      rewrite (Z.bits_above_log2 x n), andb_false_r; [done|lia|].
      apply Z.log2_lt_pow2; [lia|].
      apply Z.lt_le_trans with (2 ^ k); [lia|].
      apply Z.pow_le_mono_r; lia. }
  rewrite <- Z.lxor_lor by done. symmetry. by apply Z.add_nocarry_lxor.
Qed.

Lemma land_low (a m k : Z) :
  m = 2 ^ k - 1 -> 0 <= k -> Z.land a m = a mod 2 ^ k.
Proof.
  intros -> Hk. rewrite <- Z.land_ones by done. f_equal.
  rewrite Z.ones_equiv. lia.
Qed.

(** A leading or continuation byte: [tag] marks the high bits, [x] fills
    the [k] low ones. *)
Lemma utf8_byte (tag hi k x : Z) :
  tag = hi * 2 ^ k -> 0 <= k -> 0 <= tag -> tag + 2 ^ k <= 2 ^ 8 ->
  0 <= x < 2 ^ k ->
  Z.lor tag x mod 2 ^ 8 = tag + x /\ Z.land (tag + x) (2 ^ k - 1) = x.
Proof.
  intros Htag Hk Ht Hfit Hx.
  rewrite (lor_low tag hi k x) by done.
  split; [apply Z.mod_small; lia|].
  rewrite (land_low _ _ k) by done.
  subst tag. rewrite Z.add_comm, Z_mod_plus_full. apply Z.mod_small. lia.
Qed.

Lemma decode_two (c : Z) (rest : list Z) :
  128 <= c < 2048 ->
  utf8_decode (Z.lor 192 (Z.shiftr c 6) mod 2 ^ 8
               :: Z.lor 128 (Z.land c 63) mod 2 ^ 8 :: rest)
  = c :: utf8_decode rest.
Proof.
  intros Hc.
  rewrite (land_low c 63 6), (Z.shiftr_div_pow2 c 6) by (try done; lia).
  assert (Hy : 2 <= c / 2 ^ 6 < 2 ^ 5) by (Z.div_mod_to_equations; lia).
  assert (Hx : 0 <= c mod 2 ^ 6 < 2 ^ 6) by (apply Z.mod_pos_bound; lia).
  destruct (utf8_byte 192 6 5 (c / 2 ^ 6)) as [-> H0]; [done|lia..|].
  destruct (utf8_byte 128 2 6 (c mod 2 ^ 6)) as [-> H1]; [done|lia..|].
  cbn [utf8_decode].
  destruct (Z.ltb_spec (192 + c / 2 ^ 6) 128); [lia|].
  destruct (Z.ltb_spec (192 + c / 2 ^ 6) 224); [|lia].
  change 31 with (2 ^ 5 - 1). change 63 with (2 ^ 6 - 1).
  rewrite H0, H1, Z.shiftl_mul_pow2 by lia.
  rewrite (lor_low _ (c / 2 ^ 6) 6) by (try done; lia).
  f_equal. Z.div_mod_to_equations. lia.
Qed.

Lemma decode_three (c : Z) (rest : list Z) :
  2048 <= c < 65536 ->
  utf8_decode (Z.lor 224 (Z.shiftr c 12) mod 2 ^ 8
               :: Z.lor 128 (Z.land (Z.shiftr c 6) 63) mod 2 ^ 8
               :: Z.lor 128 (Z.land c 63) mod 2 ^ 8 :: rest)
  = c :: utf8_decode rest.
Proof.
  intros Hc.
  rewrite (land_low c 63 6), (land_low _ 63 6), (Z.shiftr_div_pow2 c 6),
    (Z.shiftr_div_pow2 c 12) by (try done; lia).
  assert (Hz : 0 <= c / 2 ^ 12 < 2 ^ 4) by (Z.div_mod_to_equations; lia).
  assert (Hy : 0 <= (c / 2 ^ 6) mod 2 ^ 6 < 2 ^ 6)
    by (apply Z.mod_pos_bound; lia).
  assert (Hx : 0 <= c mod 2 ^ 6 < 2 ^ 6) by (apply Z.mod_pos_bound; lia).
  destruct (utf8_byte 224 14 4 (c / 2 ^ 12)) as [-> H0]; [done|lia..|].
  destruct (utf8_byte 128 2 6 ((c / 2 ^ 6) mod 2 ^ 6)) as [-> H1];
    [done|lia..|].
  destruct (utf8_byte 128 2 6 (c mod 2 ^ 6)) as [-> H2]; [done|lia..|].
  cbn [utf8_decode].
  destruct (Z.ltb_spec (224 + c / 2 ^ 12) 128); [lia|].
  destruct (Z.ltb_spec (224 + c / 2 ^ 12) 224); [lia|].
  change 15 with (2 ^ 4 - 1). change 63 with (2 ^ 6 - 1).
  rewrite H0, H1, H2, !Z.shiftl_mul_pow2 by lia.
  rewrite (lor_low ((c / 2 ^ 6) mod 2 ^ 6 * 2 ^ 6) ((c / 2 ^ 6) mod 2 ^ 6) 6)
    by (try done; lia).
  rewrite (lor_low _ (c / 2 ^ 12) 12)
    by (try done; Z.div_mod_to_equations; lia).
  f_equal. Z.div_mod_to_equations. lia.
Qed.

Lemma encode_loop_decodes (enc len : Z) (src : list Z) :
  forall j,
    exists bs,
      encode_loop enc len src j = bs ++ [0]
      /\ utf8_decode bs `prefix_of` before_nul (code_units enc src)
      /\ (j + 3 * (Z.of_nat (length src) / 2) < len ->
          utf8_decode bs = before_nul (code_units enc src)).
Proof.
  induction src as [|a|b0 b1 rest IH] using list_pair_ind; intros j.
  - by exists [].
  - by exists [].
  - cbn [encode_loop code_units before_nul].
    assert (Hl : Z.of_nat (length (b0 :: b1 :: rest)) / 2
                 = Z.of_nat (length rest) / 2 + 1).
    { cbn [length]. replace (Z.of_nat (S (S (length rest))))
        with (Z.of_nat (length rest) + 1 * 2) by lia.
      by rewrite Z.div_add. }
    rewrite Hl.
    assert (H0 : 0 <= Z.of_nat (length rest) / 2)
      by (apply Z.div_pos; lia).
    set (c := if enc =? BLKID_ENC_UTF16LE
              then Z.lor (Z.shiftl b1 8) b0 mod 2 ^ 16
              else Z.lor (Z.shiftl b0 8) b1 mod 2 ^ 16).
    assert (Hc : 0 <= c < 2 ^ 16)
      by (subst c; destruct (enc =? _); apply Z.mod_pos_bound; lia).
    clearbody c.
    destruct (Z.eqb_spec c 0); [by exists []|].
    destruct (Z.ltb_spec c 128).
    { destruct (Z.geb_spec (j + 1) len).
      { exists []. split; [done|]. split; [apply prefix_nil|lia]. }
      destruct (IH (j + 1)) as (bs & -> & Hpre & Hall).
      exists (c mod 2 ^ 8 :: bs). split; [done|].
      rewrite Z.mod_small by lia. cbn [utf8_decode].
      destruct (Z.ltb_spec c 128); [|lia].
      split; [by apply prefix_cons|].
      intros Hroom. f_equal. apply Hall. lia. }
    destruct (Z.ltb_spec c 2048).
    { destruct (Z.geb_spec (j + 2) len).
      { exists []. split; [done|]. split; [apply prefix_nil|lia]. }
      destruct (IH (j + 2)) as (bs & -> & Hpre & Hall).
      eexists (_ :: _ :: bs). split; [done|].
      rewrite decode_two by lia.
      split; [by apply prefix_cons|].
      intros Hroom. f_equal. apply Hall. lia. }
    destruct (Z.geb_spec (j + 3) len).
    { exists []. split; [done|]. split; [apply prefix_nil|lia]. }
    destruct (IH (j + 3)) as (bs & -> & Hpre & Hall).
    eexists (_ :: _ :: _ :: bs). split; [done|].
    rewrite decode_three by lia.
    split; [by apply prefix_cons|].
    intros Hroom. f_equal. apply Hall. lia.
Qed.

(** X29: what [encode_to_utf8] stores reads back as the source.  The bytes
    before the NUL decode, as UTF-8, to code units of the source in their
    order, from the first on and not beyond the first unit that is 0; and
    to all of these when the destination has room for three bytes for each
    unit and the NUL. *)
Theorem encode_to_utf8_round_trip (enc len : Z) (dest src : list Z) :
  exists (n : Z) (d : list Z),
    encode_to_utf8 enc dest len src = (n, d)
    /\ utf8_decode (take (Z.to_nat n) d)
       `prefix_of` before_nul (code_units enc src)
    /\ (3 * (Z.of_nat (length src) / 2) < len ->
        utf8_decode (take (Z.to_nat n) d)
        = before_nul (code_units enc src)).
Proof.
  unfold encode_to_utf8.
  destruct (encode_loop_decodes enc len src 0) as (bs & -> & Hpre & Hall).
  eexists _, _. split; [done|].
  rewrite length_app. simpl.
  replace (Z.to_nat (Z.of_nat (length bs + 1) - 1)) with (length bs) by lia.
  unfold memcpy. rewrite <- (assoc_L (++)), take_app_length.
  split; [done|]. intros Hroom. apply Hall. lia.
Qed.

(** ** Filter and dispatch together *)

(** The emitters leave the cursor and the filter alone. *)
Lemma set_value_idx (pr pr' : blkid_struct_probe) (name : option string)
    (data : list Z) (rc : Z) :
  blkid_probe_set_value pr name data = Ok (rc, pr') ->
  pr_idx pr' = pr_idx pr /\ pr_fltr pr' = pr_fltr pr.
Proof.
  unfold blkid_probe_set_value, blkid_probe_assign_value, deref, assign.
  repeat (case_match; simplify_eq /=; try done).
  all: by intros [= _ <-].
Qed.

Lemma set_usage_idx (pr pr' : blkid_struct_probe) (usage rc : Z) :
  blkid_probe_set_usage pr usage = Ok (rc, pr') ->
  pr_idx pr' = pr_idx pr /\ pr_fltr pr' = pr_fltr pr.
Proof. unfold blkid_probe_set_usage. apply set_value_idx. Qed.

(** A turn that ends in [return 0] leaves the cursor at its index, when the
    probing function does. *)
Lemma probe_body_cursor (id : blkid_idinfo) (i : Z)
    (pr pr' : blkid_struct_probe) :
  (forall f pr mag rc pr',
     id_probefunc id = Some f -> f pr mag = Ok (rc, pr') ->
     pr_idx pr' = pr_idx pr) ->
  probe_body id i pr = Ok (inr pr') -> pr_idx pr' = i.
Proof.
  intros Hid. unfold probe_body.
  set (p0 := set_idx i pr).
  assert (Hp0 : pr_idx p0 = i) by done. clearbody p0.
  destruct (match pr_fltr p0 with Some _ => _ | None => _ end)
    as [[|]|]; simpl; try done.
  assert (Hemit : forall p2 : blkid_struct_probe,
            pr_idx p2 = i ->
            (p ← (if bit_set (pr_probreq p2) BLKID_PROBREQ_TYPE
                  then snd <$> blkid_probe_set_value p2 (Some "TYPE"%string)
                                 (with_nul (bytes_of (id_name id)))
                  else Ok p2);
             p ← (if bit_set (pr_probreq p) BLKID_PROBREQ_USAGE
                  then snd <$> blkid_probe_set_usage p (id_usage id)
                  else Ok p);
             Ok (inr p))
            = Ok (inr pr' : blkid_struct_probe + blkid_struct_probe) ->
            pr_idx pr' = i).
  { intros p2 H2.
    destruct (bit_set (pr_probreq p2) BLKID_PROBREQ_TYPE); simpl.
    - destruct (blkid_probe_set_value p2 _ _) as [[rc p3]|] eqn:H3; simpl;
        [|done].
      apply set_value_idx in H3 as [H3 _].
      destruct (bit_set (pr_probreq p3) BLKID_PROBREQ_USAGE); simpl.
      + destruct (blkid_probe_set_usage p3 _) as [[rc' p4]|] eqn:H4; simpl;
          [|done].
        apply set_usage_idx in H4 as [H4 _]. intros [= <-]. congruence.
      + intros [= <-]. congruence.
    - destruct (bit_set (pr_probreq p2) BLKID_PROBREQ_USAGE); simpl.
      + destruct (blkid_probe_set_usage p2 _) as [[rc' p4]|] eqn:H4; simpl;
          [|done].
        apply set_usage_idx in H4 as [H4 _]. intros [= <-]. congruence.
      + intros [= <-]. congruence. }
  destruct (id_magics id) as [mags|]; simpl.
  - destruct (magic_loop p0 mags) as [[m p1]|] eqn:Hm; simpl; [|done].
    apply magic_loop_frame in Hm as (_ & _ & _ & Hidx).
    destruct m as [mag|]; simpl; [|done].
    destruct (id_probefunc id) as [f|] eqn:Hf; simpl.
    + destruct (f p1 (Some mag)) as [[rc p2]|] eqn:Hcall; simpl; [|done].
      destruct (Z.eqb_spec rc 0) as [->|Hrc]; simpl; [|done].
      apply Hemit. rewrite (Hid f _ _ _ _ eq_refl Hcall). congruence.
    + apply Hemit. congruence.
  - destruct (id_probefunc id) as [f|] eqn:Hf; simpl.
    + destruct (f p0 None) as [[rc p2]|] eqn:Hcall; simpl; [|done].
      destruct (Z.eqb_spec rc 0) as [->|Hrc]; simpl; [|done].
      apply Hemit. rewrite (Hid f _ _ _ _ eq_refl Hcall). congruence.
    + by apply Hemit.
Qed.

Lemma probe_body_enabled (id : blkid_idinfo) (i : Z)
    (pr pr' : blkid_struct_probe) (f : list Z) :
  probe_body id i pr = Ok (inr pr') -> pr_fltr pr = Some f ->
  ~ disabled f i.
Proof.
  unfold probe_body. simpl. intros Hrun Hf (w & Hw & Hne).
  rewrite Hf, Hw in Hrun. simpl in Hrun.
  destruct (Z.eqb_spec w 0); [done|]. done.
Qed.

Lemma probe_loop_match_enabled (f : list Z) (ids : list blkid_idinfo) :
  registry_keeps_filter ids ->
  forall (i : Z) (pr pr' : blkid_struct_probe),
    pr_fltr pr = Some f -> probe_loop ids i pr = Ok (0, pr') ->
    exists (k : nat) (id : blkid_idinfo) (p0 : blkid_struct_probe),
      ids !! k = Some id /\ pr_fltr p0 = Some f
      /\ probe_body id (i + Z.of_nat k) p0 = Ok (inr pr')
      /\ ~ disabled f (i + Z.of_nat k).
Proof.
  induction 1 as [|id ids Hid _ IH]; intros i pr pr' Hf; simpl; [done|].
  destruct (probe_body id i pr) as [[p1|p1]|] eqn:Hb; simpl; [| |done].
  - intros Hloop.
    destruct (IH (i + 1) p1 pr') as (k & id' & p0 & Hk & Hf0 & Hbody & Hen);
      [|done|].
    { by rewrite (probe_body_keeps_filter _ _ _ _ Hid Hb). }
    exists (S k), id', p0. split; [done|]. split; [done|].
    by replace (i + Z.of_nat (S k)) with (i + 1 + Z.of_nat k) by lia.
  - intros [= <-]. exists 0%nat, id, pr. split; [done|]. split; [done|].
    rewrite Z.add_0_r. split; [done|]. by eapply probe_body_enabled.
Qed.

Lemma do_probe_match_enabled (idinfos : list blkid_idinfo)
    (pr pr' : blkid_struct_probe) (f : list Z) :
  registry_keeps_filter idinfos -> pr_fltr pr = Some f ->
  blkid_do_probe idinfos (Some pr) = Ok (0, Some pr') ->
  exists (i : nat) (id : blkid_idinfo) (p0 : blkid_struct_probe),
    idinfos !! i = Some id /\ pr_fltr p0 = Some f
    /\ probe_body id (Z.of_nat i) p0 = Ok (inr pr')
    /\ ~ disabled f (Z.of_nat i)
    /\ (registry_keeps_cursor idinfos -> pr_idx pr' = Z.of_nat i).
Proof.
  intros Hkeep Hf. unfold blkid_do_probe, overwrite. simpl.
  change (drop (Z.to_nat 0) idinfos) with idinfos.
  destruct (probe_loop idinfos 0 (blkid_probe_reset_vals pr))
    as [[rc p]|] eqn:Hloop; simpl; [|done].
  intros [= -> ->].
  destruct (probe_loop_match_enabled f idinfos Hkeep 0
              (blkid_probe_reset_vals pr) pr' Hf Hloop)
    as (k & id & p0 & Hk & Hf0 & Hbody & Hen).
  rewrite Z.add_0_l in Hbody, Hen.
  exists k, id, p0. repeat (split; [done|]).
  intros Hcur. eapply probe_body_cursor; [|done].
  unfold registry_keeps_cursor in Hcur. rewrite Forall_lookup in Hcur.
  exact (Hcur k id Hk).
Qed.
(** X30: filter and dispatch together.  After a filter call that returned
    0, a [blkid_do_probe] that returns 0 has stopped at a prober the filter
    call selected, when the probing functions leave the filter alone: the
    session it leaves is the one in which the turn of the loop for that
    prober, entered with the filter the filter call left, ended in
    [return 0], and its cursor is the index of that prober when the probing
    functions leave the cursor alone.  For [blkid_probe_filter_types] it is
    a prober whose name is in [names] with [BLKID_FLTR_ONLYIN], and one
    whose name is not in [names] with [BLKID_FLTR_NOTIN] alone; for
    [blkid_probe_filter_usage] a prober whose usage meets [usage] only
    without [BLKID_FLTR_NOTIN], and any other only without
    [BLKID_FLTR_ONLYIN]. *)
Theorem filtered_probe_matches_selection (idinfos : list blkid_idinfo)
    (pr pr1 pr' : blkid_struct_probe) (flag : Z) :
  registry_keeps_filter idinfos ->
  (pr_fltr pr = None -> is_Some (malloc (BLKID_FLTR_SIZE idinfos * 8))) ->
  blkid_do_probe idinfos (Some pr1) = Ok (0, Some pr') ->
  (forall names,
     blkid_probe_filter_types idinfos (Some pr) flag (Some names)
     = Ok (0, Some pr1) ->
     exists (i : nat) (id : blkid_idinfo) (p0 : blkid_struct_probe),
       idinfos !! i = Some id
       /\ pr_fltr p0 = pr_fltr pr1
       /\ probe_body id (Z.of_nat i) p0 = Ok (inr pr')
       /\ (registry_keeps_cursor idinfos -> pr_idx pr' = Z.of_nat i)
       /\ if bit_set flag BLKID_FLTR_ONLYIN then id_name id ∈ names
          else bit_set flag BLKID_FLTR_NOTIN = true -> id_name id ∉ names)
  /\ (forall usage,
        usage <> 0 ->
        blkid_probe_filter_usage idinfos (Some pr) flag usage
        = Ok (0, Some pr1) ->
        exists (i : nat) (id : blkid_idinfo) (p0 : blkid_struct_probe),
          idinfos !! i = Some id
          /\ pr_fltr p0 = pr_fltr pr1
          /\ probe_body id (Z.of_nat i) p0 = Ok (inr pr')
          /\ (registry_keeps_cursor idinfos -> pr_idx pr' = Z.of_nat i)
          /\ if bit_set (id_usage id) usage
             then bit_set flag BLKID_FLTR_NOTIN = false
             else bit_set flag BLKID_FLTR_ONLYIN = false).
Proof.
  intros Hkeep Hm Hprobe. split.
  - intros names Hcall.
    unfold blkid_probe_filter_types in Hcall.
    destruct (fltr_prepare_zero idinfos pr Hm) as [Hz Hrest].
    rewrite Hz in Hcall.
    destruct (filter_types_loop_selects idinfos flag names)
      as (f & Hl & _ & Hsel).
    rewrite Hl in Hcall. simpl in Hcall. rewrite Hrest in Hcall.
    injection Hcall as <-.
    destruct (do_probe_match_enabled idinfos
                (set_idx 0 (set_fltr (Some f) pr)) pr' f Hkeep eq_refl Hprobe)
      as (i & id & p0 & Hid & Hf0 & Hbody & Hen & Hcur).
    exists i, id, p0. do 4 (split; [done|]).
    rewrite (Hsel i id Hid) in Hen.
    destruct (bit_set flag BLKID_FLTR_ONLYIN).
    + by destruct (decide (id_name id ∈ names)).
    + intros Hnot Hin. by apply Hen.
  - intros usage Hu Hcall.
    unfold blkid_probe_filter_usage in Hcall.
    destruct (Z.eqb_spec usage 0); [done|].
    destruct (fltr_prepare_zero idinfos pr Hm) as [Hz Hrest].
    rewrite Hz in Hcall.
    destruct (filter_usage_loop_selects idinfos flag usage)
      as (f & Hl & _ & Hsel).
    rewrite Hl in Hcall. simpl in Hcall. rewrite Hrest in Hcall.
    injection Hcall as <-.
    destruct (do_probe_match_enabled idinfos
                (set_idx 0 (set_fltr (Some f) pr)) pr' f Hkeep eq_refl Hprobe)
      as (i & id & p0 & Hid & Hf0 & Hbody & Hen & Hcur).
    exists i, id, p0. do 4 (split; [done|]).
    rewrite (Hsel i id Hid) in Hen.
    destruct (bit_set (id_usage id) usage).
    + by destruct (bit_set flag BLKID_FLTR_NOTIN).
    + by destruct (bit_set flag BLKID_FLTR_ONLYIN).
Qed.

End Properties.

(** ** Concrete sessions *)

Lemma invert_filter_needs_a_filter_witness :
  pr_fltr (set_idx 2 fresh_probe) = None
  /\ blkid_probe_invert_filter cd_registry (Some (set_idx 2 fresh_probe))
     = (-1, Some (set_idx 2 fresh_probe)).
Proof.
  split; [reflexivity|].
  apply (invert_filter_needs_a_filter cd_registry (set_idx 2 fresh_probe)).
  reflexivity.
Defined.

Lemma zero_uuid_emits_nothing_witness :
  Forall (fun b => b = 0) (replicate 16 0)
  /\ @blkid_probe_set_uuid_as spec_consts (set_probreq 24 fresh_probe)
       (replicate 16 0) (Some "EXT_JOURNAL"%string)
     = Ok (0, set_probreq 24 fresh_probe).
Proof.
  assert (H : Forall (fun b => b = 0) (replicate 16 0))
    by (repeat constructor).
  split; [exact H|].
  exact (proj1 (@zero_uuid_emits_nothing spec_consts (image_sys [])
                  (set_probreq 24 fresh_probe) (replicate 16 0)
                  (Some "EXT_JOURNAL"%string) "%s"%string [] H)).
Defined.

Lemma set_uuid_as_full_store_faults_witness :
  @BLKID_PROBVAL_NVALS spec_consts <= pr_nvals full_probe
  /\ uuid_is_empty (take 16 uuid_1_16) = false
  /\ @blkid_probe_set_uuid_as spec_consts full_probe uuid_1_16
       (Some "EXT_JOURNAL"%string) = Fault.
Proof.
  assert (H1 : @BLKID_PROBVAL_NVALS spec_consts <= pr_nvals full_probe)
    by (vm_compute; discriminate).
  assert (H2 : uuid_is_empty (take 16 uuid_1_16) = false) by reflexivity.
  split; [exact H1|]. split; [exact H2|].
  exact (@set_uuid_as_full_store_faults spec_consts full_probe uuid_1_16
           "EXT_JOURNAL"%string H1 H2).
Defined.


(** C2 as stated fails: the read at the origin of a 256-byte device
    delivers 256 bytes, and [blkid_probe_set_device] returns -1. *)
Lemma bind_256_byte_device_fails :
  ~ @bind_needs_one_byte spec_consts short_sys fresh_probe 3 0 0.
Proof.
  intros H. specialize (H (replicate 256 65) eq_refl eq_refl).
  assert (Hlen : (1 <= length (replicate 256 65))%nat)
    by (vm_compute; repeat constructor).
  specialize (H Hlen). vm_compute in H. discriminate.
Qed.

Lemma set_device_needs_512_bytes_witness :
  512 <= @BLKID_SB_BUFSIZ spec_consts
  /\ ((@blkid_probe_set_device spec_consts short_sys (Some fresh_probe)
         3 0 0).1 = 0
      \/ (@blkid_probe_set_device spec_consts short_sys (Some fresh_probe)
            3 0 0).1 = -1).
Proof.
  assert (H : 512 <= @BLKID_SB_BUFSIZ spec_consts)
    by (vm_compute; discriminate).
  split; [exact H|].
  exact (proj1 (@set_device_needs_512_bytes spec_consts short_sys
                  fresh_probe 3 0 0 H)).
Defined.

(** ** Calls in a row on the CD image *)

Opaque cd_image cd_bound cd_matched cd_probe.

Lemma returned_eq (r : outcome (Z * option blkid_struct_probe)) (rc : Z)
    (pr : option blkid_struct_probe) :
  returned r rc pr = true -> r = Ok (rc, pr).
Proof.
  destruct r as [[rc' pr']|]; simpl; [|done].
  intros [H1 H2]%andb_prop.
  apply bool_decide_eq_true in H1, H2. by subst.
Qed.

Lemma cd_first_call : cd_probe cd_bound = Ok (0, cd_matched).
Proof. apply returned_eq. vm_compute. reflexivity. Qed.

Lemma cd_next_call : cd_probe cd_matched = Ok (0, cd_matched).
Proof. apply returned_eq. vm_compute. reflexivity. Qed.

Lemma cd_probe_times_S (n : nat) (pr : option blkid_struct_probe) :
  cd_probe_times (S n) pr = cd_probe_times n pr ≫= λ r, cd_probe r.2.
Proof. reflexivity. Qed.

Lemma outcome_bind_Ok {A B : Type} (a : A) (k : A -> outcome B) :
  Ok a ≫= k = k a.
Proof. reflexivity. Qed.

Lemma cd_every_call (n : nat) :
  cd_probe_times (S n) cd_bound = Ok (0, cd_matched).
Proof.
  induction n as [|n IH].
  - rewrite cd_probe_times_S.
    change (cd_probe_times 0 cd_bound) with (Ok (0, cd_bound)).
    rewrite outcome_bind_Ok. apply cd_first_call.
  - rewrite cd_probe_times_S, IH, outcome_bind_Ok. apply cd_next_call.
Qed.

(** C1 fails on the code: on the CD image, whose FAT and ISO 9660
    signatures sit at indices 1 and 2 of the registry, the first call
    matches [vfat] with the cursor at 1, and so does the second and every
    later one; no call reaches index 2 and none returns 1. *)
Theorem do_probe_restarts_at_zero :
  seen (cd_probe_times 1 cd_bound)
  = Some (0, 1, [(Some "TYPE"%string, bytes_of "vfat" ++ [0])])
  /\ seen (cd_probe_times 2 cd_bound)
     = Some (0, 1, [(Some "TYPE"%string, bytes_of "vfat" ++ [0])])
  /\ forall n : nat,
       seen (cd_probe_times (S n) cd_bound)
       = Some (0, 1, [(Some "TYPE"%string, bytes_of "vfat" ++ [0])]).
Proof.
  assert (H : forall n : nat,
             seen (cd_probe_times (S n) cd_bound)
             = Some (0, 1, [(Some "TYPE"%string, bytes_of "vfat" ++ [0])])).
  { intros n. rewrite cd_every_call. vm_compute. reflexivity. }
  split; [exact (H 0%nat)|]. split; [exact (H 1%nat)|]. exact H.
Qed.

(** ** Tags left by a prober that rejects *)

(** C9 as stated fails: the one prober of the registry emits SEC_TYPE and
    rejects, the call returns 1, and the tag is still counted. *)
Lemma rejected_prober_leaks_tags :
  ~ @no_tags_unless_matched spec_consts (image_sys []) leaky_registry
      (Some fresh_probe).
Proof.
  intros H.
  assert (E : exists pr',
             @blkid_do_probe spec_consts (image_sys []) leaky_registry
               (Some fresh_probe) = Ok (1, Some pr')
             /\ pr_nvals pr' = 1).
  { vm_compute. eexists. split; reflexivity. }
  destruct E as (pr' & E & Hn).
  specialize (H 1 (Some pr') E (or_introl eq_refl)). simpl in H. lia.
Qed.

Lemma exhausted_probe_has_no_tags_witness :
  registry_rejects_cleanly swap_registry
  /\ forall (pr : blkid_struct_probe) (rc : Z)
        (pr' : option blkid_struct_probe),
       @blkid_do_probe spec_consts (image_sys []) swap_registry (Some pr)
       = Ok (rc, pr') ->
       (rc = 0 \/ rc = 1)
       /\ (rc = 1 -> blkid_probe_numof_values pr' = 0).
Proof.
  assert (H : registry_rejects_cleanly swap_registry).
  { repeat constructor. intros f [= <-] pr mag rc pr' [= <- <-] _.
    reflexivity. }
  split; [exact H|].
  exact (proj2 (@exhausted_probe_has_no_tags spec_consts (image_sys [])
                  swap_registry H)).
Defined.

(** ** The emitters at concrete inputs *)

Lemma fresh_vals_ok (q : Z) : @vals_ok spec_consts (set_probreq q fresh_probe).
Proof.
  unfold vals_ok. simpl. split; [lia|]. split; [reflexivity|].
  repeat constructor.
Qed.

Lemma uuid_text_spec_uuid :
  uuid_text spec_uuid = bytes_of "01234567-89ab-cdef-fedc-ba9876543210".
Proof. reflexivity. Qed.

Lemma sprintf_uuid_keeps_upper_case_witness :
  existsb is_upper_hex upper_uuid = true
  /\ exists pr',
       @blkid_probe_sprintf_uuid spec_consts (image_sys []) uuid_session
         uuid_1_16 "%s" [va_str (Some upper_uuid)] = Ok (0, pr')
       /\ pr_nvals pr' = pr_nvals uuid_session + 1
       /\ tag_of pr' (pr_nvals uuid_session)
          = Some (Some "UUID"%string, upper_uuid).
Proof.
  split; [reflexivity|].
  apply (@sprintf_uuid_keeps_upper_case spec_consts (image_sys [])
           uuid_session uuid_1_16 upper_uuid []).
  - unfold vals_ok. simpl. split; [lia|]. split; [reflexivity|].
    repeat constructor.
  - simpl. lia.
  - reflexivity.
  - reflexivity.
  - reflexivity.
  - reflexivity.
  - discriminate.
  - repeat constructor; discriminate.
  - simpl. lia.
Defined.

(** C5 as stated fails: the request mask is empty, and a call with a name
    still appends a tag. *)
Lemma named_uuid_ignores_request_mask :
  ~ @named_uuid_is_gated spec_consts fresh_probe uuid_1_16 "EXT_JOURNAL".
Proof.
  intros H.
  destruct (H eq_refl eq_refl eq_refl) as (rc & pr' & E & Hn).
  assert (E2 : match @blkid_probe_set_uuid_as spec_consts fresh_probe
                       uuid_1_16 (Some "EXT_JOURNAL"%string) with
               | Ok (_, p) => pr_nvals p
               | Fault => -1
               end = 1) by (vm_compute; reflexivity).
  rewrite E in E2. rewrite Hn in E2. discriminate E2.
Qed.

Lemma set_uuid_as_named_is_not_gated_witness :
  @vals_ok spec_consts fresh_probe
  /\ pr_nvals fresh_probe < @BLKID_PROBVAL_NVALS spec_consts
  /\ 37 <= @BLKID_PROBVAL_BUFSIZ spec_consts
  /\ length uuid_1_16 = 16%nat
  /\ uuid_is_empty uuid_1_16 = false
  /\ exists pr',
       @blkid_probe_set_uuid_as spec_consts fresh_probe uuid_1_16
         (Some "EXT_JOURNAL"%string) = Ok (0, pr')
       /\ pr_nvals pr' = pr_nvals fresh_probe + 1
       /\ tag_of pr' (pr_nvals fresh_probe)
          = Some (Some "EXT_JOURNAL"%string, uuid_text uuid_1_16 ++ [0])
       /\ (forall i, i <> Z.to_nat (pr_nvals fresh_probe) ->
             pr_vals pr' !! i = pr_vals fresh_probe !! i)
       /\ pr_probreq pr' = pr_probreq fresh_probe.
Proof.
  assert (H1 : @vals_ok spec_consts fresh_probe).
  { unfold vals_ok. simpl. split; [lia|]. split; [reflexivity|].
    repeat constructor. }
  assert (H2 : pr_nvals fresh_probe < @BLKID_PROBVAL_NVALS spec_consts)
    by (simpl; lia).
  assert (H3 : 37 <= @BLKID_PROBVAL_BUFSIZ spec_consts) by (simpl; lia).
  assert (H4 : length uuid_1_16 = 16%nat) by reflexivity.
  assert (H5 : uuid_is_empty uuid_1_16 = false) by reflexivity.
  repeat (split; [assumption|]).
  exact (@set_uuid_as_named_is_not_gated spec_consts fresh_probe uuid_1_16
           "EXT_JOURNAL"%string H1 H2 H3 H4 H5).
Defined.

(** The label of the spec: LABEL_RAW keeps the eight bytes, LABEL is
    [ROOT] and its NUL. *)
Lemma set_label_root :
  (fun r => match r with
            | Ok (rc, pr) => Some (rc, tags_of pr)
            | Fault => None
            end)
    (@blkid_probe_set_label spec_consts label_session root_label)
  = Some (0, [(Some "LABEL_RAW"%string, root_label);
              (Some "LABEL"%string, bytes_of "ROOT" ++ [0])]).
Proof. vm_compute. reflexivity. Qed.

(** With LABEL_RAW alone requested, a label of 257 bytes is cut to 256. *)
Lemma set_label_raw_is_cut :
  (fun r => match r with
            | Ok (rc, pr) => Some (rc, tags_of pr)
            | Fault => None
            end)
    (@blkid_probe_set_label spec_consts (set_probreq 4 fresh_probe)
       long_label)
  = Some (0, [(Some "LABEL_RAW"%string, replicate 256 65)]).
Proof. vm_compute. reflexivity. Qed.



Lemma rstrip_root_label :
  rstrip (before_nul root_label) = bytes_of "ROOT".
Proof. reflexivity. Qed.

(** ** The cache and the tag store at concrete inputs *)

Lemma get_buffer_again_witness :
  exists (d : list Z) (pr' : blkid_struct_probe),
    0 <= 0 /\ 0 < 512
    /\ @blkid_probe_get_buffer spec_consts (image_sys cd_image)
         fresh_probe 0 512 = (Some d, pr')
    /\ @blkid_probe_get_buffer spec_consts (unseekable_sys [])
         pr' 0 512 = (Some d, pr').
Proof.
  destruct (@blkid_probe_get_buffer spec_consts (image_sys cd_image)
              fresh_probe 0 512) as [[d|] pr'] eqn:H.
  - exists d, pr'.
    assert (H1 : 0 <= 0) by lia.
    assert (H2 : 0 < 512) by lia.
    split; [exact H1|]. split; [exact H2|]. split; [reflexivity|].
    exact (@get_buffer_again spec_consts (image_sys cd_image)
             (unseekable_sys []) fresh_probe pr' 0 512 d H1 H2 H).
  - exfalso.
    assert (Hn : (@blkid_probe_get_buffer spec_consts (image_sys cd_image)
                    fresh_probe 0 512).1 <> None)
      by (vm_compute; discriminate).
    rewrite H in Hn. by apply Hn.
Defined.

Lemma get_buffer_first_fill_witness :
  exists (d : list Z) (pr' : blkid_struct_probe),
    pr_sbbuf_len fresh_probe = 0 /\ 0 <= 3 /\ 0 < 8
    /\ 3 + 8 <= @BLKID_SB_BUFSIZ spec_consts
    /\ @blkid_probe_get_buffer spec_consts (image_sys cd_image)
         fresh_probe 3 8 = (Some d, pr')
    /\ exists bs : list Z,
         @read (image_sys cd_image) 0 0 65536 = Some bs
         /\ d = slice 3 8 bs.
Proof.
  destruct (@blkid_probe_get_buffer spec_consts (image_sys cd_image)
              fresh_probe 3 8) as [[d|] pr'] eqn:H.
  - exists d, pr'.
    assert (H0 : pr_sbbuf_len fresh_probe = 0) by reflexivity.
    assert (H1 : 0 <= 3) by lia.
    assert (H2 : 0 < 8) by lia.
    assert (H3 : 3 + 8 <= @BLKID_SB_BUFSIZ spec_consts) by (simpl; lia).
    split; [exact H0|]. split; [exact H1|]. split; [exact H2|].
    split; [exact H3|]. split; [reflexivity|].
    destruct (@get_buffer_first_fill spec_consts (image_sys cd_image)
                fresh_probe pr' 3 8 d H0 H1 H2 H3 H)
      as (bs & _ & Hr & _ & Hd & _).
    exists bs. split; [exact Hr | exact Hd].
  - exfalso.
    assert (Hn : (@blkid_probe_get_buffer spec_consts (image_sys cd_image)
                    fresh_probe 3 8).1 <> None)
      by (vm_compute; discriminate).
    rewrite H in Hn. by apply Hn.
Defined.

Lemma set_device_effect_witness :
  exists (rc : Z) (pr' : blkid_struct_probe),
    512 <= @BLKID_SB_BUFSIZ spec_consts
    /\ @blkid_probe_set_device spec_consts (image_sys cd_image)
         (Some full_probe) 3 0 0 = (rc, Some pr')
    /\ pr_fd pr' = 3 /\ pr_off pr' = 0 /\ pr_nvals pr' = 0.
Proof.
  destruct (@blkid_probe_set_device spec_consts (image_sys cd_image)
              (Some full_probe) 3 0 0) as [rc [pr'|]] eqn:H.
  - exists rc, pr'.
    assert (H0 : 512 <= @BLKID_SB_BUFSIZ spec_consts)
      by (vm_compute; discriminate).
    split; [exact H0|]. split; [reflexivity|].
    pose proof (@set_device_effect spec_consts (image_sys cd_image)
                  full_probe pr' 3 0 0 rc H0) as Heff.
    specialize (Heff H).
    split; [exact (proj1 Heff)|].
    split; [exact (proj1 (proj2 Heff))|].
    exact (proj1 (proj2 (proj2 Heff))).
  - exfalso.
    assert (Hn : from_option (fun _ => true) false
                   (@blkid_probe_set_device spec_consts (image_sys cd_image)
                      (Some full_probe) 3 0 0).2 = true)
      by (vm_compute; reflexivity).
    rewrite H in Hn. discriminate Hn.
Defined.

Lemma tagged_vals_ok : @vals_ok spec_consts tagged_probe.
Proof.
  unfold vals_ok. split; [vm_compute; split; discriminate|].
  split; [reflexivity|].
  apply Forall_forall. intros v Hv.
  vm_compute in Hv.
  repeat (apply elem_of_cons in Hv as [->|Hv]; [reflexivity|]).
  by apply elem_of_nil in Hv.
Qed.

Lemma get_value_bounds_witness :
  @vals_ok spec_consts tagged_probe
  /\ exists v : blkid_prval,
       pr_vals tagged_probe !! Z.to_nat 0 = Some v
       /\ blkid_probe_get_value (Some tagged_probe) 0
          = Some (v_name v, v_data v, v_len v)
       /\ v_name v = Some "TYPE"%string /\ v_len v = 5.
Proof.
  assert (H : @vals_ok spec_consts tagged_probe) by exact tagged_vals_ok.
  split; [exact H|].
  assert (Hr : 0 <= 0 < pr_nvals tagged_probe)
    by (vm_compute; split; [discriminate | reflexivity]).
  destruct (proj2 (proj2 (@get_value_bounds spec_consts tagged_probe 0 H)) Hr)
    as (v & Hv & Hget).
  exists v. split; [exact Hv|]. split; [exact Hget|].
  vm_compute in Hv. injection Hv as <-. split; reflexivity.
Defined.

Lemma lookup_value_first_witness :
  exists v : blkid_prval,
    (0 < Z.to_nat (pr_nvals tagged_probe))%nat
    /\ pr_vals tagged_probe !! 0%nat = Some v
    /\ v_name v = Some "TYPE"%string
    /\ (forall (j : nat) (w : blkid_prval),
          (j < 0)%nat -> pr_vals tagged_probe !! j = Some w ->
          v_name w <> Some "TYPE"%string)
    /\ blkid_probe_lookup_value (Some tagged_probe) (Some "TYPE"%string)
       = Some (v_data v, v_len v)
    /\ blkid_probe_has_value (Some tagged_probe) (Some "TYPE"%string) = 1.
Proof.
  destruct (pr_vals tagged_probe !! 0%nat) as [v|] eqn:Hv; [|discriminate].
  exists v.
  assert (H1 : (0 < Z.to_nat (pr_nvals tagged_probe))%nat)
    by (vm_compute; lia).
  assert (H2 : v_name v = Some "TYPE"%string)
    by (vm_compute in Hv; injection Hv as <-; reflexivity).
  assert (H3 : forall (j : nat) (w : blkid_prval),
             (j < 0)%nat -> pr_vals tagged_probe !! j = Some w ->
             v_name w <> Some "TYPE"%string) by (intros j w Hj; lia).
  split; [exact H1|]. split; [reflexivity|]. split; [exact H2|].
  split; [exact H3|].
  exact (@lookup_value_first tagged_probe "TYPE" 0 v H1 Hv H2 H3).
Defined.

Lemma set_value_then_lookup_witness :
  @vals_ok spec_consts tagged_probe
  /\ pr_nvals tagged_probe < @BLKID_PROBVAL_NVALS spec_consts
  /\ exists (pr' : blkid_struct_probe) (d : list Z),
       @blkid_probe_set_value spec_consts tagged_probe
         (Some "USAGE"%string) (bytes_of "filesystem" ++ [0]) = Ok (0, pr')
       /\ blkid_probe_numof_values (Some pr') = 2
       /\ blkid_probe_lookup_value (Some pr') (Some "USAGE"%string)
          = Some (d, 11)
       /\ take 11 d = bytes_of "filesystem" ++ [0].
Proof.
  assert (H : @vals_ok spec_consts tagged_probe) by exact tagged_vals_ok.
  assert (H1 : pr_nvals tagged_probe < @BLKID_PROBVAL_NVALS spec_consts)
    by (vm_compute; reflexivity).
  assert (H2 : forall (j : nat) (w : blkid_prval),
             (j < Z.to_nat (pr_nvals tagged_probe))%nat ->
             pr_vals tagged_probe !! j = Some w ->
             v_name w <> Some "USAGE"%string).
  { intros j w Hj. change (Z.to_nat (pr_nvals tagged_probe)) with 1%nat in Hj.
    destruct j as [|j]; [|lia].
    intros Hw. vm_compute in Hw. injection Hw as <-. discriminate. }
  split; [exact H|]. split; [exact H1|].
  destruct (@set_value_then_lookup spec_consts tagged_probe "USAGE"
              (bytes_of "filesystem" ++ [0]) H H1 H2)
    as (pr' & d & Hs & Hn & Hl & Ht & _).
  exists pr', d. split; [exact Hs|]. split; [exact Hn|].
  split; [exact Hl | exact Ht].
Defined.

Lemma single_tag_emitters_keep_store_witness :
  exists (rc : Z) (pr' : blkid_struct_probe),
    @vals_ok spec_consts tagged_probe
    /\ @blkid_probe_set_value spec_consts tagged_probe
         (Some "USAGE"%string) (bytes_of "filesystem" ++ [0]) = Ok (rc, pr')
    /\ (rc = 0 \/ rc = -1) /\ @appended spec_consts 1 tagged_probe pr'.
Proof.
  destruct (@blkid_probe_set_value spec_consts tagged_probe
              (Some "USAGE"%string) (bytes_of "filesystem" ++ [0]))
    as [[rc pr']|] eqn:H.
  - exists rc, pr'.
    assert (H0 : @vals_ok spec_consts tagged_probe) by exact tagged_vals_ok.
    split; [exact H0|]. split; [reflexivity|].
    exact (proj1 (@single_tag_emitters_keep_store spec_consts
                    (image_sys []) tagged_probe pr' rc H0) _ _ H).
  - exfalso.
    assert (Hn : match @blkid_probe_set_value spec_consts tagged_probe
                         (Some "USAGE"%string) (bytes_of "filesystem" ++ [0])
                 with Ok _ => true | Fault => false end = true)
      by (vm_compute; reflexivity).
    rewrite H in Hn. discriminate Hn.
Defined.

Lemma label_emitters_keep_store_witness :
  exists (rc : Z) (pr' : blkid_struct_probe),
    @vals_ok spec_consts label_session
    /\ 0 < @BLKID_PROBVAL_BUFSIZ spec_consts
    /\ @blkid_probe_set_label spec_consts label_session root_label
       = Ok (rc, pr')
    /\ (rc = 0 \/ rc = -1) /\ @appended spec_consts 2 label_session pr'.
Proof.
  destruct (@blkid_probe_set_label spec_consts label_session root_label)
    as [[rc pr']|] eqn:H.
  - exists rc, pr'.
    assert (H0 : @vals_ok spec_consts label_session)
      by exact (fresh_vals_ok 6).
    assert (H1 : 0 < @BLKID_PROBVAL_BUFSIZ spec_consts)
      by (vm_compute; reflexivity).
    split; [exact H0|]. split; [exact H1|]. split; [reflexivity|].
    exact (proj1 (@label_emitters_keep_store spec_consts
                    label_session pr' rc H0 H1) _ H).
  - exfalso.
    assert (Hn : match @blkid_probe_set_label spec_consts label_session
                         root_label
                 with Ok _ => true | Fault => false end = true)
      by (vm_compute; reflexivity).
    rewrite H in Hn. discriminate Hn.
Defined.

Lemma uuid_emitters_keep_store_witness :
  exists (rc : Z) (pr' : blkid_struct_probe),
    @vals_ok spec_consts (set_probreq 24 fresh_probe)
    /\ @blkid_probe_set_uuid spec_consts (set_probreq 24 fresh_probe)
         spec_uuid = Ok (rc, pr')
    /\ (rc = 0 \/ rc = -1)
    /\ @appended spec_consts 2 (set_probreq 24 fresh_probe) pr'.
Proof.
  destruct (@blkid_probe_set_uuid spec_consts (set_probreq 24 fresh_probe)
              spec_uuid) as [[rc pr']|] eqn:H.
  - exists rc, pr'.
    assert (H0 : @vals_ok spec_consts (set_probreq 24 fresh_probe))
      by exact (fresh_vals_ok 24).
    split; [exact H0|]. split; [reflexivity|].
    exact (proj2 (proj2 (@uuid_emitters_keep_store spec_consts
                           (image_sys []) (set_probreq 24 fresh_probe)
                           pr' rc H0)) _ H).
  - exfalso.
    assert (Hn : match @blkid_probe_set_uuid spec_consts
                         (set_probreq 24 fresh_probe) spec_uuid
                 with Ok _ => true | Fault => false end = true)
      by (vm_compute; reflexivity).
    rewrite H in Hn. discriminate Hn.
Defined.

(** ** The formatter, the encoder and the UUID text at concrete inputs *)

Lemma vsprintf_value_unsigned_length_witness :
  @vals_ok spec_consts fresh_probe
  /\ pr_nvals fresh_probe < @BLKID_PROBVAL_NVALS spec_consts
  /\ 0 < @BLKID_PROBVAL_BUFSIZ spec_consts
  /\ (exists (pr' : blkid_struct_probe) (d : list Z),
        @blkid_probe_vsprintf_value spec_consts text_sys fresh_probe
          (Some "VERSION"%string) "%s"
          [va_str (Some (bytes_of "1.0" ++ [0]))] = Ok (0, pr')
        /\ blkid_probe_get_value (Some pr') 0
           = Some (Some "VERSION"%string, d, 4)
        /\ take 4 d = bytes_of "1.0" ++ [0])
  /\ (exists (pr' : blkid_struct_probe) (d : list Z),
        @vsnprintf text_sys "%ls" [va_str None] = None
        /\ @vsnprintf_failed text_sys "%ls" [va_str None] = (1%positive, [0])
        /\ @blkid_probe_vsprintf_value spec_consts text_sys fresh_probe
             (Some "VERSION"%string) "%ls" [va_str None] = Ok (0, pr')
        /\ blkid_probe_get_value (Some pr') 0
           = Some (Some "VERSION"%string, d, 0)
        /\ take 1 d = [0]).
Proof.
  assert (H1 : @vals_ok spec_consts fresh_probe) by exact (fresh_vals_ok 0).
  assert (H2 : pr_nvals fresh_probe < @BLKID_PROBVAL_NVALS spec_consts)
    by (vm_compute; reflexivity).
  assert (H3 : 0 < @BLKID_PROBVAL_BUFSIZ spec_consts)
    by (vm_compute; reflexivity).
  split; [exact H1|]. split; [exact H2|]. split; [exact H3|].
  split.
  - destruct (@vsprintf_value_unsigned_length spec_consts text_sys
                fresh_probe "VERSION" "%s"
                [va_str (Some (bytes_of "1.0" ++ [0]))]
                H1 H2 H3) as (x & _ & _ & _ & Htext).
    destruct (Htext (bytes_of "1.0") eq_refl)
      as (pr' & d & Hc & _ & Hg & _ & Ht).
    + discriminate.
    + vm_compute. reflexivity.
    + exists pr', d. split; [exact Hc|]. split; [exact Hg | exact Ht].
  - destruct (@vsprintf_value_unsigned_length spec_consts text_sys
                fresh_probe "VERSION" "%ls" [va_str None]
                H1 H2 H3) as (x & Hx & Hfail & _).
    destruct (Hfail 1%positive [0] eq_refl eq_refl)
      as (pr' & Hc & _ & Hg & Hz).
    + vm_compute. discriminate.
    + rewrite (Hz eq_refl) in Hg.
      eexists pr', _. split; [reflexivity|]. split; [reflexivity|].
      split; [exact Hc|]. split; [exact Hg|]. reflexivity.
Defined.

Lemma encode_to_utf8_c_string_witness :
  0 < 8 <= Z.of_nat (length (replicate 8 255))
  /\ exists (n : Z) (d : list Z),
       @encode_to_utf8 spec_consts 1 (replicate 8 255) 8 utf16_label
       = (n, d)
       /\ 0 <= n < 8 /\ strlen d = n /\ d !! Z.to_nat n = Some 0.
Proof.
  assert (H : 0 < 8 <= Z.of_nat (length (replicate 8 255)))
    by (vm_compute; split; [reflexivity | discriminate]).
  split; [exact H|].
  destruct (@encode_to_utf8_c_string spec_consts 1 8 (replicate 8 255)
              utf16_label H)
    as (n & d & Hc & Hn & _ & _ & _ & Hz & Hs & _).
  exists n, d. split; [exact Hc|]. split; [exact Hn|].
  split; [exact Hs | exact Hz].
Defined.

Lemma uuid_text_canonical_witness :
  length spec_uuid = 16%nat
  /\ Forall (fun b => 0 <= b < 256) spec_uuid
  /\ exists a b c d e : list Z,
       uuid_text spec_uuid
       = a ++ [45] ++ b ++ [45] ++ c ++ [45] ++ d ++ [45] ++ e
       /\ length a = 8%nat /\ length b = 4%nat /\ length c = 4%nat
       /\ length d = 4%nat /\ length e = 12%nat
       /\ Forall (fun c => 48 <= c <= 57 \/ 97 <= c <= 102)
                 (a ++ b ++ c ++ d ++ e).
Proof.
  assert (H1 : length spec_uuid = 16%nat) by reflexivity.
  assert (H2 : Forall (fun b => 0 <= b < 256) spec_uuid)
    by (repeat constructor; lia).
  split; [exact H1|]. split; [exact H2|].
  exact (proj1 (uuid_text_canonical spec_uuid spec_uuid H1 H2)).
Defined.

Lemma set_uuid_tags_witness :
  @vals_ok spec_consts (set_probreq 24 fresh_probe)
  /\ pr_nvals (set_probreq 24 fresh_probe) + 2
     <= @BLKID_PROBVAL_NVALS spec_consts
  /\ 37 <= @BLKID_PROBVAL_BUFSIZ spec_consts
  /\ length spec_uuid = 16%nat /\ uuid_is_empty spec_uuid = false
  /\ exists pr' : blkid_struct_probe,
       @blkid_probe_set_uuid spec_consts (set_probreq 24 fresh_probe)
         spec_uuid = Ok (0, pr')
       /\ tags_of pr'
          = [(Some "UUID_RAW"%string, spec_uuid);
             (Some "UUID"%string,
              bytes_of "01234567-89ab-cdef-fedc-ba9876543210" ++ [0])].
Proof.
  assert (H1 : @vals_ok spec_consts (set_probreq 24 fresh_probe))
    by exact (fresh_vals_ok 24).
  assert (H2 : pr_nvals (set_probreq 24 fresh_probe) + 2
               <= @BLKID_PROBVAL_NVALS spec_consts)
    by (vm_compute; discriminate).
  assert (H3 : 37 <= @BLKID_PROBVAL_BUFSIZ spec_consts)
    by (vm_compute; discriminate).
  assert (H4 : length spec_uuid = 16%nat) by reflexivity.
  assert (H5 : uuid_is_empty spec_uuid = false) by reflexivity.
  split; [exact H1|]. split; [exact H2|]. split; [exact H3|].
  split; [exact H4|]. split; [exact H5|].
  exact (@set_uuid_tags spec_consts (set_probreq 24 fresh_probe) spec_uuid
           H1 H2 H3 H4 H5).
Defined.

(** ** Filters at concrete inputs *)

Lemma filter_types_selects_witness :
  (pr_fltr fresh_probe = None ->
   is_Some (@malloc (image_sys []) (BLKID_FLTR_SIZE cd_registry * 8)))
  /\ exists f : list Z,
       @blkid_probe_filter_types spec_consts (image_sys []) cd_registry
         (Some fresh_probe) 2 (Some ["vfat"%string])
       = Ok (0, Some (set_idx 0 (set_fltr (Some f) fresh_probe)))
       /\ disabled f 0 /\ ~ disabled f 1 /\ disabled f 2.
Proof.
  assert (H : pr_fltr fresh_probe = None ->
              is_Some (@malloc (image_sys [])
                         (BLKID_FLTR_SIZE cd_registry * 8)))
    by (intros _; eexists; reflexivity).
  split; [exact H|].
  destruct (@filter_types_selects spec_consts (image_sys []) cd_registry
              fresh_probe 2 ["vfat"%string] H) as (f & Hc & _ & Hsel).
  exists f. split; [exact Hc|].
  split; [|split].
  - apply (Hsel 0%nat _ eq_refl). simpl.
    intros Hin. apply list_elem_of_In in Hin as [Hin|[]]. discriminate Hin.
  - intros Hd. apply (Hsel 1%nat _ eq_refl) in Hd. simpl in Hd.
    apply Hd. apply list_elem_of_In. left. reflexivity.
  - apply (Hsel 2%nat _ eq_refl). simpl.
    intros Hin. apply list_elem_of_In in Hin as [Hin|[]]. discriminate Hin.
Defined.

Lemma filter_usage_selects_witness :
  8 <> 0
  /\ (pr_fltr fresh_probe = None ->
      is_Some (@malloc (image_sys []) (BLKID_FLTR_SIZE cd_registry * 8)))
  /\ exists f : list Z,
       @blkid_probe_filter_usage spec_consts (image_sys []) cd_registry
         (Some fresh_probe) 1 8
       = Ok (0, Some (set_idx 0 (set_fltr (Some f) fresh_probe)))
       /\ disabled f 0 /\ ~ disabled f 1 /\ ~ disabled f 2.
Proof.
  assert (H0 : 8 <> 0) by discriminate.
  assert (H : pr_fltr fresh_probe = None ->
              is_Some (@malloc (image_sys [])
                         (BLKID_FLTR_SIZE cd_registry * 8)))
    by (intros _; eexists; reflexivity).
  split; [exact H0|]. split; [exact H|].
  destruct (@filter_usage_selects spec_consts (image_sys []) cd_registry
              fresh_probe 1 8 H0 H) as (f & Hc & _ & Hsel).
  exists f. split; [exact Hc|].
  split; [|split].
  - apply (Hsel 0%nat _ eq_refl). reflexivity.
  - intros Hd. apply (Hsel 1%nat _ eq_refl) in Hd. discriminate Hd.
  - intros Hd. apply (Hsel 2%nat _ eq_refl) in Hd. discriminate Hd.
Defined.

Lemma filter_alloc_unchecked_witness :
  pr_fltr fresh_probe = None
  /\ @malloc text_sys (BLKID_FLTR_SIZE cd_registry * 8) = None
  /\ @blkid_probe_filter_types spec_consts text_sys cd_registry
       (Some fresh_probe) 2 (Some ["vfat"%string]) = Fault
  /\ @blkid_probe_filter_types spec_consts text_sys cd_registry
       (Some fresh_probe) 0 (Some ["vfat"%string])
     = Ok (0, Some (set_idx 0 fresh_probe)).
Proof.
  assert (H1 : pr_fltr fresh_probe = None) by reflexivity.
  assert (H2 : @malloc text_sys (BLKID_FLTR_SIZE cd_registry * 8) = None)
    by reflexivity.
  split; [exact H1|]. split; [exact H2|].
  split.
  - exact (proj1 (@filter_alloc_unchecked spec_consts text_sys cd_registry
                    fresh_probe 2 1 ["vfat"%string] H1 H2)).
  - exact (proj1 (@filter_alloc_unchecked spec_consts text_sys cd_registry
                    fresh_probe 0 1 ["vfat"%string] H1 H2)).
Defined.

Lemma invert_filter_flips_witness :
  pr_fltr (filtered_session only_vfat) = Some only_vfat
  /\ length only_vfat = Z.to_nat (BLKID_FLTR_SIZE cd_registry)
  /\ exists f' : list Z,
       blkid_probe_invert_filter cd_registry
         (Some (filtered_session only_vfat))
       = (0, Some (set_idx 0 (set_fltr (Some f')
                                (filtered_session only_vfat))))
       /\ (disabled f' 1 <-> ~ disabled only_vfat 1).
Proof.
  assert (H1 : pr_fltr (filtered_session only_vfat) = Some only_vfat)
    by reflexivity.
  assert (H2 : length only_vfat = Z.to_nat (BLKID_FLTR_SIZE cd_registry))
    by reflexivity.
  split; [exact H1|]. split; [exact H2|].
  destruct (invert_filter_flips cd_registry (filtered_session only_vfat)
              only_vfat H1 H2) as (f' & Hc & _ & Hflip).
  exists f'. split; [exact Hc|].
  apply Hflip. vm_compute. split; [discriminate | reflexivity].
Defined.

(** ** Dispatch at concrete inputs *)


Lemma cd_registry_keeps_filter : registry_keeps_filter cd_registry.
Proof.
  repeat constructor; intros f pr mag rc pr' [= <-] [= _ <-]; reflexivity.
Qed.

Lemma cd_registry_keeps_cursor : registry_keeps_cursor cd_registry.
Proof.
  repeat constructor; intros f pr mag rc pr' [= <-] [= _ <-]; reflexivity.
Qed.

Lemma only_vfat_disables (i : nat) :
  disabled only_vfat (Z.of_nat i) \/ cd_registry !! i = cd_registry' !! i.
Proof.
  destruct i as [|[|[|i]]].
  - left. eexists. split; [reflexivity | discriminate].
  - right. reflexivity.
  - left. eexists. split; [reflexivity | discriminate].
  - right. reflexivity.
Qed.

Lemma do_probe_skips_disabled_witness :
  pr_fltr (filtered_session only_vfat) = Some only_vfat
  /\ length cd_registry = length cd_registry'
  /\ registry_keeps_filter cd_registry
  /\ (forall i : nat,
        disabled only_vfat (Z.of_nat i)
        \/ cd_registry !! i = cd_registry' !! i)
  /\ @blkid_do_probe spec_consts (image_sys cd_image) cd_registry
       (Some (filtered_session only_vfat))
     = @blkid_do_probe spec_consts (image_sys cd_image) cd_registry'
         (Some (filtered_session only_vfat)).
Proof.
  assert (H1 : pr_fltr (filtered_session only_vfat) = Some only_vfat)
    by reflexivity.
  assert (H2 : length cd_registry = length cd_registry') by reflexivity.
  split; [exact H1|]. split; [exact H2|].
  split; [exact cd_registry_keeps_filter|].
  split; [exact only_vfat_disables|].
  exact (@do_probe_skips_disabled spec_consts (image_sys cd_image)
           cd_registry cd_registry' (filtered_session only_vfat) only_vfat
           H1 H2 cd_registry_keeps_filter only_vfat_disables).
Defined.

Lemma nothing_enabled_disables (i : nat) :
  (i < length cd_registry)%nat -> disabled nothing_enabled (Z.of_nat i).
Proof.
  destruct i as [|[|[|i]]]; simpl; intros Hi; try lia.
  all: eexists; split; [reflexivity | discriminate].
Qed.

Lemma do_probe_all_disabled_witness :
  cd_registry <> []
  /\ pr_fltr (filtered_session nothing_enabled) = Some nothing_enabled
  /\ @blkid_do_probe spec_consts (image_sys cd_image) cd_registry
       (Some (filtered_session nothing_enabled))
     = Ok (1, Some (set_idx 2 (@blkid_probe_reset_vals spec_consts
                                 (filtered_session nothing_enabled)))).
Proof.
  assert (H1 : cd_registry <> []) by discriminate.
  assert (H2 : pr_fltr (filtered_session nothing_enabled)
               = Some nothing_enabled) by reflexivity.
  split; [exact H1|]. split; [exact H2|].
  exact (@do_probe_all_disabled spec_consts (image_sys cd_image)
           cd_registry (filtered_session nothing_enabled) nothing_enabled
           H1 H2 nothing_enabled_disables).
Defined.

Lemma session_invariants_witness :
  0 <= @BLKID_PROBVAL_NVALS spec_consts
  /\ @vals_ok spec_consts (@blkid_reset_probe spec_consts full_probe)
  /\ pr_nvals (@blkid_reset_probe spec_consts full_probe) = 0.
Proof.
  assert (H : 0 <= @BLKID_PROBVAL_NVALS spec_consts)
    by (vm_compute; discriminate).
  split; [exact H|].
  exact (proj1 (proj2 (proj2 (@session_invariants spec_consts (image_sys [])
                                full_probe H)))).
Defined.

(** ** Labels at concrete inputs *)

Lemma set_label_long_label_overflows_witness :
  @vals_ok spec_consts label_session
  /\ pr_nvals label_session + 2 <= @BLKID_PROBVAL_NVALS spec_consts
  /\ bit_set (pr_probreq label_session) (@BLKID_PROBREQ_LABEL spec_consts)
     = true
  /\ @BLKID_PROBVAL_BUFSIZ spec_consts <= Z.of_nat (length long_label)
  /\ @blkid_probe_set_label spec_consts label_session long_label = Fault.
Proof.
  assert (H1 : @vals_ok spec_consts label_session)
    by exact (fresh_vals_ok 6).
  assert (H2 : pr_nvals label_session + 2
               <= @BLKID_PROBVAL_NVALS spec_consts)
    by (vm_compute; discriminate).
  assert (H3 : bit_set (pr_probreq label_session)
                 (@BLKID_PROBREQ_LABEL spec_consts) = true) by reflexivity.
  assert (H4 : @BLKID_PROBVAL_BUFSIZ spec_consts
               <= Z.of_nat (length long_label))
    by (vm_compute; discriminate).
  split; [exact H1|]. split; [exact H2|]. split; [exact H3|].
  split; [exact H4|].
  exact (@set_label_long_label_overflows spec_consts label_session
           long_label H1 H2 H3 H4).
Defined.

Lemma set_utf8label_tags_witness :
  @vals_ok spec_consts label_session
  /\ pr_nvals label_session + 2 <= @BLKID_PROBVAL_NVALS spec_consts
  /\ 0 < @BLKID_PROBVAL_BUFSIZ spec_consts
  /\ exists (pr' : blkid_struct_probe) (bs : list Z),
       @blkid_probe_set_utf8label spec_consts label_session utf16_label 1
       = Ok (0, pr')
       /\ @encode_loop spec_consts 1 256 utf16_label 0 = bs ++ [0]
       /\ tags_of pr'
          = [(Some "LABEL_RAW"%string, utf16_label);
             (Some "LABEL"%string, bs)].
Proof.
  assert (H1 : @vals_ok spec_consts label_session)
    by exact (fresh_vals_ok 6).
  assert (H2 : pr_nvals label_session + 2
               <= @BLKID_PROBVAL_NVALS spec_consts)
    by (vm_compute; discriminate).
  assert (H3 : 0 < @BLKID_PROBVAL_BUFSIZ spec_consts)
    by (vm_compute; reflexivity).
  split; [exact H1|]. split; [exact H2|]. split; [exact H3|].
  destruct (@set_utf8label_tags spec_consts label_session utf16_label 1
              H1 H2 H3) as (pr' & bs & Hc & He & _ & Ht).
  exists pr', bs. split; [exact Hc|]. split; [exact He | exact Ht].
Defined.

(** ** The cache at concrete inputs *)

Lemma short_read_leaves_stale_window_witness :
  exists b : list Z,
    @BLKID_SB_BUFSIZ spec_consts < 70000 + 1024
    /\ 1024 <= pr_buf_max ramp_session
    /\ pr_buf ramp_session = Some b
    /\ (70000 < pr_buf_off ramp_session
        \/ pr_buf_off ramp_session + pr_buf_len ramp_session
           < 70000 + 1024)
    /\ @blkid_llseek (image_sys ramp_image) (pr_fd ramp_session)
         (pr_off ramp_session + 70000) = true
    /\ @read (image_sys ramp_image) (pr_fd ramp_session)
         (pr_off ramp_session + 70000) 1024
       = Some (slice 70000 1024 ramp_image)
    /\ Z.of_nat (length (slice 70000 1024 ramp_image)) < 1024
    /\ @blkid_probe_get_buffer spec_consts (image_sys ramp_image)
         ramp_session 70000 1024
       = (None,
          set_buf (Some (memcpy b (slice 70000 1024 ramp_image)))
            ramp_session)
    /\ (@blkid_probe_get_buffer spec_consts (image_sys ramp_image)
          (set_buf (Some (memcpy b (slice 70000 1024 ramp_image)))
             ramp_session) 65536 1024).1
       = Some (slice 0 1024 (memcpy b (slice 70000 1024 ramp_image)))
    /\ slice 0 1024 (memcpy b (slice 70000 1024 ramp_image))
       <> slice 65536 1024 ramp_image.
Proof.
  destruct (pr_buf ramp_session) as [b|] eqn:Hb.
  2: { exfalso.
       assert (Hn : from_option (fun _ => true) false (pr_buf ramp_session)
                    = true) by (vm_compute; reflexivity).
       rewrite Hb in Hn. discriminate Hn. }
  exists b.
  assert (H1 : @BLKID_SB_BUFSIZ spec_consts < 70000 + 1024)
    by (vm_compute; reflexivity).
  assert (H2 : 1024 <= pr_buf_max ramp_session)
    by (vm_compute; discriminate).
  assert (H4 : 70000 < pr_buf_off ramp_session
               \/ pr_buf_off ramp_session + pr_buf_len ramp_session
                  < 70000 + 1024)
    by (right; vm_compute; reflexivity).
  assert (H5 : @blkid_llseek (image_sys ramp_image) (pr_fd ramp_session)
                 (pr_off ramp_session + 70000) = true)
    by (vm_compute; reflexivity).
  assert (H6 : @read (image_sys ramp_image) (pr_fd ramp_session)
                 (pr_off ramp_session + 70000) 1024
               = Some (slice 70000 1024 ramp_image))
    by (vm_compute; reflexivity).
  assert (H7 : Z.of_nat (length (slice 70000 1024 ramp_image)) < 1024)
    by (vm_compute; reflexivity).
  split; [exact H1|]. split; [exact H2|]. split; [reflexivity|].
  split; [exact H4|]. split; [exact H5|]. split; [exact H6|].
  split; [exact H7|].
  pose proof (@short_read_leaves_stale_window spec_consts
                (image_sys ramp_image) ramp_session 70000 1024 b
                (slice 70000 1024 ramp_image) H1 H2 Hb H4 H5 H6 H7)
    as [Hfail Hstale].
  split; [exact Hfail|].
  assert (Hoff : pr_buf_off ramp_session = 65536)
    by (vm_compute; reflexivity).
  split.
  - rewrite (Hstale 65536 1024).
    + rewrite Hoff. reflexivity.
    + vm_compute. reflexivity.
    + vm_compute. discriminate.
    + vm_compute. discriminate.
    + vm_compute. discriminate.
  - intros Heq. apply (f_equal head) in Heq. vm_compute in Heq.
    discriminate Heq.
Defined.

Lemma ramp_image_is_stable : @stable_device (image_sys ramp_image) ramp_image.
Proof. intros fd pos count Hpos. reflexivity. Qed.

Lemma served_bytes_are_device_bytes_witness :
  exists (d : list Z) (pr' : blkid_struct_probe),
    @stable_device (image_sys ramp_image) ramp_image
    /\ buffers_ok fresh_probe /\ cache_coherent ramp_image fresh_probe
    /\ @blkid_probe_get_buffer spec_consts (image_sys ramp_image)
         fresh_probe 65536 1024 = (Some d, pr')
    /\ d = slice (pr_off fresh_probe + 65536) 1024 ramp_image
    /\ cache_coherent ramp_image pr'.
Proof.
  destruct (@blkid_probe_get_buffer spec_consts (image_sys ramp_image)
              fresh_probe 65536 1024) as [[d|] pr'] eqn:H.
  2: { exfalso.
       assert (Hn : from_option (fun _ => true) false
                      (@blkid_probe_get_buffer spec_consts
                         (image_sys ramp_image) fresh_probe 65536 1024).1
                    = true) by (vm_compute; reflexivity).
       rewrite H in Hn. discriminate Hn. }
  exists d, pr'.
  assert (H1 : buffers_ok fresh_probe).
  { unfold buffers_ok, sb_ok, buf_ok. simpl. repeat split; intros; lia. }
  assert (H2 : cache_coherent ramp_image fresh_probe) by (split; reflexivity).
  split; [exact ramp_image_is_stable|]. split; [exact H1|].
  split; [exact H2|]. split; [reflexivity|].
  apply (proj2 (@served_bytes_are_device_bytes spec_consts
                  (image_sys ramp_image) ramp_image fresh_probe pr'
                  65536 1024 d ramp_image_is_stable) H1 H2).
  - vm_compute. discriminate.
  - vm_compute. discriminate.
  - vm_compute. reflexivity.
  - exact H.
Defined.

(** ** Filter and dispatch at concrete inputs *)

Lemma filtered_probe_matches_selection_witness :
  exists pr' : blkid_struct_probe,
    registry_keeps_filter cd_registry
    /\ (pr_fltr fresh_probe = None ->
        is_Some (@malloc (image_sys cd_image)
                   (BLKID_FLTR_SIZE cd_registry * 8)))
    /\ @blkid_probe_filter_types spec_consts (image_sys cd_image)
         cd_registry (Some fresh_probe) 2 (Some ["vfat"%string])
       = Ok (0, Some (set_idx 0 (set_fltr (Some only_vfat) fresh_probe)))
    /\ @blkid_do_probe spec_consts (image_sys cd_image) cd_registry
         (Some (set_idx 0 (set_fltr (Some only_vfat) fresh_probe)))
       = Ok (0, Some pr')
    /\ registry_keeps_cursor cd_registry
    /\ pr_idx pr' = 1
    /\ exists id : blkid_idinfo,
         cd_registry !! Z.to_nat (pr_idx pr') = Some id
         /\ id_name id ∈ ["vfat"%string].
Proof.
  destruct (@blkid_do_probe spec_consts (image_sys cd_image) cd_registry
              (Some (set_idx 0 (set_fltr (Some only_vfat) fresh_probe))))
    as [[rc [pr'|]]|] eqn:H.
  2-3: exfalso;
    assert (Hn : match @blkid_do_probe spec_consts (image_sys cd_image)
                         cd_registry
                         (Some (set_idx 0 (set_fltr (Some only_vfat)
                                             fresh_probe)))
                 with Ok (_, Some _) => true | _ => false end = true)
      by (vm_compute; reflexivity);
    rewrite H in Hn; discriminate Hn.
  assert (Hrc : match @blkid_do_probe spec_consts (image_sys cd_image)
                        cd_registry
                        (Some (set_idx 0 (set_fltr (Some only_vfat)
                                            fresh_probe)))
                with Ok (rc, _) => rc | Fault => -1 end = 0)
    by (vm_compute; reflexivity).
  rewrite H in Hrc. subst rc.
  exists pr'.
  assert (H2 : pr_fltr fresh_probe = None ->
               is_Some (@malloc (image_sys cd_image)
                          (BLKID_FLTR_SIZE cd_registry * 8)))
    by (intros _; eexists; reflexivity).
  assert (H3 : @blkid_probe_filter_types spec_consts (image_sys cd_image)
                 cd_registry (Some fresh_probe) 2 (Some ["vfat"%string])
               = Ok (0, Some (set_idx 0 (set_fltr (Some only_vfat)
                                           fresh_probe))))
    by (vm_compute; reflexivity).
  split; [exact cd_registry_keeps_filter|]. split; [exact H2|].
  split; [exact H3|]. split; [reflexivity|].
  split; [exact cd_registry_keeps_cursor|].
  assert (Hidx : match @blkid_do_probe spec_consts (image_sys cd_image)
                         cd_registry
                         (Some (set_idx 0 (set_fltr (Some only_vfat)
                                             fresh_probe)))
                 with Ok (_, Some p) => pr_idx p | _ => -1 end = 1)
    by (vm_compute; reflexivity).
  rewrite H in Hidx. split; [exact Hidx|].
  destruct (proj1 (@filtered_probe_matches_selection spec_consts
                     (image_sys cd_image) cd_registry fresh_probe
                     (set_idx 0 (set_fltr (Some only_vfat) fresh_probe))
                     pr' 2 cd_registry_keeps_filter H2 H)
              ["vfat"%string] H3)
    as (i & id & p0 & Hid & _ & _ & Hcur & Hsel).
  exists id. rewrite (Hcur cd_registry_keeps_cursor), Nat2Z.id.
  split; [exact Hid | exact Hsel].
Defined.
